(** * image_generator.py: filename derivation, prompt assembly and the
      generation pipeline

    A shallow embedding of [src/image_generator.py].

    Python [str] values are lists of Unicode code points.  The character
    classes used by [sanitize_filename] (the regular-expression classes
    [\w] and [\s] on [str] patterns) and [str.lower] are tabulated for every
    code point, as CPython 3.11 has them (Unicode 14.0.0); [str.lower]
    includes the rule for the capital sigma at the end of a word.

    The remote services, the HTTP download, the image decoder, the file
    system and the clock are collaborators: they appear as a [World] whose
    answers are arbitrary, and every call made to them is recorded in a
    trace of events.  The console is a collaborator as well where the text
    it is handed holds an opening bracket that comes from outside the
    source, since its markup may then be refused.  The progress display is
    modelled apart, in [generate_progress]; the float arithmetic on
    wall-clock readings is not modelled. *)

From Stdlib Require Import String Ascii Decimal.
From Stdlib Require Import List NArith ZArith Bool Lia.
Import ListNotations.

Local Open Scope N_scope.

(** ** Python strings *)

Definition char := N.
Definition str := list char.

(** A source literal, as the list of its code points. *)
Definition of_string (s : string) : str :=
  map N_of_ascii (list_ascii_of_string s).

Notation "'py' s" := (of_string s%string) (at level 1, s at level 0, only parsing).

Definition str_eqb (a b : str) : bool :=
  if list_eq_dec N.eq_dec a b then true else false.

Definition latin1 (s : str) : Prop := Forall (fun c => c < 256) s.

(** [P] holds of the [count] numbers from [start] on. *)
Fixpoint forall_from (count : nat) (start : N) (P : N -> bool) : bool :=
  match count with
  | O => true
  | S count' => P start && forall_from count' (N.succ start) P
  end.

(** ** Character tables *)

Module Unicode.

Definition in_range (lo hi c : char) : bool := (lo <=? c) && (c <=? hi).

(** [c] lies in one of the ranges of a table in increasing order. *)
Fixpoint in_ranges (table : list (char * char)) (c : char) : bool :=
  match table with
  | [] => false
  | (lo, hi) :: table' =>
      if c <? lo then false
      else if c <=? hi then true
      else in_ranges table' c
  end.

(** The image of [c] in a table of pairs in increasing order. *)
Fixpoint find_pair (table : list (char * char)) (c : char) : option char :=
  match table with
  | [] => None
  | (k, v) :: table' =>
      if c <? k then None
      else if c =? k then Some v
      else find_pair table' c
  end.

(** The code points of the class [\w] on [str] patterns (alphanumeric or
      the underscore), as inclusive ranges in increasing order. *)
Definition word_ranges : list (char * char) :=
    [
      (0x30, 0x39); (0x41, 0x5a); (0x5f, 0x5f); (0x61, 0x7a); (0xaa, 0xaa);
      (0xb2, 0xb3); (0xb5, 0xb5); (0xb9, 0xba); (0xbc, 0xbe); (0xc0, 0xd6);
      (0xd8, 0xf6); (0xf8, 0x2c1); (0x2c6, 0x2d1); (0x2e0, 0x2e4);
      (0x2ec, 0x2ec); (0x2ee, 0x2ee); (0x370, 0x374); (0x376, 0x377);
      (0x37a, 0x37d); (0x37f, 0x37f); (0x386, 0x386); (0x388, 0x38a);
      (0x38c, 0x38c); (0x38e, 0x3a1); (0x3a3, 0x3f5); (0x3f7, 0x481);
      (0x48a, 0x52f); (0x531, 0x556); (0x559, 0x559); (0x560, 0x588);
      (0x5d0, 0x5ea); (0x5ef, 0x5f2); (0x620, 0x64a); (0x660, 0x669);
      (0x66e, 0x66f); (0x671, 0x6d3); (0x6d5, 0x6d5); (0x6e5, 0x6e6);
      (0x6ee, 0x6fc); (0x6ff, 0x6ff); (0x710, 0x710); (0x712, 0x72f);
      (0x74d, 0x7a5); (0x7b1, 0x7b1); (0x7c0, 0x7ea); (0x7f4, 0x7f5);
      (0x7fa, 0x7fa); (0x800, 0x815); (0x81a, 0x81a); (0x824, 0x824);
      (0x828, 0x828); (0x840, 0x858); (0x860, 0x86a); (0x870, 0x887);
      (0x889, 0x88e); (0x8a0, 0x8c9); (0x904, 0x939); (0x93d, 0x93d);
      (0x950, 0x950); (0x958, 0x961); (0x966, 0x96f); (0x971, 0x980);
      (0x985, 0x98c); (0x98f, 0x990); (0x993, 0x9a8); (0x9aa, 0x9b0);
      (0x9b2, 0x9b2); (0x9b6, 0x9b9); (0x9bd, 0x9bd); (0x9ce, 0x9ce);
      (0x9dc, 0x9dd); (0x9df, 0x9e1); (0x9e6, 0x9f1); (0x9f4, 0x9f9);
      (0x9fc, 0x9fc); (0xa05, 0xa0a); (0xa0f, 0xa10); (0xa13, 0xa28);
      (0xa2a, 0xa30); (0xa32, 0xa33); (0xa35, 0xa36); (0xa38, 0xa39);
      (0xa59, 0xa5c); (0xa5e, 0xa5e); (0xa66, 0xa6f); (0xa72, 0xa74);
      (0xa85, 0xa8d); (0xa8f, 0xa91); (0xa93, 0xaa8); (0xaaa, 0xab0);
      (0xab2, 0xab3); (0xab5, 0xab9); (0xabd, 0xabd); (0xad0, 0xad0);
      (0xae0, 0xae1); (0xae6, 0xaef); (0xaf9, 0xaf9); (0xb05, 0xb0c);
      (0xb0f, 0xb10); (0xb13, 0xb28); (0xb2a, 0xb30); (0xb32, 0xb33);
      (0xb35, 0xb39); (0xb3d, 0xb3d); (0xb5c, 0xb5d); (0xb5f, 0xb61);
      (0xb66, 0xb6f); (0xb71, 0xb77); (0xb83, 0xb83); (0xb85, 0xb8a);
      (0xb8e, 0xb90); (0xb92, 0xb95); (0xb99, 0xb9a); (0xb9c, 0xb9c);
      (0xb9e, 0xb9f); (0xba3, 0xba4); (0xba8, 0xbaa); (0xbae, 0xbb9);
      (0xbd0, 0xbd0); (0xbe6, 0xbf2); (0xc05, 0xc0c); (0xc0e, 0xc10);
      (0xc12, 0xc28); (0xc2a, 0xc39); (0xc3d, 0xc3d); (0xc58, 0xc5a);
      (0xc5d, 0xc5d); (0xc60, 0xc61); (0xc66, 0xc6f); (0xc78, 0xc7e);
      (0xc80, 0xc80); (0xc85, 0xc8c); (0xc8e, 0xc90); (0xc92, 0xca8);
      (0xcaa, 0xcb3); (0xcb5, 0xcb9); (0xcbd, 0xcbd); (0xcdd, 0xcde);
      (0xce0, 0xce1); (0xce6, 0xcef); (0xcf1, 0xcf2); (0xd04, 0xd0c);
      (0xd0e, 0xd10); (0xd12, 0xd3a); (0xd3d, 0xd3d); (0xd4e, 0xd4e);
      (0xd54, 0xd56); (0xd58, 0xd61); (0xd66, 0xd78); (0xd7a, 0xd7f);
      (0xd85, 0xd96); (0xd9a, 0xdb1); (0xdb3, 0xdbb); (0xdbd, 0xdbd);
      (0xdc0, 0xdc6); (0xde6, 0xdef); (0xe01, 0xe30); (0xe32, 0xe33);
      (0xe40, 0xe46); (0xe50, 0xe59); (0xe81, 0xe82); (0xe84, 0xe84);
      (0xe86, 0xe8a); (0xe8c, 0xea3); (0xea5, 0xea5); (0xea7, 0xeb0);
      (0xeb2, 0xeb3); (0xebd, 0xebd); (0xec0, 0xec4); (0xec6, 0xec6);
      (0xed0, 0xed9); (0xedc, 0xedf); (0xf00, 0xf00); (0xf20, 0xf33);
      (0xf40, 0xf47); (0xf49, 0xf6c); (0xf88, 0xf8c); (0x1000, 0x102a);
      (0x103f, 0x1049); (0x1050, 0x1055); (0x105a, 0x105d); (0x1061, 0x1061);
      (0x1065, 0x1066); (0x106e, 0x1070); (0x1075, 0x1081); (0x108e, 0x108e);
      (0x1090, 0x1099); (0x10a0, 0x10c5); (0x10c7, 0x10c7); (0x10cd, 0x10cd);
      (0x10d0, 0x10fa); (0x10fc, 0x1248); (0x124a, 0x124d); (0x1250, 0x1256);
      (0x1258, 0x1258); (0x125a, 0x125d); (0x1260, 0x1288); (0x128a, 0x128d);
      (0x1290, 0x12b0); (0x12b2, 0x12b5); (0x12b8, 0x12be); (0x12c0, 0x12c0);
      (0x12c2, 0x12c5); (0x12c8, 0x12d6); (0x12d8, 0x1310); (0x1312, 0x1315);
      (0x1318, 0x135a); (0x1369, 0x137c); (0x1380, 0x138f); (0x13a0, 0x13f5);
      (0x13f8, 0x13fd); (0x1401, 0x166c); (0x166f, 0x167f); (0x1681, 0x169a);
      (0x16a0, 0x16ea); (0x16ee, 0x16f8); (0x1700, 0x1711); (0x171f, 0x1731);
      (0x1740, 0x1751); (0x1760, 0x176c); (0x176e, 0x1770); (0x1780, 0x17b3);
      (0x17d7, 0x17d7); (0x17dc, 0x17dc); (0x17e0, 0x17e9); (0x17f0, 0x17f9);
      (0x1810, 0x1819); (0x1820, 0x1878); (0x1880, 0x1884); (0x1887, 0x18a8);
      (0x18aa, 0x18aa); (0x18b0, 0x18f5); (0x1900, 0x191e); (0x1946, 0x196d);
      (0x1970, 0x1974); (0x1980, 0x19ab); (0x19b0, 0x19c9); (0x19d0, 0x19da);
      (0x1a00, 0x1a16); (0x1a20, 0x1a54); (0x1a80, 0x1a89); (0x1a90, 0x1a99);
      (0x1aa7, 0x1aa7); (0x1b05, 0x1b33); (0x1b45, 0x1b4c); (0x1b50, 0x1b59);
      (0x1b83, 0x1ba0); (0x1bae, 0x1be5); (0x1c00, 0x1c23); (0x1c40, 0x1c49);
      (0x1c4d, 0x1c7d); (0x1c80, 0x1c88); (0x1c90, 0x1cba); (0x1cbd, 0x1cbf);
      (0x1ce9, 0x1cec); (0x1cee, 0x1cf3); (0x1cf5, 0x1cf6); (0x1cfa, 0x1cfa);
      (0x1d00, 0x1dbf); (0x1e00, 0x1f15); (0x1f18, 0x1f1d); (0x1f20, 0x1f45);
      (0x1f48, 0x1f4d); (0x1f50, 0x1f57); (0x1f59, 0x1f59); (0x1f5b, 0x1f5b);
      (0x1f5d, 0x1f5d); (0x1f5f, 0x1f7d); (0x1f80, 0x1fb4); (0x1fb6, 0x1fbc);
      (0x1fbe, 0x1fbe); (0x1fc2, 0x1fc4); (0x1fc6, 0x1fcc); (0x1fd0, 0x1fd3);
      (0x1fd6, 0x1fdb); (0x1fe0, 0x1fec); (0x1ff2, 0x1ff4); (0x1ff6, 0x1ffc);
      (0x2070, 0x2071); (0x2074, 0x2079); (0x207f, 0x2089); (0x2090, 0x209c);
      (0x2102, 0x2102); (0x2107, 0x2107); (0x210a, 0x2113); (0x2115, 0x2115);
      (0x2119, 0x211d); (0x2124, 0x2124); (0x2126, 0x2126); (0x2128, 0x2128);
      (0x212a, 0x212d); (0x212f, 0x2139); (0x213c, 0x213f); (0x2145, 0x2149);
      (0x214e, 0x214e); (0x2150, 0x2189); (0x2460, 0x249b); (0x24ea, 0x24ff);
      (0x2776, 0x2793); (0x2c00, 0x2ce4); (0x2ceb, 0x2cee); (0x2cf2, 0x2cf3);
      (0x2cfd, 0x2cfd); (0x2d00, 0x2d25); (0x2d27, 0x2d27); (0x2d2d, 0x2d2d);
      (0x2d30, 0x2d67); (0x2d6f, 0x2d6f); (0x2d80, 0x2d96); (0x2da0, 0x2da6);
      (0x2da8, 0x2dae); (0x2db0, 0x2db6); (0x2db8, 0x2dbe); (0x2dc0, 0x2dc6);
      (0x2dc8, 0x2dce); (0x2dd0, 0x2dd6); (0x2dd8, 0x2dde); (0x2e2f, 0x2e2f);
      (0x3005, 0x3007); (0x3021, 0x3029); (0x3031, 0x3035); (0x3038, 0x303c);
      (0x3041, 0x3096); (0x309d, 0x309f); (0x30a1, 0x30fa); (0x30fc, 0x30ff);
      (0x3105, 0x312f); (0x3131, 0x318e); (0x3192, 0x3195); (0x31a0, 0x31bf);
      (0x31f0, 0x31ff); (0x3220, 0x3229); (0x3248, 0x324f); (0x3251, 0x325f);
      (0x3280, 0x3289); (0x32b1, 0x32bf); (0x3400, 0x4dbf); (0x4e00, 0xa48c);
      (0xa4d0, 0xa4fd); (0xa500, 0xa60c); (0xa610, 0xa62b); (0xa640, 0xa66e);
      (0xa67f, 0xa69d); (0xa6a0, 0xa6ef); (0xa717, 0xa71f); (0xa722, 0xa788);
      (0xa78b, 0xa7ca); (0xa7d0, 0xa7d1); (0xa7d3, 0xa7d3); (0xa7d5, 0xa7d9);
      (0xa7f2, 0xa801); (0xa803, 0xa805); (0xa807, 0xa80a); (0xa80c, 0xa822);
      (0xa830, 0xa835); (0xa840, 0xa873); (0xa882, 0xa8b3); (0xa8d0, 0xa8d9);
      (0xa8f2, 0xa8f7); (0xa8fb, 0xa8fb); (0xa8fd, 0xa8fe); (0xa900, 0xa925);
      (0xa930, 0xa946); (0xa960, 0xa97c); (0xa984, 0xa9b2); (0xa9cf, 0xa9d9);
      (0xa9e0, 0xa9e4); (0xa9e6, 0xa9fe); (0xaa00, 0xaa28); (0xaa40, 0xaa42);
      (0xaa44, 0xaa4b); (0xaa50, 0xaa59); (0xaa60, 0xaa76); (0xaa7a, 0xaa7a);
      (0xaa7e, 0xaaaf); (0xaab1, 0xaab1); (0xaab5, 0xaab6); (0xaab9, 0xaabd);
      (0xaac0, 0xaac0); (0xaac2, 0xaac2); (0xaadb, 0xaadd); (0xaae0, 0xaaea);
      (0xaaf2, 0xaaf4); (0xab01, 0xab06); (0xab09, 0xab0e); (0xab11, 0xab16);
      (0xab20, 0xab26); (0xab28, 0xab2e); (0xab30, 0xab5a); (0xab5c, 0xab69);
      (0xab70, 0xabe2); (0xabf0, 0xabf9); (0xac00, 0xd7a3); (0xd7b0, 0xd7c6);
      (0xd7cb, 0xd7fb); (0xf900, 0xfa6d); (0xfa70, 0xfad9); (0xfb00, 0xfb06);
      (0xfb13, 0xfb17); (0xfb1d, 0xfb1d); (0xfb1f, 0xfb28); (0xfb2a, 0xfb36);
      (0xfb38, 0xfb3c); (0xfb3e, 0xfb3e); (0xfb40, 0xfb41); (0xfb43, 0xfb44);
      (0xfb46, 0xfbb1); (0xfbd3, 0xfd3d); (0xfd50, 0xfd8f); (0xfd92, 0xfdc7);
      (0xfdf0, 0xfdfb); (0xfe70, 0xfe74); (0xfe76, 0xfefc); (0xff10, 0xff19);
      (0xff21, 0xff3a); (0xff41, 0xff5a); (0xff66, 0xffbe); (0xffc2, 0xffc7);
      (0xffca, 0xffcf); (0xffd2, 0xffd7); (0xffda, 0xffdc); (0x10000, 0x1000b);
      (0x1000d, 0x10026); (0x10028, 0x1003a); (0x1003c, 0x1003d);
      (0x1003f, 0x1004d); (0x10050, 0x1005d); (0x10080, 0x100fa);
      (0x10107, 0x10133); (0x10140, 0x10178); (0x1018a, 0x1018b);
      (0x10280, 0x1029c); (0x102a0, 0x102d0); (0x102e1, 0x102fb);
      (0x10300, 0x10323); (0x1032d, 0x1034a); (0x10350, 0x10375);
      (0x10380, 0x1039d); (0x103a0, 0x103c3); (0x103c8, 0x103cf);
      (0x103d1, 0x103d5); (0x10400, 0x1049d); (0x104a0, 0x104a9);
      (0x104b0, 0x104d3); (0x104d8, 0x104fb); (0x10500, 0x10527);
      (0x10530, 0x10563); (0x10570, 0x1057a); (0x1057c, 0x1058a);
      (0x1058c, 0x10592); (0x10594, 0x10595); (0x10597, 0x105a1);
      (0x105a3, 0x105b1); (0x105b3, 0x105b9); (0x105bb, 0x105bc);
      (0x10600, 0x10736); (0x10740, 0x10755); (0x10760, 0x10767);
      (0x10780, 0x10785); (0x10787, 0x107b0); (0x107b2, 0x107ba);
      (0x10800, 0x10805); (0x10808, 0x10808); (0x1080a, 0x10835);
      (0x10837, 0x10838); (0x1083c, 0x1083c); (0x1083f, 0x10855);
      (0x10858, 0x10876); (0x10879, 0x1089e); (0x108a7, 0x108af);
      (0x108e0, 0x108f2); (0x108f4, 0x108f5); (0x108fb, 0x1091b);
      (0x10920, 0x10939); (0x10980, 0x109b7); (0x109bc, 0x109cf);
      (0x109d2, 0x10a00); (0x10a10, 0x10a13); (0x10a15, 0x10a17);
      (0x10a19, 0x10a35); (0x10a40, 0x10a48); (0x10a60, 0x10a7e);
      (0x10a80, 0x10a9f); (0x10ac0, 0x10ac7); (0x10ac9, 0x10ae4);
      (0x10aeb, 0x10aef); (0x10b00, 0x10b35); (0x10b40, 0x10b55);
      (0x10b58, 0x10b72); (0x10b78, 0x10b91); (0x10ba9, 0x10baf);
      (0x10c00, 0x10c48); (0x10c80, 0x10cb2); (0x10cc0, 0x10cf2);
      (0x10cfa, 0x10d23); (0x10d30, 0x10d39); (0x10e60, 0x10e7e);
      (0x10e80, 0x10ea9); (0x10eb0, 0x10eb1); (0x10f00, 0x10f27);
      (0x10f30, 0x10f45); (0x10f51, 0x10f54); (0x10f70, 0x10f81);
      (0x10fb0, 0x10fcb); (0x10fe0, 0x10ff6); (0x11003, 0x11037);
      (0x11052, 0x1106f); (0x11071, 0x11072); (0x11075, 0x11075);
      (0x11083, 0x110af); (0x110d0, 0x110e8); (0x110f0, 0x110f9);
      (0x11103, 0x11126); (0x11136, 0x1113f); (0x11144, 0x11144);
      (0x11147, 0x11147); (0x11150, 0x11172); (0x11176, 0x11176);
      (0x11183, 0x111b2); (0x111c1, 0x111c4); (0x111d0, 0x111da);
      (0x111dc, 0x111dc); (0x111e1, 0x111f4); (0x11200, 0x11211);
      (0x11213, 0x1122b); (0x11280, 0x11286); (0x11288, 0x11288);
      (0x1128a, 0x1128d); (0x1128f, 0x1129d); (0x1129f, 0x112a8);
      (0x112b0, 0x112de); (0x112f0, 0x112f9); (0x11305, 0x1130c);
      (0x1130f, 0x11310); (0x11313, 0x11328); (0x1132a, 0x11330);
      (0x11332, 0x11333); (0x11335, 0x11339); (0x1133d, 0x1133d);
      (0x11350, 0x11350); (0x1135d, 0x11361); (0x11400, 0x11434);
      (0x11447, 0x1144a); (0x11450, 0x11459); (0x1145f, 0x11461);
      (0x11480, 0x114af); (0x114c4, 0x114c5); (0x114c7, 0x114c7);
      (0x114d0, 0x114d9); (0x11580, 0x115ae); (0x115d8, 0x115db);
      (0x11600, 0x1162f); (0x11644, 0x11644); (0x11650, 0x11659);
      (0x11680, 0x116aa); (0x116b8, 0x116b8); (0x116c0, 0x116c9);
      (0x11700, 0x1171a); (0x11730, 0x1173b); (0x11740, 0x11746);
      (0x11800, 0x1182b); (0x118a0, 0x118f2); (0x118ff, 0x11906);
      (0x11909, 0x11909); (0x1190c, 0x11913); (0x11915, 0x11916);
      (0x11918, 0x1192f); (0x1193f, 0x1193f); (0x11941, 0x11941);
      (0x11950, 0x11959); (0x119a0, 0x119a7); (0x119aa, 0x119d0);
      (0x119e1, 0x119e1); (0x119e3, 0x119e3); (0x11a00, 0x11a00);
      (0x11a0b, 0x11a32); (0x11a3a, 0x11a3a); (0x11a50, 0x11a50);
      (0x11a5c, 0x11a89); (0x11a9d, 0x11a9d); (0x11ab0, 0x11af8);
      (0x11c00, 0x11c08); (0x11c0a, 0x11c2e); (0x11c40, 0x11c40);
      (0x11c50, 0x11c6c); (0x11c72, 0x11c8f); (0x11d00, 0x11d06);
      (0x11d08, 0x11d09); (0x11d0b, 0x11d30); (0x11d46, 0x11d46);
      (0x11d50, 0x11d59); (0x11d60, 0x11d65); (0x11d67, 0x11d68);
      (0x11d6a, 0x11d89); (0x11d98, 0x11d98); (0x11da0, 0x11da9);
      (0x11ee0, 0x11ef2); (0x11fb0, 0x11fb0); (0x11fc0, 0x11fd4);
      (0x12000, 0x12399); (0x12400, 0x1246e); (0x12480, 0x12543);
      (0x12f90, 0x12ff0); (0x13000, 0x1342e); (0x14400, 0x14646);
      (0x16800, 0x16a38); (0x16a40, 0x16a5e); (0x16a60, 0x16a69);
      (0x16a70, 0x16abe); (0x16ac0, 0x16ac9); (0x16ad0, 0x16aed);
      (0x16b00, 0x16b2f); (0x16b40, 0x16b43); (0x16b50, 0x16b59);
      (0x16b5b, 0x16b61); (0x16b63, 0x16b77); (0x16b7d, 0x16b8f);
      (0x16e40, 0x16e96); (0x16f00, 0x16f4a); (0x16f50, 0x16f50);
      (0x16f93, 0x16f9f); (0x16fe0, 0x16fe1); (0x16fe3, 0x16fe3);
      (0x17000, 0x187f7); (0x18800, 0x18cd5); (0x18d00, 0x18d08);
      (0x1aff0, 0x1aff3); (0x1aff5, 0x1affb); (0x1affd, 0x1affe);
      (0x1b000, 0x1b122); (0x1b150, 0x1b152); (0x1b164, 0x1b167);
      (0x1b170, 0x1b2fb); (0x1bc00, 0x1bc6a); (0x1bc70, 0x1bc7c);
      (0x1bc80, 0x1bc88); (0x1bc90, 0x1bc99); (0x1d2e0, 0x1d2f3);
      (0x1d360, 0x1d378); (0x1d400, 0x1d454); (0x1d456, 0x1d49c);
      (0x1d49e, 0x1d49f); (0x1d4a2, 0x1d4a2); (0x1d4a5, 0x1d4a6);
      (0x1d4a9, 0x1d4ac); (0x1d4ae, 0x1d4b9); (0x1d4bb, 0x1d4bb);
      (0x1d4bd, 0x1d4c3); (0x1d4c5, 0x1d505); (0x1d507, 0x1d50a);
      (0x1d50d, 0x1d514); (0x1d516, 0x1d51c); (0x1d51e, 0x1d539);
      (0x1d53b, 0x1d53e); (0x1d540, 0x1d544); (0x1d546, 0x1d546);
      (0x1d54a, 0x1d550); (0x1d552, 0x1d6a5); (0x1d6a8, 0x1d6c0);
      (0x1d6c2, 0x1d6da); (0x1d6dc, 0x1d6fa); (0x1d6fc, 0x1d714);
      (0x1d716, 0x1d734); (0x1d736, 0x1d74e); (0x1d750, 0x1d76e);
      (0x1d770, 0x1d788); (0x1d78a, 0x1d7a8); (0x1d7aa, 0x1d7c2);
      (0x1d7c4, 0x1d7cb); (0x1d7ce, 0x1d7ff); (0x1df00, 0x1df1e);
      (0x1e100, 0x1e12c); (0x1e137, 0x1e13d); (0x1e140, 0x1e149);
      (0x1e14e, 0x1e14e); (0x1e290, 0x1e2ad); (0x1e2c0, 0x1e2eb);
      (0x1e2f0, 0x1e2f9); (0x1e7e0, 0x1e7e6); (0x1e7e8, 0x1e7eb);
      (0x1e7ed, 0x1e7ee); (0x1e7f0, 0x1e7fe); (0x1e800, 0x1e8c4);
      (0x1e8c7, 0x1e8cf); (0x1e900, 0x1e943); (0x1e94b, 0x1e94b);
      (0x1e950, 0x1e959); (0x1ec71, 0x1ecab); (0x1ecad, 0x1ecaf);
      (0x1ecb1, 0x1ecb4); (0x1ed01, 0x1ed2d); (0x1ed2f, 0x1ed3d);
      (0x1ee00, 0x1ee03); (0x1ee05, 0x1ee1f); (0x1ee21, 0x1ee22);
      (0x1ee24, 0x1ee24); (0x1ee27, 0x1ee27); (0x1ee29, 0x1ee32);
      (0x1ee34, 0x1ee37); (0x1ee39, 0x1ee39); (0x1ee3b, 0x1ee3b);
      (0x1ee42, 0x1ee42); (0x1ee47, 0x1ee47); (0x1ee49, 0x1ee49);
      (0x1ee4b, 0x1ee4b); (0x1ee4d, 0x1ee4f); (0x1ee51, 0x1ee52);
      (0x1ee54, 0x1ee54); (0x1ee57, 0x1ee57); (0x1ee59, 0x1ee59);
      (0x1ee5b, 0x1ee5b); (0x1ee5d, 0x1ee5d); (0x1ee5f, 0x1ee5f);
      (0x1ee61, 0x1ee62); (0x1ee64, 0x1ee64); (0x1ee67, 0x1ee6a);
      (0x1ee6c, 0x1ee72); (0x1ee74, 0x1ee77); (0x1ee79, 0x1ee7c);
      (0x1ee7e, 0x1ee7e); (0x1ee80, 0x1ee89); (0x1ee8b, 0x1ee9b);
      (0x1eea1, 0x1eea3); (0x1eea5, 0x1eea9); (0x1eeab, 0x1eebb);
      (0x1f100, 0x1f10c); (0x1fbf0, 0x1fbf9); (0x20000, 0x2a6df);
      (0x2a700, 0x2b738); (0x2b740, 0x2b81d); (0x2b820, 0x2cea1);
      (0x2ceb0, 0x2ebe0); (0x2f800, 0x2fa1d); (0x30000, 0x3134a)
    ].

(** The code points of the class [\s] on [str] patterns ([str.isspace]). *)
Definition space_ranges : list (char * char) :=
    [
      (0x9, 0xd); (0x1c, 0x20); (0x85, 0x85); (0xa0, 0xa0); (0x1680, 0x1680);
      (0x2000, 0x200a); (0x2028, 0x2029); (0x202f, 0x202f); (0x205f, 0x205f);
      (0x3000, 0x3000)
    ].

(** The code points that [str.lower] maps to one other code point, each
      with its image, in increasing order. *)
Definition lower_pairs : list (char * char) :=
    [
      (0x41, 0x61); (0x42, 0x62); (0x43, 0x63); (0x44, 0x64); (0x45, 0x65);
      (0x46, 0x66); (0x47, 0x67); (0x48, 0x68); (0x49, 0x69); (0x4a, 0x6a);
      (0x4b, 0x6b); (0x4c, 0x6c); (0x4d, 0x6d); (0x4e, 0x6e); (0x4f, 0x6f);
      (0x50, 0x70); (0x51, 0x71); (0x52, 0x72); (0x53, 0x73); (0x54, 0x74);
      (0x55, 0x75); (0x56, 0x76); (0x57, 0x77); (0x58, 0x78); (0x59, 0x79);
      (0x5a, 0x7a); (0xc0, 0xe0); (0xc1, 0xe1); (0xc2, 0xe2); (0xc3, 0xe3);
      (0xc4, 0xe4); (0xc5, 0xe5); (0xc6, 0xe6); (0xc7, 0xe7); (0xc8, 0xe8);
      (0xc9, 0xe9); (0xca, 0xea); (0xcb, 0xeb); (0xcc, 0xec); (0xcd, 0xed);
      (0xce, 0xee); (0xcf, 0xef); (0xd0, 0xf0); (0xd1, 0xf1); (0xd2, 0xf2);
      (0xd3, 0xf3); (0xd4, 0xf4); (0xd5, 0xf5); (0xd6, 0xf6); (0xd8, 0xf8);
      (0xd9, 0xf9); (0xda, 0xfa); (0xdb, 0xfb); (0xdc, 0xfc); (0xdd, 0xfd);
      (0xde, 0xfe); (0x100, 0x101); (0x102, 0x103); (0x104, 0x105);
      (0x106, 0x107); (0x108, 0x109); (0x10a, 0x10b); (0x10c, 0x10d);
      (0x10e, 0x10f); (0x110, 0x111); (0x112, 0x113); (0x114, 0x115);
      (0x116, 0x117); (0x118, 0x119); (0x11a, 0x11b); (0x11c, 0x11d);
      (0x11e, 0x11f); (0x120, 0x121); (0x122, 0x123); (0x124, 0x125);
      (0x126, 0x127); (0x128, 0x129); (0x12a, 0x12b); (0x12c, 0x12d);
      (0x12e, 0x12f); (0x132, 0x133); (0x134, 0x135); (0x136, 0x137);
      (0x139, 0x13a); (0x13b, 0x13c); (0x13d, 0x13e); (0x13f, 0x140);
      (0x141, 0x142); (0x143, 0x144); (0x145, 0x146); (0x147, 0x148);
      (0x14a, 0x14b); (0x14c, 0x14d); (0x14e, 0x14f); (0x150, 0x151);
      (0x152, 0x153); (0x154, 0x155); (0x156, 0x157); (0x158, 0x159);
      (0x15a, 0x15b); (0x15c, 0x15d); (0x15e, 0x15f); (0x160, 0x161);
      (0x162, 0x163); (0x164, 0x165); (0x166, 0x167); (0x168, 0x169);
      (0x16a, 0x16b); (0x16c, 0x16d); (0x16e, 0x16f); (0x170, 0x171);
      (0x172, 0x173); (0x174, 0x175); (0x176, 0x177); (0x178, 0xff);
      (0x179, 0x17a); (0x17b, 0x17c); (0x17d, 0x17e); (0x181, 0x253);
      (0x182, 0x183); (0x184, 0x185); (0x186, 0x254); (0x187, 0x188);
      (0x189, 0x256); (0x18a, 0x257); (0x18b, 0x18c); (0x18e, 0x1dd);
      (0x18f, 0x259); (0x190, 0x25b); (0x191, 0x192); (0x193, 0x260);
      (0x194, 0x263); (0x196, 0x269); (0x197, 0x268); (0x198, 0x199);
      (0x19c, 0x26f); (0x19d, 0x272); (0x19f, 0x275); (0x1a0, 0x1a1);
      (0x1a2, 0x1a3); (0x1a4, 0x1a5); (0x1a6, 0x280); (0x1a7, 0x1a8);
      (0x1a9, 0x283); (0x1ac, 0x1ad); (0x1ae, 0x288); (0x1af, 0x1b0);
      (0x1b1, 0x28a); (0x1b2, 0x28b); (0x1b3, 0x1b4); (0x1b5, 0x1b6);
      (0x1b7, 0x292); (0x1b8, 0x1b9); (0x1bc, 0x1bd); (0x1c4, 0x1c6);
      (0x1c5, 0x1c6); (0x1c7, 0x1c9); (0x1c8, 0x1c9); (0x1ca, 0x1cc);
      (0x1cb, 0x1cc); (0x1cd, 0x1ce); (0x1cf, 0x1d0); (0x1d1, 0x1d2);
      (0x1d3, 0x1d4); (0x1d5, 0x1d6); (0x1d7, 0x1d8); (0x1d9, 0x1da);
      (0x1db, 0x1dc); (0x1de, 0x1df); (0x1e0, 0x1e1); (0x1e2, 0x1e3);
      (0x1e4, 0x1e5); (0x1e6, 0x1e7); (0x1e8, 0x1e9); (0x1ea, 0x1eb);
      (0x1ec, 0x1ed); (0x1ee, 0x1ef); (0x1f1, 0x1f3); (0x1f2, 0x1f3);
      (0x1f4, 0x1f5); (0x1f6, 0x195); (0x1f7, 0x1bf); (0x1f8, 0x1f9);
      (0x1fa, 0x1fb); (0x1fc, 0x1fd); (0x1fe, 0x1ff); (0x200, 0x201);
      (0x202, 0x203); (0x204, 0x205); (0x206, 0x207); (0x208, 0x209);
      (0x20a, 0x20b); (0x20c, 0x20d); (0x20e, 0x20f); (0x210, 0x211);
      (0x212, 0x213); (0x214, 0x215); (0x216, 0x217); (0x218, 0x219);
      (0x21a, 0x21b); (0x21c, 0x21d); (0x21e, 0x21f); (0x220, 0x19e);
      (0x222, 0x223); (0x224, 0x225); (0x226, 0x227); (0x228, 0x229);
      (0x22a, 0x22b); (0x22c, 0x22d); (0x22e, 0x22f); (0x230, 0x231);
      (0x232, 0x233); (0x23a, 0x2c65); (0x23b, 0x23c); (0x23d, 0x19a);
      (0x23e, 0x2c66); (0x241, 0x242); (0x243, 0x180); (0x244, 0x289);
      (0x245, 0x28c); (0x246, 0x247); (0x248, 0x249); (0x24a, 0x24b);
      (0x24c, 0x24d); (0x24e, 0x24f); (0x370, 0x371); (0x372, 0x373);
      (0x376, 0x377); (0x37f, 0x3f3); (0x386, 0x3ac); (0x388, 0x3ad);
      (0x389, 0x3ae); (0x38a, 0x3af); (0x38c, 0x3cc); (0x38e, 0x3cd);
      (0x38f, 0x3ce); (0x391, 0x3b1); (0x392, 0x3b2); (0x393, 0x3b3);
      (0x394, 0x3b4); (0x395, 0x3b5); (0x396, 0x3b6); (0x397, 0x3b7);
      (0x398, 0x3b8); (0x399, 0x3b9); (0x39a, 0x3ba); (0x39b, 0x3bb);
      (0x39c, 0x3bc); (0x39d, 0x3bd); (0x39e, 0x3be); (0x39f, 0x3bf);
      (0x3a0, 0x3c0); (0x3a1, 0x3c1); (0x3a3, 0x3c3); (0x3a4, 0x3c4);
      (0x3a5, 0x3c5); (0x3a6, 0x3c6); (0x3a7, 0x3c7); (0x3a8, 0x3c8);
      (0x3a9, 0x3c9); (0x3aa, 0x3ca); (0x3ab, 0x3cb); (0x3cf, 0x3d7);
      (0x3d8, 0x3d9); (0x3da, 0x3db); (0x3dc, 0x3dd); (0x3de, 0x3df);
      (0x3e0, 0x3e1); (0x3e2, 0x3e3); (0x3e4, 0x3e5); (0x3e6, 0x3e7);
      (0x3e8, 0x3e9); (0x3ea, 0x3eb); (0x3ec, 0x3ed); (0x3ee, 0x3ef);
      (0x3f4, 0x3b8); (0x3f7, 0x3f8); (0x3f9, 0x3f2); (0x3fa, 0x3fb);
      (0x3fd, 0x37b); (0x3fe, 0x37c); (0x3ff, 0x37d); (0x400, 0x450);
      (0x401, 0x451); (0x402, 0x452); (0x403, 0x453); (0x404, 0x454);
      (0x405, 0x455); (0x406, 0x456); (0x407, 0x457); (0x408, 0x458);
      (0x409, 0x459); (0x40a, 0x45a); (0x40b, 0x45b); (0x40c, 0x45c);
      (0x40d, 0x45d); (0x40e, 0x45e); (0x40f, 0x45f); (0x410, 0x430);
      (0x411, 0x431); (0x412, 0x432); (0x413, 0x433); (0x414, 0x434);
      (0x415, 0x435); (0x416, 0x436); (0x417, 0x437); (0x418, 0x438);
      (0x419, 0x439); (0x41a, 0x43a); (0x41b, 0x43b); (0x41c, 0x43c);
      (0x41d, 0x43d); (0x41e, 0x43e); (0x41f, 0x43f); (0x420, 0x440);
      (0x421, 0x441); (0x422, 0x442); (0x423, 0x443); (0x424, 0x444);
      (0x425, 0x445); (0x426, 0x446); (0x427, 0x447); (0x428, 0x448);
      (0x429, 0x449); (0x42a, 0x44a); (0x42b, 0x44b); (0x42c, 0x44c);
      (0x42d, 0x44d); (0x42e, 0x44e); (0x42f, 0x44f); (0x460, 0x461);
      (0x462, 0x463); (0x464, 0x465); (0x466, 0x467); (0x468, 0x469);
      (0x46a, 0x46b); (0x46c, 0x46d); (0x46e, 0x46f); (0x470, 0x471);
      (0x472, 0x473); (0x474, 0x475); (0x476, 0x477); (0x478, 0x479);
      (0x47a, 0x47b); (0x47c, 0x47d); (0x47e, 0x47f); (0x480, 0x481);
      (0x48a, 0x48b); (0x48c, 0x48d); (0x48e, 0x48f); (0x490, 0x491);
      (0x492, 0x493); (0x494, 0x495); (0x496, 0x497); (0x498, 0x499);
      (0x49a, 0x49b); (0x49c, 0x49d); (0x49e, 0x49f); (0x4a0, 0x4a1);
      (0x4a2, 0x4a3); (0x4a4, 0x4a5); (0x4a6, 0x4a7); (0x4a8, 0x4a9);
      (0x4aa, 0x4ab); (0x4ac, 0x4ad); (0x4ae, 0x4af); (0x4b0, 0x4b1);
      (0x4b2, 0x4b3); (0x4b4, 0x4b5); (0x4b6, 0x4b7); (0x4b8, 0x4b9);
      (0x4ba, 0x4bb); (0x4bc, 0x4bd); (0x4be, 0x4bf); (0x4c0, 0x4cf);
      (0x4c1, 0x4c2); (0x4c3, 0x4c4); (0x4c5, 0x4c6); (0x4c7, 0x4c8);
      (0x4c9, 0x4ca); (0x4cb, 0x4cc); (0x4cd, 0x4ce); (0x4d0, 0x4d1);
      (0x4d2, 0x4d3); (0x4d4, 0x4d5); (0x4d6, 0x4d7); (0x4d8, 0x4d9);
      (0x4da, 0x4db); (0x4dc, 0x4dd); (0x4de, 0x4df); (0x4e0, 0x4e1);
      (0x4e2, 0x4e3); (0x4e4, 0x4e5); (0x4e6, 0x4e7); (0x4e8, 0x4e9);
      (0x4ea, 0x4eb); (0x4ec, 0x4ed); (0x4ee, 0x4ef); (0x4f0, 0x4f1);
      (0x4f2, 0x4f3); (0x4f4, 0x4f5); (0x4f6, 0x4f7); (0x4f8, 0x4f9);
      (0x4fa, 0x4fb); (0x4fc, 0x4fd); (0x4fe, 0x4ff); (0x500, 0x501);
      (0x502, 0x503); (0x504, 0x505); (0x506, 0x507); (0x508, 0x509);
      (0x50a, 0x50b); (0x50c, 0x50d); (0x50e, 0x50f); (0x510, 0x511);
      (0x512, 0x513); (0x514, 0x515); (0x516, 0x517); (0x518, 0x519);
      (0x51a, 0x51b); (0x51c, 0x51d); (0x51e, 0x51f); (0x520, 0x521);
      (0x522, 0x523); (0x524, 0x525); (0x526, 0x527); (0x528, 0x529);
      (0x52a, 0x52b); (0x52c, 0x52d); (0x52e, 0x52f); (0x531, 0x561);
      (0x532, 0x562); (0x533, 0x563); (0x534, 0x564); (0x535, 0x565);
      (0x536, 0x566); (0x537, 0x567); (0x538, 0x568); (0x539, 0x569);
      (0x53a, 0x56a); (0x53b, 0x56b); (0x53c, 0x56c); (0x53d, 0x56d);
      (0x53e, 0x56e); (0x53f, 0x56f); (0x540, 0x570); (0x541, 0x571);
      (0x542, 0x572); (0x543, 0x573); (0x544, 0x574); (0x545, 0x575);
      (0x546, 0x576); (0x547, 0x577); (0x548, 0x578); (0x549, 0x579);
      (0x54a, 0x57a); (0x54b, 0x57b); (0x54c, 0x57c); (0x54d, 0x57d);
      (0x54e, 0x57e); (0x54f, 0x57f); (0x550, 0x580); (0x551, 0x581);
      (0x552, 0x582); (0x553, 0x583); (0x554, 0x584); (0x555, 0x585);
      (0x556, 0x586); (0x10a0, 0x2d00); (0x10a1, 0x2d01); (0x10a2, 0x2d02);
      (0x10a3, 0x2d03); (0x10a4, 0x2d04); (0x10a5, 0x2d05); (0x10a6, 0x2d06);
      (0x10a7, 0x2d07); (0x10a8, 0x2d08); (0x10a9, 0x2d09); (0x10aa, 0x2d0a);
      (0x10ab, 0x2d0b); (0x10ac, 0x2d0c); (0x10ad, 0x2d0d); (0x10ae, 0x2d0e);
      (0x10af, 0x2d0f); (0x10b0, 0x2d10); (0x10b1, 0x2d11); (0x10b2, 0x2d12);
      (0x10b3, 0x2d13); (0x10b4, 0x2d14); (0x10b5, 0x2d15); (0x10b6, 0x2d16);
      (0x10b7, 0x2d17); (0x10b8, 0x2d18); (0x10b9, 0x2d19); (0x10ba, 0x2d1a);
      (0x10bb, 0x2d1b); (0x10bc, 0x2d1c); (0x10bd, 0x2d1d); (0x10be, 0x2d1e);
      (0x10bf, 0x2d1f); (0x10c0, 0x2d20); (0x10c1, 0x2d21); (0x10c2, 0x2d22);
      (0x10c3, 0x2d23); (0x10c4, 0x2d24); (0x10c5, 0x2d25); (0x10c7, 0x2d27);
      (0x10cd, 0x2d2d); (0x13a0, 0xab70); (0x13a1, 0xab71); (0x13a2, 0xab72);
      (0x13a3, 0xab73); (0x13a4, 0xab74); (0x13a5, 0xab75); (0x13a6, 0xab76);
      (0x13a7, 0xab77); (0x13a8, 0xab78); (0x13a9, 0xab79); (0x13aa, 0xab7a);
      (0x13ab, 0xab7b); (0x13ac, 0xab7c); (0x13ad, 0xab7d); (0x13ae, 0xab7e);
      (0x13af, 0xab7f); (0x13b0, 0xab80); (0x13b1, 0xab81); (0x13b2, 0xab82);
      (0x13b3, 0xab83); (0x13b4, 0xab84); (0x13b5, 0xab85); (0x13b6, 0xab86);
      (0x13b7, 0xab87); (0x13b8, 0xab88); (0x13b9, 0xab89); (0x13ba, 0xab8a);
      (0x13bb, 0xab8b); (0x13bc, 0xab8c); (0x13bd, 0xab8d); (0x13be, 0xab8e);
      (0x13bf, 0xab8f); (0x13c0, 0xab90); (0x13c1, 0xab91); (0x13c2, 0xab92);
      (0x13c3, 0xab93); (0x13c4, 0xab94); (0x13c5, 0xab95); (0x13c6, 0xab96);
      (0x13c7, 0xab97); (0x13c8, 0xab98); (0x13c9, 0xab99); (0x13ca, 0xab9a);
      (0x13cb, 0xab9b); (0x13cc, 0xab9c); (0x13cd, 0xab9d); (0x13ce, 0xab9e);
      (0x13cf, 0xab9f); (0x13d0, 0xaba0); (0x13d1, 0xaba1); (0x13d2, 0xaba2);
      (0x13d3, 0xaba3); (0x13d4, 0xaba4); (0x13d5, 0xaba5); (0x13d6, 0xaba6);
      (0x13d7, 0xaba7); (0x13d8, 0xaba8); (0x13d9, 0xaba9); (0x13da, 0xabaa);
      (0x13db, 0xabab); (0x13dc, 0xabac); (0x13dd, 0xabad); (0x13de, 0xabae);
      (0x13df, 0xabaf); (0x13e0, 0xabb0); (0x13e1, 0xabb1); (0x13e2, 0xabb2);
      (0x13e3, 0xabb3); (0x13e4, 0xabb4); (0x13e5, 0xabb5); (0x13e6, 0xabb6);
      (0x13e7, 0xabb7); (0x13e8, 0xabb8); (0x13e9, 0xabb9); (0x13ea, 0xabba);
      (0x13eb, 0xabbb); (0x13ec, 0xabbc); (0x13ed, 0xabbd); (0x13ee, 0xabbe);
      (0x13ef, 0xabbf); (0x13f0, 0x13f8); (0x13f1, 0x13f9); (0x13f2, 0x13fa);
      (0x13f3, 0x13fb); (0x13f4, 0x13fc); (0x13f5, 0x13fd); (0x1c90, 0x10d0);
      (0x1c91, 0x10d1); (0x1c92, 0x10d2); (0x1c93, 0x10d3); (0x1c94, 0x10d4);
      (0x1c95, 0x10d5); (0x1c96, 0x10d6); (0x1c97, 0x10d7); (0x1c98, 0x10d8);
      (0x1c99, 0x10d9); (0x1c9a, 0x10da); (0x1c9b, 0x10db); (0x1c9c, 0x10dc);
      (0x1c9d, 0x10dd); (0x1c9e, 0x10de); (0x1c9f, 0x10df); (0x1ca0, 0x10e0);
      (0x1ca1, 0x10e1); (0x1ca2, 0x10e2); (0x1ca3, 0x10e3); (0x1ca4, 0x10e4);
      (0x1ca5, 0x10e5); (0x1ca6, 0x10e6); (0x1ca7, 0x10e7); (0x1ca8, 0x10e8);
      (0x1ca9, 0x10e9); (0x1caa, 0x10ea); (0x1cab, 0x10eb); (0x1cac, 0x10ec);
      (0x1cad, 0x10ed); (0x1cae, 0x10ee); (0x1caf, 0x10ef); (0x1cb0, 0x10f0);
      (0x1cb1, 0x10f1); (0x1cb2, 0x10f2); (0x1cb3, 0x10f3); (0x1cb4, 0x10f4);
      (0x1cb5, 0x10f5); (0x1cb6, 0x10f6); (0x1cb7, 0x10f7); (0x1cb8, 0x10f8);
      (0x1cb9, 0x10f9); (0x1cba, 0x10fa); (0x1cbd, 0x10fd); (0x1cbe, 0x10fe);
      (0x1cbf, 0x10ff); (0x1e00, 0x1e01); (0x1e02, 0x1e03); (0x1e04, 0x1e05);
      (0x1e06, 0x1e07); (0x1e08, 0x1e09); (0x1e0a, 0x1e0b); (0x1e0c, 0x1e0d);
      (0x1e0e, 0x1e0f); (0x1e10, 0x1e11); (0x1e12, 0x1e13); (0x1e14, 0x1e15);
      (0x1e16, 0x1e17); (0x1e18, 0x1e19); (0x1e1a, 0x1e1b); (0x1e1c, 0x1e1d);
      (0x1e1e, 0x1e1f); (0x1e20, 0x1e21); (0x1e22, 0x1e23); (0x1e24, 0x1e25);
      (0x1e26, 0x1e27); (0x1e28, 0x1e29); (0x1e2a, 0x1e2b); (0x1e2c, 0x1e2d);
      (0x1e2e, 0x1e2f); (0x1e30, 0x1e31); (0x1e32, 0x1e33); (0x1e34, 0x1e35);
      (0x1e36, 0x1e37); (0x1e38, 0x1e39); (0x1e3a, 0x1e3b); (0x1e3c, 0x1e3d);
      (0x1e3e, 0x1e3f); (0x1e40, 0x1e41); (0x1e42, 0x1e43); (0x1e44, 0x1e45);
      (0x1e46, 0x1e47); (0x1e48, 0x1e49); (0x1e4a, 0x1e4b); (0x1e4c, 0x1e4d);
      (0x1e4e, 0x1e4f); (0x1e50, 0x1e51); (0x1e52, 0x1e53); (0x1e54, 0x1e55);
      (0x1e56, 0x1e57); (0x1e58, 0x1e59); (0x1e5a, 0x1e5b); (0x1e5c, 0x1e5d);
      (0x1e5e, 0x1e5f); (0x1e60, 0x1e61); (0x1e62, 0x1e63); (0x1e64, 0x1e65);
      (0x1e66, 0x1e67); (0x1e68, 0x1e69); (0x1e6a, 0x1e6b); (0x1e6c, 0x1e6d);
      (0x1e6e, 0x1e6f); (0x1e70, 0x1e71); (0x1e72, 0x1e73); (0x1e74, 0x1e75);
      (0x1e76, 0x1e77); (0x1e78, 0x1e79); (0x1e7a, 0x1e7b); (0x1e7c, 0x1e7d);
      (0x1e7e, 0x1e7f); (0x1e80, 0x1e81); (0x1e82, 0x1e83); (0x1e84, 0x1e85);
      (0x1e86, 0x1e87); (0x1e88, 0x1e89); (0x1e8a, 0x1e8b); (0x1e8c, 0x1e8d);
      (0x1e8e, 0x1e8f); (0x1e90, 0x1e91); (0x1e92, 0x1e93); (0x1e94, 0x1e95);
      (0x1e9e, 0xdf); (0x1ea0, 0x1ea1); (0x1ea2, 0x1ea3); (0x1ea4, 0x1ea5);
      (0x1ea6, 0x1ea7); (0x1ea8, 0x1ea9); (0x1eaa, 0x1eab); (0x1eac, 0x1ead);
      (0x1eae, 0x1eaf); (0x1eb0, 0x1eb1); (0x1eb2, 0x1eb3); (0x1eb4, 0x1eb5);
      (0x1eb6, 0x1eb7); (0x1eb8, 0x1eb9); (0x1eba, 0x1ebb); (0x1ebc, 0x1ebd);
      (0x1ebe, 0x1ebf); (0x1ec0, 0x1ec1); (0x1ec2, 0x1ec3); (0x1ec4, 0x1ec5);
      (0x1ec6, 0x1ec7); (0x1ec8, 0x1ec9); (0x1eca, 0x1ecb); (0x1ecc, 0x1ecd);
      (0x1ece, 0x1ecf); (0x1ed0, 0x1ed1); (0x1ed2, 0x1ed3); (0x1ed4, 0x1ed5);
      (0x1ed6, 0x1ed7); (0x1ed8, 0x1ed9); (0x1eda, 0x1edb); (0x1edc, 0x1edd);
      (0x1ede, 0x1edf); (0x1ee0, 0x1ee1); (0x1ee2, 0x1ee3); (0x1ee4, 0x1ee5);
      (0x1ee6, 0x1ee7); (0x1ee8, 0x1ee9); (0x1eea, 0x1eeb); (0x1eec, 0x1eed);
      (0x1eee, 0x1eef); (0x1ef0, 0x1ef1); (0x1ef2, 0x1ef3); (0x1ef4, 0x1ef5);
      (0x1ef6, 0x1ef7); (0x1ef8, 0x1ef9); (0x1efa, 0x1efb); (0x1efc, 0x1efd);
      (0x1efe, 0x1eff); (0x1f08, 0x1f00); (0x1f09, 0x1f01); (0x1f0a, 0x1f02);
      (0x1f0b, 0x1f03); (0x1f0c, 0x1f04); (0x1f0d, 0x1f05); (0x1f0e, 0x1f06);
      (0x1f0f, 0x1f07); (0x1f18, 0x1f10); (0x1f19, 0x1f11); (0x1f1a, 0x1f12);
      (0x1f1b, 0x1f13); (0x1f1c, 0x1f14); (0x1f1d, 0x1f15); (0x1f28, 0x1f20);
      (0x1f29, 0x1f21); (0x1f2a, 0x1f22); (0x1f2b, 0x1f23); (0x1f2c, 0x1f24);
      (0x1f2d, 0x1f25); (0x1f2e, 0x1f26); (0x1f2f, 0x1f27); (0x1f38, 0x1f30);
      (0x1f39, 0x1f31); (0x1f3a, 0x1f32); (0x1f3b, 0x1f33); (0x1f3c, 0x1f34);
      (0x1f3d, 0x1f35); (0x1f3e, 0x1f36); (0x1f3f, 0x1f37); (0x1f48, 0x1f40);
      (0x1f49, 0x1f41); (0x1f4a, 0x1f42); (0x1f4b, 0x1f43); (0x1f4c, 0x1f44);
      (0x1f4d, 0x1f45); (0x1f59, 0x1f51); (0x1f5b, 0x1f53); (0x1f5d, 0x1f55);
      (0x1f5f, 0x1f57); (0x1f68, 0x1f60); (0x1f69, 0x1f61); (0x1f6a, 0x1f62);
      (0x1f6b, 0x1f63); (0x1f6c, 0x1f64); (0x1f6d, 0x1f65); (0x1f6e, 0x1f66);
      (0x1f6f, 0x1f67); (0x1f88, 0x1f80); (0x1f89, 0x1f81); (0x1f8a, 0x1f82);
      (0x1f8b, 0x1f83); (0x1f8c, 0x1f84); (0x1f8d, 0x1f85); (0x1f8e, 0x1f86);
      (0x1f8f, 0x1f87); (0x1f98, 0x1f90); (0x1f99, 0x1f91); (0x1f9a, 0x1f92);
      (0x1f9b, 0x1f93); (0x1f9c, 0x1f94); (0x1f9d, 0x1f95); (0x1f9e, 0x1f96);
      (0x1f9f, 0x1f97); (0x1fa8, 0x1fa0); (0x1fa9, 0x1fa1); (0x1faa, 0x1fa2);
      (0x1fab, 0x1fa3); (0x1fac, 0x1fa4); (0x1fad, 0x1fa5); (0x1fae, 0x1fa6);
      (0x1faf, 0x1fa7); (0x1fb8, 0x1fb0); (0x1fb9, 0x1fb1); (0x1fba, 0x1f70);
      (0x1fbb, 0x1f71); (0x1fbc, 0x1fb3); (0x1fc8, 0x1f72); (0x1fc9, 0x1f73);
      (0x1fca, 0x1f74); (0x1fcb, 0x1f75); (0x1fcc, 0x1fc3); (0x1fd8, 0x1fd0);
      (0x1fd9, 0x1fd1); (0x1fda, 0x1f76); (0x1fdb, 0x1f77); (0x1fe8, 0x1fe0);
      (0x1fe9, 0x1fe1); (0x1fea, 0x1f7a); (0x1feb, 0x1f7b); (0x1fec, 0x1fe5);
      (0x1ff8, 0x1f78); (0x1ff9, 0x1f79); (0x1ffa, 0x1f7c); (0x1ffb, 0x1f7d);
      (0x1ffc, 0x1ff3); (0x2126, 0x3c9); (0x212a, 0x6b); (0x212b, 0xe5);
      (0x2132, 0x214e); (0x2160, 0x2170); (0x2161, 0x2171); (0x2162, 0x2172);
      (0x2163, 0x2173); (0x2164, 0x2174); (0x2165, 0x2175); (0x2166, 0x2176);
      (0x2167, 0x2177); (0x2168, 0x2178); (0x2169, 0x2179); (0x216a, 0x217a);
      (0x216b, 0x217b); (0x216c, 0x217c); (0x216d, 0x217d); (0x216e, 0x217e);
      (0x216f, 0x217f); (0x2183, 0x2184); (0x24b6, 0x24d0); (0x24b7, 0x24d1);
      (0x24b8, 0x24d2); (0x24b9, 0x24d3); (0x24ba, 0x24d4); (0x24bb, 0x24d5);
      (0x24bc, 0x24d6); (0x24bd, 0x24d7); (0x24be, 0x24d8); (0x24bf, 0x24d9);
      (0x24c0, 0x24da); (0x24c1, 0x24db); (0x24c2, 0x24dc); (0x24c3, 0x24dd);
      (0x24c4, 0x24de); (0x24c5, 0x24df); (0x24c6, 0x24e0); (0x24c7, 0x24e1);
      (0x24c8, 0x24e2); (0x24c9, 0x24e3); (0x24ca, 0x24e4); (0x24cb, 0x24e5);
      (0x24cc, 0x24e6); (0x24cd, 0x24e7); (0x24ce, 0x24e8); (0x24cf, 0x24e9);
      (0x2c00, 0x2c30); (0x2c01, 0x2c31); (0x2c02, 0x2c32); (0x2c03, 0x2c33);
      (0x2c04, 0x2c34); (0x2c05, 0x2c35); (0x2c06, 0x2c36); (0x2c07, 0x2c37);
      (0x2c08, 0x2c38); (0x2c09, 0x2c39); (0x2c0a, 0x2c3a); (0x2c0b, 0x2c3b);
      (0x2c0c, 0x2c3c); (0x2c0d, 0x2c3d); (0x2c0e, 0x2c3e); (0x2c0f, 0x2c3f);
      (0x2c10, 0x2c40); (0x2c11, 0x2c41); (0x2c12, 0x2c42); (0x2c13, 0x2c43);
      (0x2c14, 0x2c44); (0x2c15, 0x2c45); (0x2c16, 0x2c46); (0x2c17, 0x2c47);
      (0x2c18, 0x2c48); (0x2c19, 0x2c49); (0x2c1a, 0x2c4a); (0x2c1b, 0x2c4b);
      (0x2c1c, 0x2c4c); (0x2c1d, 0x2c4d); (0x2c1e, 0x2c4e); (0x2c1f, 0x2c4f);
      (0x2c20, 0x2c50); (0x2c21, 0x2c51); (0x2c22, 0x2c52); (0x2c23, 0x2c53);
      (0x2c24, 0x2c54); (0x2c25, 0x2c55); (0x2c26, 0x2c56); (0x2c27, 0x2c57);
      (0x2c28, 0x2c58); (0x2c29, 0x2c59); (0x2c2a, 0x2c5a); (0x2c2b, 0x2c5b);
      (0x2c2c, 0x2c5c); (0x2c2d, 0x2c5d); (0x2c2e, 0x2c5e); (0x2c2f, 0x2c5f);
      (0x2c60, 0x2c61); (0x2c62, 0x26b); (0x2c63, 0x1d7d); (0x2c64, 0x27d);
      (0x2c67, 0x2c68); (0x2c69, 0x2c6a); (0x2c6b, 0x2c6c); (0x2c6d, 0x251);
      (0x2c6e, 0x271); (0x2c6f, 0x250); (0x2c70, 0x252); (0x2c72, 0x2c73);
      (0x2c75, 0x2c76); (0x2c7e, 0x23f); (0x2c7f, 0x240); (0x2c80, 0x2c81);
      (0x2c82, 0x2c83); (0x2c84, 0x2c85); (0x2c86, 0x2c87); (0x2c88, 0x2c89);
      (0x2c8a, 0x2c8b); (0x2c8c, 0x2c8d); (0x2c8e, 0x2c8f); (0x2c90, 0x2c91);
      (0x2c92, 0x2c93); (0x2c94, 0x2c95); (0x2c96, 0x2c97); (0x2c98, 0x2c99);
      (0x2c9a, 0x2c9b); (0x2c9c, 0x2c9d); (0x2c9e, 0x2c9f); (0x2ca0, 0x2ca1);
      (0x2ca2, 0x2ca3); (0x2ca4, 0x2ca5); (0x2ca6, 0x2ca7); (0x2ca8, 0x2ca9);
      (0x2caa, 0x2cab); (0x2cac, 0x2cad); (0x2cae, 0x2caf); (0x2cb0, 0x2cb1);
      (0x2cb2, 0x2cb3); (0x2cb4, 0x2cb5); (0x2cb6, 0x2cb7); (0x2cb8, 0x2cb9);
      (0x2cba, 0x2cbb); (0x2cbc, 0x2cbd); (0x2cbe, 0x2cbf); (0x2cc0, 0x2cc1);
      (0x2cc2, 0x2cc3); (0x2cc4, 0x2cc5); (0x2cc6, 0x2cc7); (0x2cc8, 0x2cc9);
      (0x2cca, 0x2ccb); (0x2ccc, 0x2ccd); (0x2cce, 0x2ccf); (0x2cd0, 0x2cd1);
      (0x2cd2, 0x2cd3); (0x2cd4, 0x2cd5); (0x2cd6, 0x2cd7); (0x2cd8, 0x2cd9);
      (0x2cda, 0x2cdb); (0x2cdc, 0x2cdd); (0x2cde, 0x2cdf); (0x2ce0, 0x2ce1);
      (0x2ce2, 0x2ce3); (0x2ceb, 0x2cec); (0x2ced, 0x2cee); (0x2cf2, 0x2cf3);
      (0xa640, 0xa641); (0xa642, 0xa643); (0xa644, 0xa645); (0xa646, 0xa647);
      (0xa648, 0xa649); (0xa64a, 0xa64b); (0xa64c, 0xa64d); (0xa64e, 0xa64f);
      (0xa650, 0xa651); (0xa652, 0xa653); (0xa654, 0xa655); (0xa656, 0xa657);
      (0xa658, 0xa659); (0xa65a, 0xa65b); (0xa65c, 0xa65d); (0xa65e, 0xa65f);
      (0xa660, 0xa661); (0xa662, 0xa663); (0xa664, 0xa665); (0xa666, 0xa667);
      (0xa668, 0xa669); (0xa66a, 0xa66b); (0xa66c, 0xa66d); (0xa680, 0xa681);
      (0xa682, 0xa683); (0xa684, 0xa685); (0xa686, 0xa687); (0xa688, 0xa689);
      (0xa68a, 0xa68b); (0xa68c, 0xa68d); (0xa68e, 0xa68f); (0xa690, 0xa691);
      (0xa692, 0xa693); (0xa694, 0xa695); (0xa696, 0xa697); (0xa698, 0xa699);
      (0xa69a, 0xa69b); (0xa722, 0xa723); (0xa724, 0xa725); (0xa726, 0xa727);
      (0xa728, 0xa729); (0xa72a, 0xa72b); (0xa72c, 0xa72d); (0xa72e, 0xa72f);
      (0xa732, 0xa733); (0xa734, 0xa735); (0xa736, 0xa737); (0xa738, 0xa739);
      (0xa73a, 0xa73b); (0xa73c, 0xa73d); (0xa73e, 0xa73f); (0xa740, 0xa741);
      (0xa742, 0xa743); (0xa744, 0xa745); (0xa746, 0xa747); (0xa748, 0xa749);
      (0xa74a, 0xa74b); (0xa74c, 0xa74d); (0xa74e, 0xa74f); (0xa750, 0xa751);
      (0xa752, 0xa753); (0xa754, 0xa755); (0xa756, 0xa757); (0xa758, 0xa759);
      (0xa75a, 0xa75b); (0xa75c, 0xa75d); (0xa75e, 0xa75f); (0xa760, 0xa761);
      (0xa762, 0xa763); (0xa764, 0xa765); (0xa766, 0xa767); (0xa768, 0xa769);
      (0xa76a, 0xa76b); (0xa76c, 0xa76d); (0xa76e, 0xa76f); (0xa779, 0xa77a);
      (0xa77b, 0xa77c); (0xa77d, 0x1d79); (0xa77e, 0xa77f); (0xa780, 0xa781);
      (0xa782, 0xa783); (0xa784, 0xa785); (0xa786, 0xa787); (0xa78b, 0xa78c);
      (0xa78d, 0x265); (0xa790, 0xa791); (0xa792, 0xa793); (0xa796, 0xa797);
      (0xa798, 0xa799); (0xa79a, 0xa79b); (0xa79c, 0xa79d); (0xa79e, 0xa79f);
      (0xa7a0, 0xa7a1); (0xa7a2, 0xa7a3); (0xa7a4, 0xa7a5); (0xa7a6, 0xa7a7);
      (0xa7a8, 0xa7a9); (0xa7aa, 0x266); (0xa7ab, 0x25c); (0xa7ac, 0x261);
      (0xa7ad, 0x26c); (0xa7ae, 0x26a); (0xa7b0, 0x29e); (0xa7b1, 0x287);
      (0xa7b2, 0x29d); (0xa7b3, 0xab53); (0xa7b4, 0xa7b5); (0xa7b6, 0xa7b7);
      (0xa7b8, 0xa7b9); (0xa7ba, 0xa7bb); (0xa7bc, 0xa7bd); (0xa7be, 0xa7bf);
      (0xa7c0, 0xa7c1); (0xa7c2, 0xa7c3); (0xa7c4, 0xa794); (0xa7c5, 0x282);
      (0xa7c6, 0x1d8e); (0xa7c7, 0xa7c8); (0xa7c9, 0xa7ca); (0xa7d0, 0xa7d1);
      (0xa7d6, 0xa7d7); (0xa7d8, 0xa7d9); (0xa7f5, 0xa7f6); (0xff21, 0xff41);
      (0xff22, 0xff42); (0xff23, 0xff43); (0xff24, 0xff44); (0xff25, 0xff45);
      (0xff26, 0xff46); (0xff27, 0xff47); (0xff28, 0xff48); (0xff29, 0xff49);
      (0xff2a, 0xff4a); (0xff2b, 0xff4b); (0xff2c, 0xff4c); (0xff2d, 0xff4d);
      (0xff2e, 0xff4e); (0xff2f, 0xff4f); (0xff30, 0xff50); (0xff31, 0xff51);
      (0xff32, 0xff52); (0xff33, 0xff53); (0xff34, 0xff54); (0xff35, 0xff55);
      (0xff36, 0xff56); (0xff37, 0xff57); (0xff38, 0xff58); (0xff39, 0xff59);
      (0xff3a, 0xff5a); (0x10400, 0x10428); (0x10401, 0x10429);
      (0x10402, 0x1042a); (0x10403, 0x1042b); (0x10404, 0x1042c);
      (0x10405, 0x1042d); (0x10406, 0x1042e); (0x10407, 0x1042f);
      (0x10408, 0x10430); (0x10409, 0x10431); (0x1040a, 0x10432);
      (0x1040b, 0x10433); (0x1040c, 0x10434); (0x1040d, 0x10435);
      (0x1040e, 0x10436); (0x1040f, 0x10437); (0x10410, 0x10438);
      (0x10411, 0x10439); (0x10412, 0x1043a); (0x10413, 0x1043b);
      (0x10414, 0x1043c); (0x10415, 0x1043d); (0x10416, 0x1043e);
      (0x10417, 0x1043f); (0x10418, 0x10440); (0x10419, 0x10441);
      (0x1041a, 0x10442); (0x1041b, 0x10443); (0x1041c, 0x10444);
      (0x1041d, 0x10445); (0x1041e, 0x10446); (0x1041f, 0x10447);
      (0x10420, 0x10448); (0x10421, 0x10449); (0x10422, 0x1044a);
      (0x10423, 0x1044b); (0x10424, 0x1044c); (0x10425, 0x1044d);
      (0x10426, 0x1044e); (0x10427, 0x1044f); (0x104b0, 0x104d8);
      (0x104b1, 0x104d9); (0x104b2, 0x104da); (0x104b3, 0x104db);
      (0x104b4, 0x104dc); (0x104b5, 0x104dd); (0x104b6, 0x104de);
      (0x104b7, 0x104df); (0x104b8, 0x104e0); (0x104b9, 0x104e1);
      (0x104ba, 0x104e2); (0x104bb, 0x104e3); (0x104bc, 0x104e4);
      (0x104bd, 0x104e5); (0x104be, 0x104e6); (0x104bf, 0x104e7);
      (0x104c0, 0x104e8); (0x104c1, 0x104e9); (0x104c2, 0x104ea);
      (0x104c3, 0x104eb); (0x104c4, 0x104ec); (0x104c5, 0x104ed);
      (0x104c6, 0x104ee); (0x104c7, 0x104ef); (0x104c8, 0x104f0);
      (0x104c9, 0x104f1); (0x104ca, 0x104f2); (0x104cb, 0x104f3);
      (0x104cc, 0x104f4); (0x104cd, 0x104f5); (0x104ce, 0x104f6);
      (0x104cf, 0x104f7); (0x104d0, 0x104f8); (0x104d1, 0x104f9);
      (0x104d2, 0x104fa); (0x104d3, 0x104fb); (0x10570, 0x10597);
      (0x10571, 0x10598); (0x10572, 0x10599); (0x10573, 0x1059a);
      (0x10574, 0x1059b); (0x10575, 0x1059c); (0x10576, 0x1059d);
      (0x10577, 0x1059e); (0x10578, 0x1059f); (0x10579, 0x105a0);
      (0x1057a, 0x105a1); (0x1057c, 0x105a3); (0x1057d, 0x105a4);
      (0x1057e, 0x105a5); (0x1057f, 0x105a6); (0x10580, 0x105a7);
      (0x10581, 0x105a8); (0x10582, 0x105a9); (0x10583, 0x105aa);
      (0x10584, 0x105ab); (0x10585, 0x105ac); (0x10586, 0x105ad);
      (0x10587, 0x105ae); (0x10588, 0x105af); (0x10589, 0x105b0);
      (0x1058a, 0x105b1); (0x1058c, 0x105b3); (0x1058d, 0x105b4);
      (0x1058e, 0x105b5); (0x1058f, 0x105b6); (0x10590, 0x105b7);
      (0x10591, 0x105b8); (0x10592, 0x105b9); (0x10594, 0x105bb);
      (0x10595, 0x105bc); (0x10c80, 0x10cc0); (0x10c81, 0x10cc1);
      (0x10c82, 0x10cc2); (0x10c83, 0x10cc3); (0x10c84, 0x10cc4);
      (0x10c85, 0x10cc5); (0x10c86, 0x10cc6); (0x10c87, 0x10cc7);
      (0x10c88, 0x10cc8); (0x10c89, 0x10cc9); (0x10c8a, 0x10cca);
      (0x10c8b, 0x10ccb); (0x10c8c, 0x10ccc); (0x10c8d, 0x10ccd);
      (0x10c8e, 0x10cce); (0x10c8f, 0x10ccf); (0x10c90, 0x10cd0);
      (0x10c91, 0x10cd1); (0x10c92, 0x10cd2); (0x10c93, 0x10cd3);
      (0x10c94, 0x10cd4); (0x10c95, 0x10cd5); (0x10c96, 0x10cd6);
      (0x10c97, 0x10cd7); (0x10c98, 0x10cd8); (0x10c99, 0x10cd9);
      (0x10c9a, 0x10cda); (0x10c9b, 0x10cdb); (0x10c9c, 0x10cdc);
      (0x10c9d, 0x10cdd); (0x10c9e, 0x10cde); (0x10c9f, 0x10cdf);
      (0x10ca0, 0x10ce0); (0x10ca1, 0x10ce1); (0x10ca2, 0x10ce2);
      (0x10ca3, 0x10ce3); (0x10ca4, 0x10ce4); (0x10ca5, 0x10ce5);
      (0x10ca6, 0x10ce6); (0x10ca7, 0x10ce7); (0x10ca8, 0x10ce8);
      (0x10ca9, 0x10ce9); (0x10caa, 0x10cea); (0x10cab, 0x10ceb);
      (0x10cac, 0x10cec); (0x10cad, 0x10ced); (0x10cae, 0x10cee);
      (0x10caf, 0x10cef); (0x10cb0, 0x10cf0); (0x10cb1, 0x10cf1);
      (0x10cb2, 0x10cf2); (0x118a0, 0x118c0); (0x118a1, 0x118c1);
      (0x118a2, 0x118c2); (0x118a3, 0x118c3); (0x118a4, 0x118c4);
      (0x118a5, 0x118c5); (0x118a6, 0x118c6); (0x118a7, 0x118c7);
      (0x118a8, 0x118c8); (0x118a9, 0x118c9); (0x118aa, 0x118ca);
      (0x118ab, 0x118cb); (0x118ac, 0x118cc); (0x118ad, 0x118cd);
      (0x118ae, 0x118ce); (0x118af, 0x118cf); (0x118b0, 0x118d0);
      (0x118b1, 0x118d1); (0x118b2, 0x118d2); (0x118b3, 0x118d3);
      (0x118b4, 0x118d4); (0x118b5, 0x118d5); (0x118b6, 0x118d6);
      (0x118b7, 0x118d7); (0x118b8, 0x118d8); (0x118b9, 0x118d9);
      (0x118ba, 0x118da); (0x118bb, 0x118db); (0x118bc, 0x118dc);
      (0x118bd, 0x118dd); (0x118be, 0x118de); (0x118bf, 0x118df);
      (0x16e40, 0x16e60); (0x16e41, 0x16e61); (0x16e42, 0x16e62);
      (0x16e43, 0x16e63); (0x16e44, 0x16e64); (0x16e45, 0x16e65);
      (0x16e46, 0x16e66); (0x16e47, 0x16e67); (0x16e48, 0x16e68);
      (0x16e49, 0x16e69); (0x16e4a, 0x16e6a); (0x16e4b, 0x16e6b);
      (0x16e4c, 0x16e6c); (0x16e4d, 0x16e6d); (0x16e4e, 0x16e6e);
      (0x16e4f, 0x16e6f); (0x16e50, 0x16e70); (0x16e51, 0x16e71);
      (0x16e52, 0x16e72); (0x16e53, 0x16e73); (0x16e54, 0x16e74);
      (0x16e55, 0x16e75); (0x16e56, 0x16e76); (0x16e57, 0x16e77);
      (0x16e58, 0x16e78); (0x16e59, 0x16e79); (0x16e5a, 0x16e7a);
      (0x16e5b, 0x16e7b); (0x16e5c, 0x16e7c); (0x16e5d, 0x16e7d);
      (0x16e5e, 0x16e7e); (0x16e5f, 0x16e7f); (0x1e900, 0x1e922);
      (0x1e901, 0x1e923); (0x1e902, 0x1e924); (0x1e903, 0x1e925);
      (0x1e904, 0x1e926); (0x1e905, 0x1e927); (0x1e906, 0x1e928);
      (0x1e907, 0x1e929); (0x1e908, 0x1e92a); (0x1e909, 0x1e92b);
      (0x1e90a, 0x1e92c); (0x1e90b, 0x1e92d); (0x1e90c, 0x1e92e);
      (0x1e90d, 0x1e92f); (0x1e90e, 0x1e930); (0x1e90f, 0x1e931);
      (0x1e910, 0x1e932); (0x1e911, 0x1e933); (0x1e912, 0x1e934);
      (0x1e913, 0x1e935); (0x1e914, 0x1e936); (0x1e915, 0x1e937);
      (0x1e916, 0x1e938); (0x1e917, 0x1e939); (0x1e918, 0x1e93a);
      (0x1e919, 0x1e93b); (0x1e91a, 0x1e93c); (0x1e91b, 0x1e93d);
      (0x1e91c, 0x1e93e); (0x1e91d, 0x1e93f); (0x1e91e, 0x1e940);
      (0x1e91f, 0x1e941); (0x1e920, 0x1e942); (0x1e921, 0x1e943)
    ].

(** The cased code points (lowercase, uppercase or titlecase). *)
Definition cased_ranges : list (char * char) :=
    [
      (0x41, 0x5a); (0x61, 0x7a); (0xaa, 0xaa); (0xb5, 0xb5); (0xba, 0xba);
      (0xc0, 0xd6); (0xd8, 0xf6); (0xf8, 0x1ba); (0x1bc, 0x1bf); (0x1c4, 0x293);
      (0x295, 0x2b8); (0x2c0, 0x2c1); (0x2e0, 0x2e4); (0x345, 0x345);
      (0x370, 0x373); (0x376, 0x377); (0x37a, 0x37d); (0x37f, 0x37f);
      (0x386, 0x386); (0x388, 0x38a); (0x38c, 0x38c); (0x38e, 0x3a1);
      (0x3a3, 0x3f5); (0x3f7, 0x481); (0x48a, 0x52f); (0x531, 0x556);
      (0x560, 0x588); (0x10a0, 0x10c5); (0x10c7, 0x10c7); (0x10cd, 0x10cd);
      (0x10d0, 0x10fa); (0x10fd, 0x10ff); (0x13a0, 0x13f5); (0x13f8, 0x13fd);
      (0x1c80, 0x1c88); (0x1c90, 0x1cba); (0x1cbd, 0x1cbf); (0x1d00, 0x1dbf);
      (0x1e00, 0x1f15); (0x1f18, 0x1f1d); (0x1f20, 0x1f45); (0x1f48, 0x1f4d);
      (0x1f50, 0x1f57); (0x1f59, 0x1f59); (0x1f5b, 0x1f5b); (0x1f5d, 0x1f5d);
      (0x1f5f, 0x1f7d); (0x1f80, 0x1fb4); (0x1fb6, 0x1fbc); (0x1fbe, 0x1fbe);
      (0x1fc2, 0x1fc4); (0x1fc6, 0x1fcc); (0x1fd0, 0x1fd3); (0x1fd6, 0x1fdb);
      (0x1fe0, 0x1fec); (0x1ff2, 0x1ff4); (0x1ff6, 0x1ffc); (0x2071, 0x2071);
      (0x207f, 0x207f); (0x2090, 0x209c); (0x2102, 0x2102); (0x2107, 0x2107);
      (0x210a, 0x2113); (0x2115, 0x2115); (0x2119, 0x211d); (0x2124, 0x2124);
      (0x2126, 0x2126); (0x2128, 0x2128); (0x212a, 0x212d); (0x212f, 0x2134);
      (0x2139, 0x2139); (0x213c, 0x213f); (0x2145, 0x2149); (0x214e, 0x214e);
      (0x2160, 0x217f); (0x2183, 0x2184); (0x24b6, 0x24e9); (0x2c00, 0x2ce4);
      (0x2ceb, 0x2cee); (0x2cf2, 0x2cf3); (0x2d00, 0x2d25); (0x2d27, 0x2d27);
      (0x2d2d, 0x2d2d); (0xa640, 0xa66d); (0xa680, 0xa69d); (0xa722, 0xa787);
      (0xa78b, 0xa78e); (0xa790, 0xa7ca); (0xa7d0, 0xa7d1); (0xa7d3, 0xa7d3);
      (0xa7d5, 0xa7d9); (0xa7f5, 0xa7f6); (0xa7f8, 0xa7fa); (0xab30, 0xab5a);
      (0xab5c, 0xab68); (0xab70, 0xabbf); (0xfb00, 0xfb06); (0xfb13, 0xfb17);
      (0xff21, 0xff3a); (0xff41, 0xff5a); (0x10400, 0x1044f);
      (0x104b0, 0x104d3); (0x104d8, 0x104fb); (0x10570, 0x1057a);
      (0x1057c, 0x1058a); (0x1058c, 0x10592); (0x10594, 0x10595);
      (0x10597, 0x105a1); (0x105a3, 0x105b1); (0x105b3, 0x105b9);
      (0x105bb, 0x105bc); (0x10780, 0x10780); (0x10783, 0x10785);
      (0x10787, 0x107b0); (0x107b2, 0x107ba); (0x10c80, 0x10cb2);
      (0x10cc0, 0x10cf2); (0x118a0, 0x118df); (0x16e40, 0x16e7f);
      (0x1d400, 0x1d454); (0x1d456, 0x1d49c); (0x1d49e, 0x1d49f);
      (0x1d4a2, 0x1d4a2); (0x1d4a5, 0x1d4a6); (0x1d4a9, 0x1d4ac);
      (0x1d4ae, 0x1d4b9); (0x1d4bb, 0x1d4bb); (0x1d4bd, 0x1d4c3);
      (0x1d4c5, 0x1d505); (0x1d507, 0x1d50a); (0x1d50d, 0x1d514);
      (0x1d516, 0x1d51c); (0x1d51e, 0x1d539); (0x1d53b, 0x1d53e);
      (0x1d540, 0x1d544); (0x1d546, 0x1d546); (0x1d54a, 0x1d550);
      (0x1d552, 0x1d6a5); (0x1d6a8, 0x1d6c0); (0x1d6c2, 0x1d6da);
      (0x1d6dc, 0x1d6fa); (0x1d6fc, 0x1d714); (0x1d716, 0x1d734);
      (0x1d736, 0x1d74e); (0x1d750, 0x1d76e); (0x1d770, 0x1d788);
      (0x1d78a, 0x1d7a8); (0x1d7aa, 0x1d7c2); (0x1d7c4, 0x1d7cb);
      (0x1df00, 0x1df09); (0x1df0b, 0x1df1e); (0x1e900, 0x1e943);
      (0x1f130, 0x1f149); (0x1f150, 0x1f169); (0x1f170, 0x1f189)
    ].

(** The case-ignorable code points. *)
Definition case_ignorable_ranges : list (char * char) :=
    [
      (0x27, 0x27); (0x2e, 0x2e); (0x3a, 0x3a); (0x5e, 0x5e); (0x60, 0x60);
      (0xa8, 0xa8); (0xad, 0xad); (0xaf, 0xaf); (0xb4, 0xb4); (0xb7, 0xb8);
      (0x2b0, 0x36f); (0x374, 0x375); (0x37a, 0x37a); (0x384, 0x385);
      (0x387, 0x387); (0x483, 0x489); (0x559, 0x559); (0x55f, 0x55f);
      (0x591, 0x5bd); (0x5bf, 0x5bf); (0x5c1, 0x5c2); (0x5c4, 0x5c5);
      (0x5c7, 0x5c7); (0x5f4, 0x5f4); (0x600, 0x605); (0x610, 0x61a);
      (0x61c, 0x61c); (0x640, 0x640); (0x64b, 0x65f); (0x670, 0x670);
      (0x6d6, 0x6dd); (0x6df, 0x6e8); (0x6ea, 0x6ed); (0x70f, 0x70f);
      (0x711, 0x711); (0x730, 0x74a); (0x7a6, 0x7b0); (0x7eb, 0x7f5);
      (0x7fa, 0x7fa); (0x7fd, 0x7fd); (0x816, 0x82d); (0x859, 0x85b);
      (0x888, 0x888); (0x890, 0x891); (0x898, 0x89f); (0x8c9, 0x902);
      (0x93a, 0x93a); (0x93c, 0x93c); (0x941, 0x948); (0x94d, 0x94d);
      (0x951, 0x957); (0x962, 0x963); (0x971, 0x971); (0x981, 0x981);
      (0x9bc, 0x9bc); (0x9c1, 0x9c4); (0x9cd, 0x9cd); (0x9e2, 0x9e3);
      (0x9fe, 0x9fe); (0xa01, 0xa02); (0xa3c, 0xa3c); (0xa41, 0xa42);
      (0xa47, 0xa48); (0xa4b, 0xa4d); (0xa51, 0xa51); (0xa70, 0xa71);
      (0xa75, 0xa75); (0xa81, 0xa82); (0xabc, 0xabc); (0xac1, 0xac5);
      (0xac7, 0xac8); (0xacd, 0xacd); (0xae2, 0xae3); (0xafa, 0xaff);
      (0xb01, 0xb01); (0xb3c, 0xb3c); (0xb3f, 0xb3f); (0xb41, 0xb44);
      (0xb4d, 0xb4d); (0xb55, 0xb56); (0xb62, 0xb63); (0xb82, 0xb82);
      (0xbc0, 0xbc0); (0xbcd, 0xbcd); (0xc00, 0xc00); (0xc04, 0xc04);
      (0xc3c, 0xc3c); (0xc3e, 0xc40); (0xc46, 0xc48); (0xc4a, 0xc4d);
      (0xc55, 0xc56); (0xc62, 0xc63); (0xc81, 0xc81); (0xcbc, 0xcbc);
      (0xcbf, 0xcbf); (0xcc6, 0xcc6); (0xccc, 0xccd); (0xce2, 0xce3);
      (0xd00, 0xd01); (0xd3b, 0xd3c); (0xd41, 0xd44); (0xd4d, 0xd4d);
      (0xd62, 0xd63); (0xd81, 0xd81); (0xdca, 0xdca); (0xdd2, 0xdd4);
      (0xdd6, 0xdd6); (0xe31, 0xe31); (0xe34, 0xe3a); (0xe46, 0xe4e);
      (0xeb1, 0xeb1); (0xeb4, 0xebc); (0xec6, 0xec6); (0xec8, 0xecd);
      (0xf18, 0xf19); (0xf35, 0xf35); (0xf37, 0xf37); (0xf39, 0xf39);
      (0xf71, 0xf7e); (0xf80, 0xf84); (0xf86, 0xf87); (0xf8d, 0xf97);
      (0xf99, 0xfbc); (0xfc6, 0xfc6); (0x102d, 0x1030); (0x1032, 0x1037);
      (0x1039, 0x103a); (0x103d, 0x103e); (0x1058, 0x1059); (0x105e, 0x1060);
      (0x1071, 0x1074); (0x1082, 0x1082); (0x1085, 0x1086); (0x108d, 0x108d);
      (0x109d, 0x109d); (0x10fc, 0x10fc); (0x135d, 0x135f); (0x1712, 0x1714);
      (0x1732, 0x1733); (0x1752, 0x1753); (0x1772, 0x1773); (0x17b4, 0x17b5);
      (0x17b7, 0x17bd); (0x17c6, 0x17c6); (0x17c9, 0x17d3); (0x17d7, 0x17d7);
      (0x17dd, 0x17dd); (0x180b, 0x180f); (0x1843, 0x1843); (0x1885, 0x1886);
      (0x18a9, 0x18a9); (0x1920, 0x1922); (0x1927, 0x1928); (0x1932, 0x1932);
      (0x1939, 0x193b); (0x1a17, 0x1a18); (0x1a1b, 0x1a1b); (0x1a56, 0x1a56);
      (0x1a58, 0x1a5e); (0x1a60, 0x1a60); (0x1a62, 0x1a62); (0x1a65, 0x1a6c);
      (0x1a73, 0x1a7c); (0x1a7f, 0x1a7f); (0x1aa7, 0x1aa7); (0x1ab0, 0x1ace);
      (0x1b00, 0x1b03); (0x1b34, 0x1b34); (0x1b36, 0x1b3a); (0x1b3c, 0x1b3c);
      (0x1b42, 0x1b42); (0x1b6b, 0x1b73); (0x1b80, 0x1b81); (0x1ba2, 0x1ba5);
      (0x1ba8, 0x1ba9); (0x1bab, 0x1bad); (0x1be6, 0x1be6); (0x1be8, 0x1be9);
      (0x1bed, 0x1bed); (0x1bef, 0x1bf1); (0x1c2c, 0x1c33); (0x1c36, 0x1c37);
      (0x1c78, 0x1c7d); (0x1cd0, 0x1cd2); (0x1cd4, 0x1ce0); (0x1ce2, 0x1ce8);
      (0x1ced, 0x1ced); (0x1cf4, 0x1cf4); (0x1cf8, 0x1cf9); (0x1d2c, 0x1d6a);
      (0x1d78, 0x1d78); (0x1d9b, 0x1dff); (0x1fbd, 0x1fbd); (0x1fbf, 0x1fc1);
      (0x1fcd, 0x1fcf); (0x1fdd, 0x1fdf); (0x1fed, 0x1fef); (0x1ffd, 0x1ffe);
      (0x200b, 0x200f); (0x2018, 0x2019); (0x2024, 0x2024); (0x2027, 0x2027);
      (0x202a, 0x202e); (0x2060, 0x2064); (0x2066, 0x206f); (0x2071, 0x2071);
      (0x207f, 0x207f); (0x2090, 0x209c); (0x20d0, 0x20f0); (0x2c7c, 0x2c7d);
      (0x2cef, 0x2cf1); (0x2d6f, 0x2d6f); (0x2d7f, 0x2d7f); (0x2de0, 0x2dff);
      (0x2e2f, 0x2e2f); (0x3005, 0x3005); (0x302a, 0x302d); (0x3031, 0x3035);
      (0x303b, 0x303b); (0x3099, 0x309e); (0x30fc, 0x30fe); (0xa015, 0xa015);
      (0xa4f8, 0xa4fd); (0xa60c, 0xa60c); (0xa66f, 0xa672); (0xa674, 0xa67d);
      (0xa67f, 0xa67f); (0xa69c, 0xa69f); (0xa6f0, 0xa6f1); (0xa700, 0xa721);
      (0xa770, 0xa770); (0xa788, 0xa78a); (0xa7f2, 0xa7f4); (0xa7f8, 0xa7f9);
      (0xa802, 0xa802); (0xa806, 0xa806); (0xa80b, 0xa80b); (0xa825, 0xa826);
      (0xa82c, 0xa82c); (0xa8c4, 0xa8c5); (0xa8e0, 0xa8f1); (0xa8ff, 0xa8ff);
      (0xa926, 0xa92d); (0xa947, 0xa951); (0xa980, 0xa982); (0xa9b3, 0xa9b3);
      (0xa9b6, 0xa9b9); (0xa9bc, 0xa9bd); (0xa9cf, 0xa9cf); (0xa9e5, 0xa9e6);
      (0xaa29, 0xaa2e); (0xaa31, 0xaa32); (0xaa35, 0xaa36); (0xaa43, 0xaa43);
      (0xaa4c, 0xaa4c); (0xaa70, 0xaa70); (0xaa7c, 0xaa7c); (0xaab0, 0xaab0);
      (0xaab2, 0xaab4); (0xaab7, 0xaab8); (0xaabe, 0xaabf); (0xaac1, 0xaac1);
      (0xaadd, 0xaadd); (0xaaec, 0xaaed); (0xaaf3, 0xaaf4); (0xaaf6, 0xaaf6);
      (0xab5b, 0xab5f); (0xab69, 0xab6b); (0xabe5, 0xabe5); (0xabe8, 0xabe8);
      (0xabed, 0xabed); (0xfb1e, 0xfb1e); (0xfbb2, 0xfbc2); (0xfe00, 0xfe0f);
      (0xfe13, 0xfe13); (0xfe20, 0xfe2f); (0xfe52, 0xfe52); (0xfe55, 0xfe55);
      (0xfeff, 0xfeff); (0xff07, 0xff07); (0xff0e, 0xff0e); (0xff1a, 0xff1a);
      (0xff3e, 0xff3e); (0xff40, 0xff40); (0xff70, 0xff70); (0xff9e, 0xff9f);
      (0xffe3, 0xffe3); (0xfff9, 0xfffb); (0x101fd, 0x101fd);
      (0x102e0, 0x102e0); (0x10376, 0x1037a); (0x10780, 0x10785);
      (0x10787, 0x107b0); (0x107b2, 0x107ba); (0x10a01, 0x10a03);
      (0x10a05, 0x10a06); (0x10a0c, 0x10a0f); (0x10a38, 0x10a3a);
      (0x10a3f, 0x10a3f); (0x10ae5, 0x10ae6); (0x10d24, 0x10d27);
      (0x10eab, 0x10eac); (0x10f46, 0x10f50); (0x10f82, 0x10f85);
      (0x11001, 0x11001); (0x11038, 0x11046); (0x11070, 0x11070);
      (0x11073, 0x11074); (0x1107f, 0x11081); (0x110b3, 0x110b6);
      (0x110b9, 0x110ba); (0x110bd, 0x110bd); (0x110c2, 0x110c2);
      (0x110cd, 0x110cd); (0x11100, 0x11102); (0x11127, 0x1112b);
      (0x1112d, 0x11134); (0x11173, 0x11173); (0x11180, 0x11181);
      (0x111b6, 0x111be); (0x111c9, 0x111cc); (0x111cf, 0x111cf);
      (0x1122f, 0x11231); (0x11234, 0x11234); (0x11236, 0x11237);
      (0x1123e, 0x1123e); (0x112df, 0x112df); (0x112e3, 0x112ea);
      (0x11300, 0x11301); (0x1133b, 0x1133c); (0x11340, 0x11340);
      (0x11366, 0x1136c); (0x11370, 0x11374); (0x11438, 0x1143f);
      (0x11442, 0x11444); (0x11446, 0x11446); (0x1145e, 0x1145e);
      (0x114b3, 0x114b8); (0x114ba, 0x114ba); (0x114bf, 0x114c0);
      (0x114c2, 0x114c3); (0x115b2, 0x115b5); (0x115bc, 0x115bd);
      (0x115bf, 0x115c0); (0x115dc, 0x115dd); (0x11633, 0x1163a);
      (0x1163d, 0x1163d); (0x1163f, 0x11640); (0x116ab, 0x116ab);
      (0x116ad, 0x116ad); (0x116b0, 0x116b5); (0x116b7, 0x116b7);
      (0x1171d, 0x1171f); (0x11722, 0x11725); (0x11727, 0x1172b);
      (0x1182f, 0x11837); (0x11839, 0x1183a); (0x1193b, 0x1193c);
      (0x1193e, 0x1193e); (0x11943, 0x11943); (0x119d4, 0x119d7);
      (0x119da, 0x119db); (0x119e0, 0x119e0); (0x11a01, 0x11a0a);
      (0x11a33, 0x11a38); (0x11a3b, 0x11a3e); (0x11a47, 0x11a47);
      (0x11a51, 0x11a56); (0x11a59, 0x11a5b); (0x11a8a, 0x11a96);
      (0x11a98, 0x11a99); (0x11c30, 0x11c36); (0x11c38, 0x11c3d);
      (0x11c3f, 0x11c3f); (0x11c92, 0x11ca7); (0x11caa, 0x11cb0);
      (0x11cb2, 0x11cb3); (0x11cb5, 0x11cb6); (0x11d31, 0x11d36);
      (0x11d3a, 0x11d3a); (0x11d3c, 0x11d3d); (0x11d3f, 0x11d45);
      (0x11d47, 0x11d47); (0x11d90, 0x11d91); (0x11d95, 0x11d95);
      (0x11d97, 0x11d97); (0x11ef3, 0x11ef4); (0x13430, 0x13438);
      (0x16af0, 0x16af4); (0x16b30, 0x16b36); (0x16b40, 0x16b43);
      (0x16f4f, 0x16f4f); (0x16f8f, 0x16f9f); (0x16fe0, 0x16fe1);
      (0x16fe3, 0x16fe4); (0x1aff0, 0x1aff3); (0x1aff5, 0x1affb);
      (0x1affd, 0x1affe); (0x1bc9d, 0x1bc9e); (0x1bca0, 0x1bca3);
      (0x1cf00, 0x1cf2d); (0x1cf30, 0x1cf46); (0x1d167, 0x1d169);
      (0x1d173, 0x1d182); (0x1d185, 0x1d18b); (0x1d1aa, 0x1d1ad);
      (0x1d242, 0x1d244); (0x1da00, 0x1da36); (0x1da3b, 0x1da6c);
      (0x1da75, 0x1da75); (0x1da84, 0x1da84); (0x1da9b, 0x1da9f);
      (0x1daa1, 0x1daaf); (0x1e000, 0x1e006); (0x1e008, 0x1e018);
      (0x1e01b, 0x1e021); (0x1e023, 0x1e024); (0x1e026, 0x1e02a);
      (0x1e130, 0x1e13d); (0x1e2ae, 0x1e2ae); (0x1e2ec, 0x1e2ef);
      (0x1e8d0, 0x1e8d6); (0x1e944, 0x1e94b); (0x1f3fb, 0x1f3ff);
      (0xe0001, 0xe0001); (0xe0020, 0xe007f); (0xe0100, 0xe01ef)
    ].

(** [\w] of the [re] module on [str] patterns: alphanumeric
      ([str.isalnum]) or the underscore. *)
Definition is_word (c : char) : bool := in_ranges word_ranges c.

(** [\s] of the [re] module on [str] patterns ([str.isspace]). *)
Definition is_space (c : char) : bool := in_ranges space_ranges c.

Definition is_cased (c : char) : bool := in_ranges cased_ranges c.

Definition is_case_ignorable (c : char) : bool :=
    in_ranges case_ignorable_ranges c.

Definition capital_sigma : char := 0x3a3.

(** [str.lower] on one code point.  U+0130 (capital I with dot above) is
      the one code point of Unicode whose lower-casing has two code points:
      [i] followed by U+0307 (combining dot above). *)
Definition lower_char (c : char) : str :=
    match find_pair lower_pairs c with
    | Some c' => [c']
    | None => if c =? 0x130 then [0x69; 0x307] else [c]
    end.

(** The characters of [s] from the first one that is not case-ignorable. *)
Fixpoint skip_case_ignorable (s : str) : str :=
    match s with
    | c :: t => if is_case_ignorable c then skip_case_ignorable t else s
    | [] => []
    end.

(** A capital sigma is at the end of a word when, case-ignorable
      characters left aside, a cased character comes before it and none
      comes after it.  [before] holds the characters before the sigma, the
      nearest first. *)
Definition final_sigma (before after : str) : bool :=
    match skip_case_ignorable before with
    | c :: _ =>
        is_cased c &&
        match skip_case_ignorable after with
        | d :: _ => negb (is_cased d)
        | [] => true
        end
    | [] => false
    end.

(** [str.lower] on the character [c] of a string, between [before] (the
      nearest character first) and [after]. *)
Definition lower_at (before : str) (c : char) (after : str) : str :=
    if c =? capital_sigma
    then [if final_sigma before after then 0x3c2 else 0x3c3]
    else lower_char c.

End Unicode.
Import Unicode.

Definition hyphen : char := 0x2d.

(** ** The two shapes of [re.sub] used by the source, and [str] methods *)

(** [re.sub("[cls]", "", s)]: every character of the class is deleted. *)
Definition re_sub_delete (cls : char -> bool) (s : str) : str :=
  filter (fun c => negb (cls c)) s.

(** [re.sub("[cls]+", repl, s)]: every maximal run of characters of the
    class is replaced by [repl].  [in_run] tells that the character before
    the current one belonged to a run that has been replaced already. *)
Fixpoint re_sub_runs_from (cls : char -> bool) (repl : str) (in_run : bool)
    (s : str) : str :=
  match s with
  | [] => []
  | c :: t =>
      if cls c
      then (if in_run then [] else repl) ++ re_sub_runs_from cls repl true t
      else c :: re_sub_runs_from cls repl false t
  end.

Definition re_sub_runs (cls : char -> bool) (repl : str) (s : str) : str :=
  re_sub_runs_from cls repl false s.

(** The lower-casing of [s], which comes after the characters [before]
    (the nearest first) in its string. *)
Fixpoint lower_from (before : str) (s : str) : str :=
  match s with
  | [] => []
  | c :: t => lower_at before c t ++ lower_from (c :: before) t
  end.

(** [s.lower()]. *)
Definition lower (s : str) : str := lower_from [] s.

Fixpoint lstrip (ch : char) (s : str) : str :=
  match s with
  | [] => []
  | c :: t => if c =? ch then lstrip ch t else s
  end.

Fixpoint rstrip (ch : char) (s : str) : str :=
  match s with
  | [] => []
  | c :: t =>
      match rstrip ch t with
      | [] => if c =? ch then [] else [c]
      | t' => c :: t'
      end
  end.

(** [s.strip(ch)] for a one-character argument. *)
Definition strip (ch : char) (s : str) : str := rstrip ch (lstrip ch s).

(** ** [FlexibleImageGenerator.sanitize_filename] (lines 84-90) *)

(** The class [[^\w\s-]]. *)
Definition not_word_space_hyphen (c : char) : bool :=
  negb (is_word c || is_space c || (c =? hyphen)).

(** The class [[-\s]]. *)
Definition hyphen_or_space (c : char) : bool := (c =? hyphen) || is_space c.

Definition sanitize_filename (filename : str) : str :=
  let filename := re_sub_delete not_word_space_hyphen filename in
  let filename := re_sub_runs hyphen_or_space [hyphen] filename in
  strip hyphen (lower filename).

(** ** [datetime] and [strftime] *)

Record datetime := {
  year : N; month : N; day : N; hour : N; minute : N; second : N
}.

(** The fields of a [datetime] object are within these bounds; the year of a
    clock reading has four digits. *)
Definition wf_datetime (d : datetime) : Prop :=
  1000 <= year d <= 9999 /\ 1 <= month d <= 12 /\ 1 <= day d <= 31 /\
  hour d < 24 /\ minute d < 60 /\ second d < 60.

Fixpoint uint_str (u : Decimal.uint) : str :=
  match u with
  | Nil => []
  | D0 u => 0x30 :: uint_str u
  | D1 u => 0x31 :: uint_str u
  | D2 u => 0x32 :: uint_str u
  | D3 u => 0x33 :: uint_str u
  | D4 u => 0x34 :: uint_str u
  | D5 u => 0x35 :: uint_str u
  | D6 u => 0x36 :: uint_str u
  | D7 u => 0x37 :: uint_str u
  | D8 u => 0x38 :: uint_str u
  | D9 u => 0x39 :: uint_str u
  end.

(** [str(n)] for a natural number. *)
Definition str_of_N (n : N) : str := uint_str (N.to_uint n).

(** [str(z)] for an integer. *)
Definition str_of_Z (z : Z) : str :=
  match z with
  | Zneg p => hyphen :: str_of_N (Npos p)
  | _ => str_of_N (Z.to_N z)
  end.

(** [s.zfill(width)] on a string of digits. *)
Definition zfill (width : nat) (s : str) : str :=
  repeat 0x30 (width - length s) ++ s.

(** One conversion of a [strftime] format. *)
Definition strftime_directive (d : datetime) (c : char) : str :=
  if c =? 0x59 then str_of_N (year d)                    (* %Y *)
  else if c =? 0x6d then zfill 2 (str_of_N (month d))    (* %m *)
  else if c =? 0x64 then zfill 2 (str_of_N (day d))      (* %d *)
  else if c =? 0x48 then zfill 2 (str_of_N (hour d))     (* %H *)
  else if c =? 0x4d then zfill 2 (str_of_N (minute d))   (* %M *)
  else if c =? 0x53 then zfill 2 (str_of_N (second d))   (* %S *)
  else [0x25; c].

Fixpoint strftime (d : datetime) (fmt : str) : str :=
  match fmt with
  | [] => []
  | c :: t =>
      if c =? 0x25
      then match t with
           | [] => [c]
           | k :: t' => strftime_directive d k ++ strftime d t'
           end
      else c :: strftime d t
  end.

Definition is_digit (c : char) : bool := in_range 0x30 0x39 c.

(** The pattern [YYYYMMDD_HHMMSS]: eight digits, an underscore, six digits. *)
Definition is_timestamp (s : str) : bool :=
  (length s =? 15)%nat && forallb is_digit (firstn 8 s)
  && str_eqb (firstn 1 (skipn 8 s)) [0x5f] && forallb is_digit (skipn 9 s).

(** ** The enumerations and their tables *)

Inductive ImageStyle := PHOTOREALISTIC | CARTOON | ARTISTIC | MINIMALIST | PIXEL_ART.

Inductive ImageSize := SQUARE | PORTRAIT | LANDSCAPE.

Definition ImageStyle_eqb (a b : ImageStyle) : bool :=
  match a, b with
  | PHOTOREALISTIC, PHOTOREALISTIC | CARTOON, CARTOON | ARTISTIC, ARTISTIC
  | MINIMALIST, MINIMALIST | PIXEL_ART, PIXEL_ART => true
  | _, _ => false
  end.

Definition all_styles : list ImageStyle :=
  [PHOTOREALISTIC; CARTOON; ARTISTIC; MINIMALIST; PIXEL_ART].

Definition ImageStyle_value (s : ImageStyle) : str :=
  match s with
  | PHOTOREALISTIC => py "photorealistic"
  | CARTOON => py "cartoon"
  | ARTISTIC => py "artistic"
  | MINIMALIST => py "minimalist"
  | PIXEL_ART => py "pixel_art"
  end.

Definition ImageSize_value (s : ImageSize) : str :=
  match s with
  | SQUARE => py "square"
  | PORTRAIT => py "portrait"
  | LANDSCAPE => py "landscape"
  end.

(** A dict literal, as the list of its entries. *)
Definition dict (K V : Type) := list (K * V).

(** [d[k]]: the value stored under [k], or nothing, where Python raises
    [KeyError]. *)
Fixpoint dict_get {K V : Type} (eqb : K -> K -> bool) (d : dict K V) (k : K)
    : option V :=
  match d with
  | [] => None
  | (k', v) :: d' => if eqb k' k then Some v else dict_get eqb d' k
  end.

(** ** Exceptions, traces and the collaborators *)

Inductive exn :=
| Exit (code : Z)                 (* typer.Exit, a RuntimeError *)
| KeyError (key : str)            (* carries repr(key) *)
| IndexError
| AttributeError
| ValueError (msg : str)
| StopIteration (value : str)
| RuntimeError (msg : str)
| MarkupError (msg : str)         (* rich.errors.MarkupError *)
| Exception (msg : str)           (* any other Exception of a collaborator *)
| BaseException (msg : str).      (* KeyboardInterrupt and the like *)

(** What [except Exception] catches. *)
Definition is_Exception (e : exn) : bool :=
  match e with
  | BaseException _ => false
  | _ => true
  end.

(** [str(e)]. *)
Definition exn_str (e : exn) : str :=
  match e with
  | Exit code => str_of_Z code
  | KeyError key => key
  | IndexError => py "list index out of range"
  | AttributeError => py "'NoneType' object has no attribute 'mkdir'"
  | ValueError msg | RuntimeError msg | MarkupError msg => msg
  | StopIteration value => value
  | Exception msg | BaseException msg => msg
  end.

Inductive result (A : Type) :=
| Ok (a : A)
| Raise (e : exn).
Arguments Ok {A} a.
Arguments Raise {A} e.

(** [pathlib.Path]: a path made from a string, and the [/] operator. *)
Inductive Path :=
| PathOf (s : str)
| PathJoin (parent : Path) (name : str).

Definition bytes := list N.
Definition Image := list N.
Definition temperature_t : Type := (Z * positive)%type.   (* a float, as a fraction *)

(** A piece of a formatted string handed to [console.print]. *)
Inductive fragment :=
| Text (s : str)
| PathText (p : Path)             (* str(path) *)
| Elapsed.                        (* the elapsed seconds, [:.2f] *)

Inductive event :=
| EAnthropic (api_key : str)
| EOpenAI (api_key : str)
| EMessagesCreate (model : str) (max_tokens : N) (temperature : temperature_t)
    (content : str)
| EImagesGenerate (model prompt size quality : str) (n : N)
| ERequestsGet (url : str)
| EImageOpen (content : bytes)
| EMkdir (p : Path)
| EImageSave (image : Image) (p : Path)
| EPrint (text : list fragment)
| EPrintException.

Definition trace := list event.

(** The answers of the collaborators. *)
Record World := {
  now : datetime;
  messages_create : str -> temperature_t -> str -> result (list str);
  images_generate : str -> str -> str -> result (list str);
  requests_get : str -> result bytes;
  Image_open : bytes -> result Image;
  Path_mkdir : Path -> result unit;
  Image_save : Image -> Path -> result unit;
  console_print : list fragment -> result unit
}.

(** Computations that leave a trace and may raise. *)
Definition M (A : Type) : Type := trace * result A.

Definition ret {A} (a : A) : M A := ([], Ok a).

Definition raise {A} (e : exn) : M A := ([], Raise e).

Definition bind {A B} (m : M A) (k : A -> M B) : M B :=
  match m with
  | (t, Ok a) => let (t', r) := k a in (t ++ t', r)
  | (t, Raise e) => (t, Raise e)
  end.

Notation "x <- m ;; k" := (bind m (fun x => k))
  (at level 61, m at next level, right associativity).
Notation "m ;;; k" := (bind m (fun _ => k))
  (at level 61, right associativity).

(** [try: m  except Exception as e: h e]. *)
Definition try_except {A} (m : M A) (h : exn -> M A) : M A :=
  match m with
  | (t, Raise e) =>
      if is_Exception e then let (t', r) := h e in (t ++ t', r)
      else (t, Raise e)
  | ok => ok
  end.

(** A call to a collaborator: the call is recorded, its answer returned. *)
Definition call {A} (ev : event) (r : result A) : M A := ([ev], r).

(** A piece of a formatted string: text of the source, or a value put in
    at run time. *)
Inductive piece :=
| Lit (f : fragment)
| Val (f : fragment).

Definition fragment_of (p : piece) : fragment :=
  match p with
  | Lit f | Val f => f
  end.

Fixpoint Path_chars (p : Path) : str :=
  match p with
  | PathOf s => s
  | PathJoin parent name => Path_chars parent ++ name
  end.

(** The fragment holds an opening bracket, with which a markup tag
    starts. *)
Definition has_bracket (f : fragment) : bool :=
  match f with
  | Text s => existsb (N.eqb 0x5b) s
  | PathText p => existsb (N.eqb 0x5b) (Path_chars p)
  | Elapsed => false
  end.

Definition brings_markup (p : piece) : bool :=
  match p with
  | Lit _ => false
  | Val f => has_bracket f
  end.

(** [console.print(text)].  The console renders the markup of the text
    before it shows anything, and raises [MarkupError] for a closing tag
    that closes nothing.  The tags of the source's own texts are balanced,
    so the rendering can fail only when a value brings a tag of its own;
    whether it does is then the console's answer. *)
Definition print (w : World) (text : list piece) : M unit :=
  let shown := map fragment_of text in
  if existsb brings_markup text
  then match console_print w shown with
       | Ok _ => call (EPrint shown) (Ok tt)
       | Raise e => raise e
       end
  else call (EPrint shown) (Ok tt).

(** Leaving an [async def]: a [StopIteration] that escapes the body of a
    coroutine is replaced by a [RuntimeError]. *)
Definition async_def {T A : Type} (body : T * result A) : T * result A :=
  match body with
  | (t, Raise (StopIteration _)) =>
      (t, Raise (RuntimeError (py "coroutine raised StopIteration")))
  | _ => body
  end.

(** [l[0]]. *)
Definition index0 {A} (l : list A) : M A :=
  match l with
  | [] => raise IndexError
  | a :: _ => ret a
  end.

(** [d[k]] in a computation. *)
Definition lookup {K V} (eqb : K -> K -> bool) (repr : K -> str)
    (d : dict K V) (k : K) : M V :=
  match dict_get eqb d k with
  | Some v => ret v
  | None => raise (KeyError (repr k))
  end.

(** Truth value of a [str | None]. *)
Definition truthy (o : option str) : bool :=
  match o with
  | Some (_ :: _) => true
  | _ => false
  end.

(** ** [ImageSize.get_dimensions] (lines 39-46) *)

Definition size_map : dict str str :=
  [ (py "square", py "1024x1024");
    (py "portrait", py "1024x1792");
    (py "landscape", py "1792x1024") ].

(** [repr] of a string without quotes or escapes, and of a style. *)
Definition str_repr (s : str) : str := py "'" ++ s ++ py "'".

Definition ImageStyle_name (s : ImageStyle) : str :=
  match s with
  | PHOTOREALISTIC => py "PHOTOREALISTIC"
  | CARTOON => py "CARTOON"
  | ARTISTIC => py "ARTISTIC"
  | MINIMALIST => py "MINIMALIST"
  | PIXEL_ART => py "PIXEL_ART"
  end.

Definition ImageStyle_repr (s : ImageStyle) : str :=
  py "<ImageStyle." ++ ImageStyle_name s ++ py ": "
  ++ str_repr (ImageStyle_value s) ++ py ">".

Definition get_dimensions (self : ImageSize) : M str :=
  lookup str_eqb str_repr size_map (ImageSize_value self).

(** ** [FlexibleImageGenerator] *)

Record FlexibleImageGenerator := {
  anthropic_client : str;           (* the client, known by its key *)
  openai_client : str;
  temperature : temperature_t;
  verbose : bool;
  images_dir : option Path;
  filename : str
}.

(** Lines 78-82 of [__init__]: the filename kept by the generator, for the
    clock reading [now] of [datetime.now()]. *)
Definition init_filename (now : datetime) (filename : option str) : str :=
  match filename with
  | Some ((_ :: _) as f) => sanitize_filename f
  | _ => strftime now (py "%Y%m%d_%H%M%S")
  end.

(** [__init__] (lines 62-82). *)
Definition init (w : World) (anthropic_client openai_client : str)
    (temperature : temperature_t) (verbose : bool) (filename : option str)
    (images_dir : option Path) : FlexibleImageGenerator :=
  {| anthropic_client := anthropic_client;
     openai_client := openai_client;
     temperature := temperature;
     verbose := verbose;
     images_dir := images_dir;
     filename := init_filename (now w) filename |}.

(** ** [generate_image_prompt] (lines 92-128) *)

Definition style_instructions : dict ImageStyle str :=
  [ (PHOTOREALISTIC,
     py "Create a photorealistic image with high detail and natural lighting");
    (CARTOON,
     py "Create a cartoon-style illustration with bold colors and clean lines");
    (ARTISTIC,
     py "Create an artistic interpretation with creative expression and artistic flair");
    (MINIMALIST,
     py "Create a minimalist design with clean, simple elements and plenty of negative space");
    (PIXEL_ART,
     py "Create a pixel art style image with distinct pixels and limited color palette") ].

Definition nl : str := [0x0a].

(** The f-string of lines 107-119, around the directive found in the table. *)
Definition prompt_template (description directive : str)
    (additional_instructions : option str) : str :=
  py "Create an image generation prompt based on the following description:" ++ nl
  ++ py "Description: " ++ description ++ nl
  ++ nl
  ++ py "Style instructions: " ++ directive ++ nl
  ++ nl
  ++ py "Additional requirements:" ++ nl
  ++ py "1. Focus on visual elements and composition" ++ nl
  ++ py "2. Be specific about colors, lighting, and mood" ++ nl
  ++ py "3. Include details about perspective and framing" ++ nl
  ++ py "4. Maintain consistency with the chosen style" ++ nl
  ++ match additional_instructions with
     | Some ((_ :: _) as a) => py "5. " ++ a
     | _ => []
     end ++ nl
  ++ nl
  ++ py "Write a clear, detailed prompt for DALL-E to create this image.".

(** The text handed to the text-generation service, for a given table. *)
Definition build_prompt (table : dict ImageStyle str) (description : str)
    (style : ImageStyle) (additional_instructions : option str) : M str :=
  directive <- lookup ImageStyle_eqb ImageStyle_repr table style ;;
  ret (prompt_template description directive additional_instructions).

Definition generate_image_prompt (w : World) (self : FlexibleImageGenerator)
    (description : str) (style : ImageStyle)
    (additional_instructions : option str) : M str :=
  prompt <- build_prompt style_instructions description style
              additional_instructions ;;
  content <- call (EMessagesCreate (py "claude-3-sonnet-20240229") 500
                     (temperature self) prompt)
               (messages_create w (anthropic_client self) (temperature self)
                  prompt) ;;
  index0 content.

(** ** [generate_image] (lines 130-156) *)

Definition warning_text (e : exn) : list piece :=
  [Lit (Text (py "[yellow]Warning: Failed to generate image: "));
   Val (Text (exn_str e)); Lit (Text (py "[/yellow]"))].

(** The warning as the console shows it. *)
Definition warning (e : exn) : list fragment := map fragment_of (warning_text e).

(** [s.partition(ch)]: the characters of [s] before the first [ch] and
    those after it, when there is one. *)
Fixpoint partition (ch : char) (s : str) : option (str * str) :=
  match s with
  | [] => None
  | c :: t =>
      if c =? ch then Some ([], t)
      else match partition ch t with
           | Some (a, b) => Some (c :: a, b)
           | None => None
           end
  end.

(** The last component of a path. *)
Definition basename (p : str) : str :=
  match partition 0x2f (rev p) with
  | Some (name, _) => rev name
  | None => p
  end.

(** [os.path.splitext(p)[1]]: the extension of the last component of [p],
    from its last dot on; there is none when the component has no dot, or
    nothing but dots before its last dot. *)
Definition splitext_ext (p : str) : str :=
  match partition 0x2e (rev (basename p)) with
  | Some (ext, stem) =>
      if existsb (fun c => negb (c =? 0x2e)) stem then 0x2e :: rev ext else []
  | None => []
  end.

(** [image.save(path)], where the last component of the path is that of
    [name]: the format is chosen by the extension of the path, and a path
    without extension is refused with [ValueError] before a file is
    opened. *)
Definition save (w : World) (image : Image) (path : Path) (name : str)
    : M unit :=
  match splitext_ext name with
  | [] => raise (ValueError (py "unknown file extension: "))
  | _ => call (EImageSave image path) (Image_save w image path)
  end.

(** The body of the [try] block. *)
Definition generate_image_body (w : World) (self : FlexibleImageGenerator)
    (prompt : str) (size : ImageSize) : M Path :=
  dimensions <- get_dimensions size ;;
  data <- call (EImagesGenerate (py "dall-e-3") prompt dimensions
                  (py "standard") 1)
            (images_generate w (openai_client self) prompt dimensions) ;;
  image_url <- index0 data ;;
  content <- call (ERequestsGet image_url) (requests_get w image_url) ;;
  image <- call (EImageOpen content) (Image_open w content) ;;
  dir <- match images_dir self with
         | Some d => ret d
         | None => raise AttributeError
         end ;;
  call (EMkdir dir) (Path_mkdir w dir) ;;;
  let name := filename self ++ py ".png" in
  let image_path := PathJoin dir name in
  save w image image_path name ;;;
  ret image_path.

Definition generate_image (w : World) (self : FlexibleImageGenerator)
    (prompt : str) (size : ImageSize) : M Path :=
  try_except (generate_image_body w self prompt size)
    (fun e =>
       (if verbose self then print w (warning_text e) else ret tt) ;;;
       raise e).

(** ** [generate] (lines 158-197), without the progress display *)

Record GenerationResult := {
  image_path : Path;
  prompt : str
}.

Definition generate (w : World) (self : FlexibleImageGenerator)
    (description : str) (style : ImageStyle) (size : ImageSize)
    (additional_instructions : option str) : M GenerationResult :=
  async_def
    (image_prompt <- generate_image_prompt w self description style
                       additional_instructions ;;
     image_path <- generate_image w self image_prompt size ;;
     ret {| image_path := image_path; prompt := image_prompt |}).

(** ** [run_generation] (lines 200-242) *)

(** Lines 218-220: the filename handed to the constructor. *)
Definition resolve_filename (description : str) (filename : option str)
    : option str :=
  if negb (truthy filename)
  then Some (sanitize_filename (firstn 30 description))
  else filename.

Definition run_generation (w : World) (description : str) (style : ImageStyle)
    (images_dir : str) (anthropic_api_key openai_api_key : str)
    (size : ImageSize) (additional_instructions : option str)
    (temperature : temperature_t) (verbose : bool) (filename : option str)
    : M unit :=
  async_def
    (call (EAnthropic anthropic_api_key) (Ok tt) ;;;
     call (EOpenAI openai_api_key) (Ok tt) ;;;
     let filename := resolve_filename description filename in
     let images_path := PathOf images_dir in
     let generator := init w anthropic_api_key openai_api_key temperature
                        verbose filename (Some images_path) in
     results <- generate w generator description style size
                  additional_instructions ;;
     print w [Lit (Text (nl ++ py "[green]Generation Complete![/green]"))] ;;;
     print w [Lit (Text (py "Total processing time: ")); Val Elapsed;
              Lit (Text (py " seconds"))] ;;;
     (if verbose
      then print w [Lit (Text (py "Generated prompt: "));
                    Val (Text (prompt results))]
      else ret tt) ;;;
     print w [Lit (Text (nl ++ py "[green]Image saved to: "));
              Val (PathText (image_path results));
              Lit (Text (py "[/green]"))]).

(** ** [create_image] (lines 245-339) *)

Definition anthropic_key_required : list fragment :=
  [Text (py "[red]Error: Anthropic API key is required. Set ANTHROPIC_API_KEY environment variable or use --anthropic-key[/red]")].

Definition openai_key_required : list fragment :=
  [Text (py "[red]Error: OpenAI API key is required. Set OPENAI_API_KEY environment variable or use --openai-key[/red]")].

(** The value under which a key is used once it has passed validation. *)
Definition key (o : option str) : str :=
  match o with
  | Some k => k
  | None => []
  end.

Definition create_image (w : World) (description : str) (style : ImageStyle)
    (size : ImageSize) (additional_instructions filename : option str)
    (images_dir : str) (temperature : temperature_t)
    (anthropic_api_key openai_api_key : option str) (verbose : bool)
    : M unit :=
  try_except
    ((if negb (truthy anthropic_api_key)
      then print w (map Lit anthropic_key_required) ;;; raise (Exit 1)
      else ret tt) ;;;
     (if negb (truthy openai_api_key)
      then print w (map Lit openai_key_required) ;;; raise (Exit 1)
      else ret tt) ;;;
     run_generation w description style images_dir (key anthropic_api_key)
       (key openai_api_key) size additional_instructions temperature verbose
       filename)
    (fun e =>
       print w [Lit (Text (py "[red]Error during generation: "));
                Val (Text (exn_str e)); Lit (Text (py "[/red]"))] ;;;
       (if verbose then call EPrintException (Ok tt) else ret tt) ;;;
       raise (Exit 1)).

(** The status with which the process ends: [typer] turns [Exit] into its
    code, and any other exception that escapes ends the process with 1. *)
Definition exit_status (r : result unit) : Z :=
  match r with
  | Ok _ => 0
  | Raise (Exit code) => code
  | Raise _ => 1
  end.

(** ** Observations on traces *)

Definition is_network_or_client (ev : event) : bool :=
  match ev with
  | EAnthropic _ | EOpenAI _ | EMessagesCreate _ _ _ _
  | EImagesGenerate _ _ _ _ _ | ERequestsGet _ => true
  | _ => false
  end.

Definition is_print (ev : event) : bool :=
  match ev with
  | EPrint _ | EPrintException => true
  | _ => false
  end.

Definition is_images_generate (ev : event) : bool :=
  match ev with EImagesGenerate _ _ _ _ _ => true | _ => false end.
Definition is_requests_get (ev : event) : bool :=
  match ev with ERequestsGet _ => true | _ => false end.
Definition is_image_open (ev : event) : bool :=
  match ev with EImageOpen _ => true | _ => false end.
Definition is_mkdir (ev : event) : bool :=
  match ev with EMkdir _ => true | _ => false end.
Definition is_image_save (ev : event) : bool :=
  match ev with EImageSave _ _ => true | _ => false end.

Definition count (p : event -> bool) (t : trace) : nat :=
  List.length (filter p t).

(** [needle] occurs in [s]. *)
Definition contains (needle s : str) : Prop :=
  exists before after, s = before ++ needle ++ after.

(** The steps of the image fetcher at which a collaborator can fail. *)
Inductive step := ServiceCall | Download | Decode | MakeDirectory | Save.

(** The collaborator of step [st] answers with the exception [e], those of
    the steps before it having answered. *)
Definition step_fails (w : World) (self : FlexibleImageGenerator)
    (prompt : str) (size : ImageSize) (st : step) (e : exn) : Prop :=
  exists dimensions,
    get_dimensions size = ([], Ok dimensions) /\
    match st with
    | ServiceCall =>
        images_generate w (openai_client self) prompt dimensions = Raise e
    | _ =>
        exists url rest,
        images_generate w (openai_client self) prompt dimensions
          = Ok (url :: rest) /\
        match st with
        | Download => requests_get w url = Raise e
        | _ =>
            exists content,
            requests_get w url = Ok content /\
            match st with
            | Decode => Image_open w content = Raise e
            | _ =>
                exists image dir,
                Image_open w content = Ok image /\
                images_dir self = Some dir /\
                match st with
                | MakeDirectory => Path_mkdir w dir = Raise e
                | _ =>
                    Path_mkdir w dir = Ok tt /\
                    splitext_ext (filename self ++ py ".png") <> [] /\
                    Image_save w image
                      (PathJoin dir (filename self ++ py ".png")) = Raise e
                end
            end
        end
    end.

(** The name under which a call of [run_generation] saves its image. *)
Definition saved_filename (now : datetime) (description : str)
    (filename : option str) : str :=
  init_filename now (resolve_filename description filename).

(** ** Sample worlds *)

Definition sample_now : datetime :=
  {| year := 2024; month := 3; day := 9; hour := 7; minute := 5; second := 0 |}.

(** Every collaborator answers. *)
Definition world_ok : World :=
  {| now := sample_now;
     messages_create := fun _ _ _ => Ok [py "A red fox in fresh snow"];
     images_generate := fun _ _ _ => Ok [py "https://images.example/fox"];
     requests_get := fun _ => Ok [0x89; 0x50; 0x4e; 0x47];
     Image_open := fun content => Ok content;
     Path_mkdir := fun _ => Ok tt;
     Image_save := fun _ _ => Ok tt;
     console_print := fun _ => Ok tt |}.

(** The image-generation service refuses the request. *)
Definition world_service_down : World :=
  {| now := sample_now;
     messages_create := fun _ _ _ => Ok [py "A red fox in fresh snow"];
     images_generate := fun _ _ _ => Raise (Exception (py "rate limit"));
     requests_get := fun _ => Ok [0x89; 0x50; 0x4e; 0x47];
     Image_open := fun content => Ok content;
     Path_mkdir := fun _ => Ok tt;
     Image_save := fun _ _ => Ok tt;
     console_print := fun _ => Ok tt |}.

(** The image-generation service refuses the request with a text that
    holds a closing tag, and the console refuses that text. *)
Definition world_unbalanced_markup : World :=
  {| now := sample_now;
     messages_create := fun _ _ _ => Ok [py "A red fox in fresh snow"];
     images_generate :=
       fun _ _ _ => Raise (Exception (py "unexpected token [/INST] in prompt"));
     requests_get := fun _ => Ok [0x89; 0x50; 0x4e; 0x47];
     Image_open := fun content => Ok content;
     Path_mkdir := fun _ => Ok tt;
     Image_save := fun _ _ => Ok tt;
     console_print :=
       fun _ => Raise (MarkupError (py "closing tag '[/INST]' at position 60 doesn't match any open tag")) |}.

(** ** Shapes of strings *)

(** [s.startswith(ch)] and [s.endswith(ch)] for one character. *)
Definition startswith (ch : char) (s : str) : bool :=
  match s with
  | c :: _ => c =? ch
  | [] => false
  end.

Fixpoint endswith (ch : char) (s : str) : bool :=
  match s with
  | [] => false
  | [c] => c =? ch
  | _ :: t => endswith ch t
  end.

(** A word character that lower-casing leaves alone. *)
Definition lowercase_word (c : char) : bool :=
  is_word c && str_eqb (lower_char c) [c].

Definition safe_char (c : char) : bool := (c =? hyphen) || lowercase_word c.

Fixpoint no_double_hyphen (s : str) : bool :=
  match s with
  | c :: t =>
      negb ((c =? hyphen) && startswith hyphen t) && no_double_hyphen t
  | [] => true
  end.

(** What a sanitized filename looks like. *)
Definition sanitized (s : str) : bool :=
  forallb safe_char s && no_double_hyphen s
  && negb (startswith hyphen s) && negb (endswith hyphen s).

(** Lower-casing [c] gives one character of the same class, itself in
    lower case. *)
Definition tame (c : char) : bool :=
  match lower_char c with
  | [c'] =>
      (c' <? 256) && Bool.eqb (is_word c') (is_word c)
      && Bool.eqb (is_space c') (is_space c)
      && Bool.eqb (c' =? hyphen) (c =? hyphen)
      && str_eqb (lower_char c') [c']
      && negb (is_word c && is_space c)
  | _ => false
  end.

Definition has_word (s : str) : Prop := exists c, In c s /\ is_word c = true.

(** ** [generate] (lines 158-197) with its progress display *)

(** What the progress display is told, beside the calls to collaborators. *)
Inductive pevent :=
| Collab (ev : event)
| PStart                                        (* with self.progress: *)
| PAddTask (description : str) (total : N)
| PDescription (description : str)              (* update(description=...) *)
| PAdvance (n : N)                              (* update(advance=n) *)
| PStop.                                        (* leaving the with block *)

Definition PM (A : Type) : Type := (list pevent * result A)%type.

Definition pbind {A B} (m : PM A) (k : A -> PM B) : PM B :=
  match m with
  | (t, Ok a) => let (t', r) := k a in (t ++ t', r)
  | (t, Raise e) => (t, Raise e)
  end.

Notation "x <-- m ;; k" := (pbind m (fun x => k))
  (at level 61, m at next level, right associativity).

(** A computation of the generator, run under the display. *)
Definition collab {A} (m : M A) : PM A := (map Collab (fst m), snd m).

Definition progress_update (ev : pevent) : PM unit := ([ev], Ok tt).

(** [with self.progress: body]: the display is started, and stopped when the
    block is left, normally or by an exception. *)
Definition with_progress {A} (body : PM A) : PM A :=
  (PStart :: fst body ++ [PStop], snd body).

Definition generate_progress (w : World) (self : FlexibleImageGenerator)
    (description : str) (style : ImageStyle) (size : ImageSize)
    (additional_instructions : option str) : PM GenerationResult :=
  async_def (with_progress
    (_ <-- progress_update (PAddTask (py "[cyan]Generating image...") 100) ;;
     _ <-- progress_update (PDescription (py "[cyan]Generating prompt...")) ;;
     image_prompt <-- collab (generate_image_prompt w self description style
                                additional_instructions) ;;
     _ <-- progress_update (PAdvance 30) ;;
     _ <-- progress_update (PDescription (py "[cyan]Creating image...")) ;;
     image_path <-- collab (generate_image w self image_prompt size) ;;
     _ <-- progress_update (PAdvance 60) ;;
     _ <-- progress_update (PDescription (py "[cyan]Saving image...")) ;;
     _ <-- progress_update (PAdvance 10) ;;
     (@nil pevent, Ok {| image_path := image_path; prompt := image_prompt |}))).

(** The calls to collaborators of a trace of the display. *)
Fixpoint collab_events (t : list pevent) : trace :=
  match t with
  | [] => []
  | Collab ev :: t' => ev :: collab_events t'
  | _ :: t' => collab_events t'
  end.

(** The units by which the task has been advanced. *)
Fixpoint advanced (t : list pevent) : N :=
  match t with
  | [] => 0
  | PAdvance n :: t' => n + advanced t'
  | _ :: t' => advanced t'
  end.

(** ** Reading digits *)

(** [int(s)] for a string of decimal digits. *)
Definition int_of_digits (s : str) : N :=
  fold_left (fun v c => 10 * v + (c - 0x30)) s 0.

(** A world that differs from [world_ok] in that the text-generation service
    is down. *)
Definition world_text_down : World :=
  {| now := sample_now;
     messages_create := fun _ _ _ => Raise (Exception (py "overloaded"));
     images_generate := fun _ _ _ => Ok [py "https://images.example/fox"];
     requests_get := fun _ => Ok [0x89; 0x50; 0x4e; 0x47];
     Image_open := fun content => Ok content;
     Path_mkdir := fun _ => Ok tt;
     Image_save := fun _ _ => Ok tt;
     console_print := fun _ => Ok tt |}.

(** A world in which the image-generation service answers with no image. *)
Definition world_no_image : World :=
  {| now := sample_now;
     messages_create := fun _ _ _ => Ok [py "A red fox in fresh snow"];
     images_generate := fun _ _ _ => Ok [];
     requests_get := fun _ => Ok [0x89; 0x50; 0x4e; 0x47];
     Image_open := fun content => Ok content;
     Path_mkdir := fun _ => Ok tt;
     Image_save := fun _ _ => Ok tt;
     console_print := fun _ => Ok tt |}.

(** A generator over [w], as [run_generation] builds it. *)
Definition sample_generator (w : World) (verbose : bool) : FlexibleImageGenerator :=
  init w (py "sk-ant") (py "sk-oai") (7%Z, 10%positive) verbose
    (Some (py "fox")) (Some (PathOf (py "./images"))).

(** ** The last two steps of [sanitize_filename] *)

(** Lines 88-89: what is done to the string once the characters outside the
    class [[\w\s-]] have been deleted. *)
Definition collapse_lower_strip (u : str) : str :=
  strip hyphen (lower (re_sub_runs hyphen_or_space [hyphen] u)).

(** The first character is a hyphen or whitespace. *)
Definition starts_with_separator (u : str) : bool :=
  match u with
  | c :: _ => hyphen_or_space c
  | [] => false
  end.

(** ** Characters under lower-casing *)

(** Lower-casing [c] gives [c'], a character of the same class that is
    itself in lower case. *)
Definition same_class (c c' : char) : bool :=
  Bool.eqb (is_word c') (is_word c) && Bool.eqb (is_space c') (is_space c)
  && Bool.eqb (c' =? hyphen) (c =? hyphen) && str_eqb (lower_char c') [c']
  && negb (c' =? 0x130).

(** Lower-casing character by character: [s.lower()] for a string without
    capital sigma. *)
Definition lower_each (s : str) : str := flat_map lower_char s.

(** [collapse_lower_strip] on a string without capital sigma. *)
Definition collapse_each (u : str) : str :=
  strip hyphen (lower_each (re_sub_runs hyphen_or_space [hyphen] u)).

(** A string without the capital I with dot above (U+0130). *)
Definition plain (s : str) : Prop := Forall (fun c => c <> 0x130) s.

(** ** The order of the tables *)

(** The ranges of a table are in increasing order and apart. *)
Fixpoint ranges_increasing (table : list (char * char)) : bool :=
  match table with
  | [] => true
  | (lo, hi) :: table' =>
      (lo <=? hi)
      && match table' with
         | (lo', _) :: _ => hi <? lo'
         | [] => true
         end
      && ranges_increasing table'
  end.

(** The keys of a table of pairs are in increasing order. *)
Fixpoint keys_increasing (table : list (char * char)) : bool :=
  match table with
  | [] => true
  | (k, _) :: table' =>
      match table' with
      | (k', _) :: _ => k <? k'
      | [] => true
      end
      && keys_increasing table'
  end.

(** * Properties *)

(** ** The definitions on small inputs *)

Example sanitize_collapses_runs :
  sanitize_filename (py " --a  - b_C--") = py "a-b_c".
Proof. reflexivity. Qed.

Example sanitize_whitespace_kinds :
  sanitize_filename ([0x09] ++ py "Tab" ++ [0x0a; 0xa0] ++ py "NBSP" ++ [0x1f])
  = py "tab-nbsp".
Proof. reflexivity. Qed.

Example sanitize_latin1_letters :
  sanitize_filename ([0xc9] ++ py "t" ++ [0xe9] ++ py " 100%") =
  [0xe9] ++ py "t" ++ [0xe9] ++ py "-100".
Proof. reflexivity. Qed.

Example sanitize_punctuation : sanitize_filename (py "?!.,") = [].
Proof. reflexivity. Qed.

Example strftime_sample :
  strftime sample_now (py "%Y%m%d_%H%M%S") = py "20240309_070500".
Proof. reflexivity. Qed.

Example str_of_Z_sample : str_of_Z (-17) = py "-17" /\ str_of_Z 0 = py "0".
Proof. split; reflexivity. Qed.

Example prompt_fifth_requirement :
  contains (nl ++ py "5. at dusk" ++ nl)
    (prompt_template (py "a fox") (py "Create") (Some (py "at dusk"))) /\
  contains (py "style" ++ nl ++ nl ++ nl ++ py "Write")
    (prompt_template (py "a fox") (py "Create") None).
Proof.
  split.
  - exists (firstn 329 (prompt_template (py "a fox") (py "Create")
                          (Some (py "at dusk")))),
           (skipn 341 (prompt_template (py "a fox") (py "Create")
                         (Some (py "at dusk")))).
    reflexivity.
  - exists (firstn 324 (prompt_template (py "a fox") (py "Create") None)),
           (skipn 337 (prompt_template (py "a fox") (py "Create") None)).
    reflexivity.
Qed.

Example lower_final_sigma :
  lower [0x39f; 0x394; 0x39f; 0x3a3] = [0x3bf; 0x3b4; 0x3bf; 0x3c2] /\
  lower [0x3a3; 0x39f; 0x3a3; 0x2e; 0x3a3] = [0x3c3; 0x3bf; 0x3c3; 0x2e; 0x3c2] /\
  lower [0x3a3] = [0x3c3].
Proof. repeat split; reflexivity. Qed.

Example sanitize_beyond_latin1 :
  sanitize_filename ([0x416; 0x2003; 0x4e2d; 0x3000; 0x660] ++ py "!")
  = [0x436; 0x2d; 0x4e2d; 0x2d; 0x660].
Proof. vm_compute. reflexivity. Qed.

Example splitext_samples :
  splitext_ext (py "fox.png") = py ".png" /\ splitext_ext (py ".png") = [] /\
  splitext_ext (py "images/.png") = [] /\ splitext_ext (py "a.b/fox") = [] /\
  splitext_ext (py "..png") = [].
Proof. repeat split; reflexivity. Qed.

(** ** Characters *)

Lemma str_eqb_eq (a b : str) : str_eqb a b = true <-> a = b.
Proof.
  unfold str_eqb. destruct (list_eq_dec N.eq_dec a b); split; congruence.
Qed.

Lemma forall_from_spec (count : nat) (start : N) (P : N -> bool) :
  forall_from count start P = true ->
  forall n, start <= n < start + N.of_nat count -> P n = true.
Proof.
  revert start. induction count as [|count IH]; intros start H n Hn.
  - lia.
  - simpl in H. apply andb_true_iff in H. destruct H as [H0 H].
    destruct (N.eq_dec n start) as [-> | Hne]; [exact H0|].
    apply (IH (N.succ start) H). lia.
Qed.

Lemma below_forallb (k : N) (P : N -> bool) :
  forall_from (N.to_nat k) 0 P = true -> forall n, n < k -> P n = true.
Proof. intros H n Hn. apply (forall_from_spec _ _ _ H). lia. Qed.

Lemma latin1_forallb (P : char -> bool) :
  forall_from 256 0 P = true -> forall c, c < 256 -> P c = true.
Proof. intros H c Hc. apply (forall_from_spec _ _ _ H). lia. Qed.

Lemma in_ranges_forall (P : char -> bool) (table : list (char * char)) :
  forallb (fun r => forall_from (N.to_nat (snd r - fst r + 1)) (fst r) P) table
  = true ->
  forall c, in_ranges table c = true -> P c = true.
Proof.
  induction table as [|[lo hi] table IH]; simpl; intros H c Hc;
    [discriminate|].
  apply andb_true_iff in H. destruct H as [H0 H].
  destruct (c <? lo) eqn:E1; [discriminate|].
  destruct (c <=? hi) eqn:E2; [|now apply IH].
  apply N.ltb_ge in E1. apply N.leb_le in E2.
  apply (forall_from_spec _ _ _ H0). lia.
Qed.

Lemma find_pair_In (table : list (char * char)) (c v : char) :
  find_pair table c = Some v -> In (c, v) table.
Proof.
  induction table as [|[k x] table IH]; simpl; [discriminate|].
  destruct (c <? k); [discriminate|].
  destruct (c =? k) eqn:E.
  - apply N.eqb_eq in E. intros H. injection H as ->. subst. now left.
  - intros H. right. now apply IH.
Qed.

Lemma tame_latin1 (c : char) : c < 256 -> tame c = true.
Proof. apply latin1_forallb. vm_compute. reflexivity. Qed.

Lemma lower_latin1 (c : char) :
  c < 256 ->
  exists c', lower_char c = [c'] /\ c' < 256 /\ is_word c' = is_word c /\
             is_space c' = is_space c /\ (c' =? hyphen) = (c =? hyphen) /\
             lower_char c' = [c'].
Proof.
  intros Hc. pose proof (tame_latin1 c Hc) as H. unfold tame in H.
  destruct (lower_char c) as [|c' [|]]; try discriminate.
  rewrite !andb_true_iff in H.
  destruct H as [[[[[H1 H2] H3] H4] H5] _].
  exists c'. split; [reflexivity|].
  apply N.ltb_lt in H1. apply eqb_prop in H2, H3, H4.
  apply str_eqb_eq in H5. auto.
Qed.

Lemma word_not_space (c : char) : is_word c = true -> is_space c = false.
Proof.
  intros Hw. destruct (is_space c) eqn:Hs; [|reflexivity].
  pose (P := fun c => negb (is_word c)).
  assert (H : P c = true).
  { apply (in_ranges_forall P space_ranges); [vm_compute; reflexivity|].
    exact Hs. }
  unfold P in H. rewrite Hw in H. discriminate.
Qed.

Lemma same_class_pairs :
  forallb (fun p => same_class (fst p) (snd p)) lower_pairs = true.
Proof. vm_compute. reflexivity. Qed.

(** Every code point but U+0130 is lower-cased to one code point of the
    same class, itself in lower case. *)
Lemma lower_regular (c : char) :
  c <> 0x130 -> exists c', lower_char c = [c'] /\ same_class c c' = true.
Proof.
  intros Hc. unfold lower_char.
  destruct (find_pair lower_pairs c) as [c'|] eqn:E.
  - exists c'. split; [reflexivity|].
    apply find_pair_In in E. pose proof same_class_pairs as H.
    rewrite forallb_forall in H. exact (H _ E).
  - apply N.eqb_neq in Hc. rewrite Hc. exists c. split; [reflexivity|].
    unfold same_class, lower_char. rewrite E, Hc.
    rewrite !eqb_reflx. simpl.
    replace (str_eqb [c] [c]) with true by (symmetry; now apply str_eqb_eq).
    reflexivity.
Qed.

Lemma same_class_spec (c c' : char) :
  same_class c c' = true ->
  is_word c' = is_word c /\ is_space c' = is_space c /\
  (c' =? hyphen) = (c =? hyphen) /\ lower_char c' = [c'] /\
  c' <> 0x130 /\ c' <> capital_sigma.
Proof.
  unfold same_class. rewrite !andb_true_iff, negb_true_iff.
  intros [[[[H1 H2] H3] H4] H5].
  apply eqb_prop in H1, H2, H3. apply str_eqb_eq in H4.
  apply N.eqb_neq in H5. repeat split; auto.
  intros ->. discriminate.
Qed.
(** ** The character tables *)

Lemma tables_increasing :
  ranges_increasing word_ranges = true /\
  ranges_increasing space_ranges = true /\
  ranges_increasing cased_ranges = true /\
  ranges_increasing case_ignorable_ranges = true /\
  keys_increasing lower_pairs = true.
Proof. repeat split; vm_compute; reflexivity. Qed.

Lemma in_ranges_below (table : list (char * char)) (c : char) :
  ranges_increasing table = true ->
  match table with
  | (lo, _) :: _ => c < lo
  | [] => True
  end ->
  forall lo hi, In (lo, hi) table -> ~ lo <= c <= hi.
Proof.
  induction table as [|[lo hi] table IH]; intros Hi Hc lo' hi' Hin;
    [contradiction|].
  cbn [ranges_increasing] in Hi. rewrite !andb_true_iff in Hi.
  destruct Hi as [[H1 H2] H3]. apply N.leb_le in H1.
  destruct Hin as [E | Hin].
  - injection E as <- <-. lia.
  - apply (IH H3); [|exact Hin].
    destruct table as [|[lo2 hi2] table]; [exact I|].
    apply N.ltb_lt in H2. lia.
Qed.

(** Membership in a table in increasing order is membership in one of its
    ranges. *)
Lemma in_ranges_spec (table : list (char * char)) (c : char) :
  ranges_increasing table = true ->
  in_ranges table c = true <->
  exists lo hi, In (lo, hi) table /\ lo <= c <= hi.
Proof.
  induction table as [|[lo hi] table IH]; intros Hi.
  - split; [discriminate | intros (? & ? & [] & _)].
  - pose proof (in_ranges_below _ c Hi) as Hb.
    cbn [ranges_increasing] in Hi. rewrite !andb_true_iff in Hi.
    destruct Hi as [[H1 H2] H3]. cbn [in_ranges].
    destruct (c <? lo) eqn:E1.
    + apply N.ltb_lt in E1. split; [discriminate|].
      intros (lo' & hi' & Hin & Hc). exfalso.
      exact (Hb E1 lo' hi' Hin Hc).
    + apply N.ltb_ge in E1. destruct (c <=? hi) eqn:E2.
      * apply N.leb_le in E2. split; [|reflexivity].
        intros _. exists lo, hi. split; [now left | lia].
      * apply N.leb_gt in E2. rewrite (IH H3). split.
        -- intros (lo' & hi' & Hin & Hc). exists lo', hi'.
           split; [now right | exact Hc].
        -- intros (lo' & hi' & [E | Hin] & Hc).
           ++ injection E as <- <-. lia.
           ++ now exists lo', hi'.
Qed.

Lemma find_pair_below (table : list (char * char)) (c : char) :
  keys_increasing table = true ->
  match table with
  | (k, _) :: _ => c < k
  | [] => True
  end ->
  forall v, ~ In (c, v) table.
Proof.
  induction table as [|[k x] table IH]; intros Hi Hc v Hin; [contradiction|].
  cbn [keys_increasing] in Hi. rewrite andb_true_iff in Hi.
  destruct Hi as [H1 H2]. destruct Hin as [E | Hin].
  - injection E as <- <-. lia.
  - apply (IH H2) in Hin; [exact Hin|].
    destruct table as [|[k2 x2] table]; [exact I|].
    apply N.ltb_lt in H1. lia.
Qed.

(** The image found in a table in increasing order is the one paired with
    the character. *)
Lemma find_pair_spec (table : list (char * char)) (c v : char) :
  keys_increasing table = true ->
  find_pair table c = Some v <-> In (c, v) table.
Proof.
  induction table as [|[k x] table IH]; intros Hi.
  - split; [discriminate | contradiction].
  - pose proof (find_pair_below _ c Hi) as Hb.
    cbn [keys_increasing] in Hi. rewrite andb_true_iff in Hi.
    destruct Hi as [H1 H2]. cbn [find_pair].
    destruct (c <? k) eqn:E1.
    + apply N.ltb_lt in E1. split; [discriminate|].
      intros Hin. exfalso. exact (Hb E1 v Hin).
    + apply N.ltb_ge in E1. destruct (c =? k) eqn:E2.
      * apply N.eqb_eq in E2. subst k. split.
        -- intros H. injection H as <-. now left.
        -- intros [E | Hin]; [now injection E as <- |].
           exfalso.
           assert (Hk : match table with
                        | (k, _) :: _ => c < k
                        | [] => True
                        end).
           { destruct table as [|[k2 x2] table]; [exact I|].
             now apply N.ltb_lt in H1. }
           exact (find_pair_below table c H2 Hk v Hin).
      * apply N.eqb_neq in E2. rewrite (IH H2). split.
        -- intros Hin. now right.
        -- intros [E | Hin]; [injection E as <- <-; congruence | exact Hin].
Qed.

Lemma safe_char_cases (c : char) :
  safe_char c = true ->
  c = hyphen \/
  (c <> hyphen /\ is_word c = true /\ is_space c = false /\
   lower_char c = [c]).
Proof.
  unfold safe_char. rewrite orb_true_iff. intros [H | H].
  - left. now apply N.eqb_eq.
  - right. unfold lowercase_word in H. rewrite andb_true_iff in H.
    destruct H as [Hw Hl]. apply str_eqb_eq in Hl.
    repeat split; auto using word_not_space.
    intros ->. discriminate.
Qed.

(** ** Lower-casing *)

Lemma lower_at_fixed (before after : str) (c : char) :
  lower_char c = [c] -> lower_at before c after = [c].
Proof.
  intros H. unfold lower_at. destruct (c =? capital_sigma) eqn:E; [|exact H].
  apply N.eqb_eq in E. subst c. discriminate.
Qed.

Lemma lower_at_regular (before after : str) (c : char) :
  c <> 0x130 ->
  exists c', lower_at before c after = [c'] /\ same_class c c' = true.
Proof.
  intros Hc. unfold lower_at. destruct (c =? capital_sigma) eqn:E.
  - apply N.eqb_eq in E. subst c.
    destruct (final_sigma before after); eexists; split;
      try reflexivity; vm_compute; reflexivity.
  - now apply lower_regular.
Qed.

Lemma lower_from_flat (before s : str) :
  Forall (fun c => c <> capital_sigma) s ->
  lower_from before s = flat_map lower_char s.
Proof.
  revert before. induction s as [|c t IH]; intros before H; [reflexivity|].
  inversion H as [|? ? Hc Ht]; subst.
  cbn [lower_from flat_map]. rewrite IH by exact Ht. unfold lower_at.
  apply N.eqb_neq in Hc. now rewrite Hc.
Qed.

Lemma lower_from_fixed (before s : str) :
  Forall (fun c => lower_char c = [c]) s -> lower_from before s = s.
Proof.
  revert before. induction s as [|c t IH]; intros before H; [reflexivity|].
  inversion H as [|? ? Hc Ht]; subst.
  cbn [lower_from]. now rewrite (lower_at_fixed _ _ _ Hc), IH.
Qed.

Lemma lower_fixed (s : str) :
  Forall (fun c => lower_char c = [c]) s -> lower s = s.
Proof. apply lower_from_fixed. Qed.

Lemma lower_from_shape (before s : str) :
  Forall (fun c => c <> 0x130) s ->
  Forall (fun c => c = hyphen \/ is_word c = true) s ->
  no_double_hyphen s = true ->
  forallb safe_char (lower_from before s) = true /\
  no_double_hyphen (lower_from before s) = true /\
  startswith hyphen (lower_from before s) = startswith hyphen s.
Proof.
  revert before. induction s as [|c t IH]; intros before Hp Hw Hn.
  - repeat split.
  - inversion Hp as [|? ? Hc Hpt]; subst.
    inversion Hw as [|? ? Hwc Hwt]; subst.
    simpl in Hn. apply andb_true_iff in Hn. destruct Hn as [Hn1 Hn2].
    destruct (IH (c :: before) Hpt Hwt Hn2) as (IH1 & IH2 & IH3).
    destruct (lower_at_regular before t c Hc) as (c' & E & Hk).
    apply same_class_spec in Hk. destruct Hk as (Ew & _ & Eh & Ef & _).
    cbn [lower_from]. rewrite E.
    cbn [app forallb no_double_hyphen startswith].
    rewrite IH1, IH2, IH3, Eh, Hn1. repeat split.
    rewrite andb_true_r. unfold safe_char, lowercase_word.
    rewrite Eh, Ew, Ef. destruct Hwc as [-> | ->]; [reflexivity|].
    replace (str_eqb [c'] [c']) with true; [apply orb_true_r|].
    symmetry. now apply str_eqb_eq.
Qed.

Lemma lower_from_length (before s : str) :
  Forall (fun c => c <> 0x130) s ->
  List.length (lower_from before s) = List.length s.
Proof.
  revert before. induction s as [|c t IH]; intros before H; [reflexivity|].
  inversion H as [|? ? Hc Ht]; subst.
  destruct (lower_at_regular before t c Hc) as (c' & E & _).
  cbn [lower_from]. rewrite E. cbn [app List.length]. now rewrite IH.
Qed.

Lemma lower_at_word (before after : str) (c : char) :
  is_word c = true ->
  exists c', In c' (lower_at before c after) /\ is_word c' = true.
Proof.
  intros Hw. destruct (N.eq_dec c 0x130) as [-> | Hc].
  - exists 0x69. split; [now left | reflexivity].
  - destruct (lower_at_regular before after c Hc) as (c' & E & Hk).
    apply same_class_spec in Hk. destruct Hk as (Ew & _).
    exists c'. rewrite E. split; [now left | congruence].
Qed.

Lemma lower_from_word (before s : str) (c : char) :
  In c s -> is_word c = true ->
  exists c', In c' (lower_from before s) /\ is_word c' = true.
Proof.
  intros Hin Hw. revert before. induction s as [|d t IH]; intros before;
    [contradiction|].
  cbn [lower_from]. destruct Hin as [-> | Hin].
  - destruct (lower_at_word before t c Hw) as (c' & Hc' & Hw').
    exists c'. split; [|exact Hw']. apply in_or_app. now left.
  - destruct (IH Hin (d :: before)) as (c' & Hc' & Hw').
    exists c'. split; [|exact Hw']. apply in_or_app. now right.
Qed.

(** ** The steps of [sanitize_filename] *)

Lemma hyphen_or_space_false (c : char) :
  hyphen_or_space c = false -> (c =? hyphen) = false /\ is_space c = false.
Proof. unfold hyphen_or_space. now rewrite orb_false_iff. Qed.

Lemma delete_In (cls : char -> bool) (s : str) (c : char) :
  In c (re_sub_delete cls s) <-> In c s /\ cls c = false.
Proof.
  unfold re_sub_delete. rewrite filter_In, negb_true_iff. reflexivity.
Qed.

Lemma delete_fixed (cls : char -> bool) (s : str) :
  Forall (fun c => cls c = false) s -> re_sub_delete cls s = s.
Proof.
  induction 1 as [|c t Hc _ IH]; simpl; [reflexivity|].
  rewrite Hc. simpl. now rewrite IH.
Qed.

Lemma runs_chars (P : char -> Prop) (b : bool) (s : str) :
  Forall P s ->
  Forall (fun c => c = hyphen \/ (hyphen_or_space c = false /\ P c))
    (re_sub_runs_from hyphen_or_space [hyphen] b s).
Proof.
  intros H. revert b. induction H as [|c t Hc _ IH]; intros b; simpl.
  - constructor.
  - destruct (hyphen_or_space c) eqn:E.
    + destruct b; simpl; [apply IH|]. constructor; [now left | apply IH].
    + constructor; [now right | apply IH].
Qed.

Lemma runs_shape (b : bool) (s : str) :
  let r := re_sub_runs_from hyphen_or_space [hyphen] b s in
  no_double_hyphen r = true /\ (b = true -> startswith hyphen r = false).
Proof.
  revert b. induction s as [|c t IH]; intros b; simpl.
  - split; reflexivity.
  - destruct (hyphen_or_space c) eqn:E.
    + destruct (IH true) as [Hn Hs]. specialize (Hs eq_refl).
      destruct b; simpl.
      * split; [exact Hn | intros _; exact Hs].
      * rewrite Hs, Hn. split; [reflexivity | discriminate].
    + destruct (IH false) as [Hn _].
      apply hyphen_or_space_false in E. destruct E as [E _].
      simpl. rewrite E, Hn. split; [reflexivity | intros _; reflexivity].
Qed.

Lemma runs_In (b : bool) (s : str) (c : char) :
  In c s -> hyphen_or_space c = false ->
  In c (re_sub_runs_from hyphen_or_space [hyphen] b s).
Proof.
  intros Hin Hc. revert b. induction s as [|d t IH]; intros b; simpl in *.
  - contradiction.
  - destruct Hin as [-> | Hin].
    + rewrite Hc. now left.
    + destruct (hyphen_or_space d).
      * apply in_or_app. right. now apply IH.
      * right. now apply IH.
Qed.

Lemma runs_fixed (b : bool) (s : str) :
  Forall (fun c => c = hyphen \/ hyphen_or_space c = false) s ->
  no_double_hyphen s = true ->
  (b = true -> startswith hyphen s = false) ->
  re_sub_runs_from hyphen_or_space [hyphen] b s = s.
Proof.
  intros H. revert b. induction H as [|c t Hc _ IH]; intros b Hn Hb.
  - reflexivity.
  - simpl in *. apply andb_true_iff in Hn. destruct Hn as [Hn1 Hn2].
    destruct Hc as [-> | Hc].
    + change (hyphen_or_space hyphen) with true. cbv iota.
      destruct b; [specialize (Hb eq_refl); discriminate|].
      change (hyphen =? hyphen) with true in Hn1. simpl in Hn1.
      apply negb_true_iff in Hn1.
      simpl. f_equal. apply IH; [exact Hn2 | intros _; exact Hn1].
    + rewrite Hc. f_equal. apply IH; [exact Hn2 | discriminate].
Qed.
Lemma lstrip_suffix (ch : char) (s : str) :
  exists p, s = p ++ lstrip ch s.
Proof.
  induction s as [|c t [p IH]]; simpl.
  - now exists [].
  - destruct (c =? ch); [|now exists []].
    exists (c :: p). simpl. now f_equal.
Qed.

Lemma lstrip_startswith (ch : char) (s : str) :
  startswith ch (lstrip ch s) = false.
Proof.
  induction s as [|c t IH]; simpl; [reflexivity|].
  destruct (c =? ch) eqn:E; [exact IH | exact E].
Qed.

Lemma lstrip_forallb (P : char -> bool) (ch : char) (s : str) :
  forallb P s = true -> forallb P (lstrip ch s) = true.
Proof.
  destruct (lstrip_suffix ch s) as [p E]. intros H. rewrite E in H.
  rewrite forallb_app in H. now apply andb_true_iff in H.
Qed.

Lemma lstrip_no_double (ch : char) (s : str) :
  no_double_hyphen s = true -> no_double_hyphen (lstrip ch s) = true.
Proof.
  induction s as [|c t IH]; simpl; [reflexivity|].
  intros H. destruct (c =? ch).
  - apply IH. now apply andb_true_iff in H.
  - exact H.
Qed.

Lemma lstrip_In (ch c : char) (s : str) :
  In c s -> c <> ch -> In c (lstrip ch s).
Proof.
  intros Hin Hc. induction s as [|d t IH]; simpl in *; [contradiction|].
  destruct (d =? ch) eqn:E.
  - apply N.eqb_eq in E. destruct Hin as [-> | Hin]; [contradiction | auto].
  - exact Hin.
Qed.

Lemma lstrip_fixed (ch : char) (s : str) :
  startswith ch s = false -> lstrip ch s = s.
Proof. destruct s as [|c t]; simpl; [reflexivity | now intros ->]. Qed.

Lemma rstrip_head (ch : char) (s : str) :
  startswith hyphen (rstrip ch s) = true -> startswith hyphen s = true.
Proof.
  destruct s as [|c t]; simpl; [discriminate|].
  destruct (rstrip ch t); [destruct (c =? ch)|]; simpl; congruence.
Qed.

Lemma rstrip_forallb (P : char -> bool) (ch : char) (s : str) :
  forallb P s = true -> forallb P (rstrip ch s) = true.
Proof.
  induction s as [|c t IH]; simpl; [reflexivity|].
  intros H. apply andb_true_iff in H. destruct H as [Hc Ht].
  specialize (IH Ht). destruct (rstrip ch t) as [|x r].
  - destruct (c =? ch); simpl; [reflexivity | now rewrite Hc].
  - change (forallb P (c :: x :: r)) with (P c && forallb P (x :: r)).
    now rewrite Hc, IH.
Qed.

Lemma rstrip_no_double (ch : char) (s : str) :
  no_double_hyphen s = true -> no_double_hyphen (rstrip ch s) = true.
Proof.
  induction s as [|c t IH]; simpl; [reflexivity|].
  intros H. apply andb_true_iff in H. destruct H as [Hc Ht].
  specialize (IH Ht). pose proof (rstrip_head ch t) as Hh.
  destruct (rstrip ch t) as [|x r].
  - destruct (c =? ch); simpl; [reflexivity | now rewrite andb_false_r].
  - change (no_double_hyphen (c :: x :: r))
      with (negb ((c =? hyphen) && startswith hyphen (x :: r))
            && no_double_hyphen (x :: r)).
    rewrite IH, andb_true_r.
    destruct (startswith hyphen (x :: r)) eqn:E.
    + now rewrite (Hh eq_refl) in Hc.
    + now rewrite andb_false_r.
Qed.

Lemma rstrip_startswith (ch : char) (s : str) :
  startswith hyphen s = false -> startswith hyphen (rstrip ch s) = false.
Proof.
  intros H. destruct (startswith hyphen (rstrip ch s)) eqn:E; [|reflexivity].
  apply rstrip_head in E. congruence.
Qed.

Lemma rstrip_endswith (ch : char) (s : str) :
  endswith ch (rstrip ch s) = false.
Proof.
  induction s as [|c t IH]; simpl; [reflexivity|].
  destruct (rstrip ch t) as [|x r].
  - destruct (c =? ch) eqn:E; simpl; [reflexivity | exact E].
  - exact IH.
Qed.

Lemma rstrip_In (ch c : char) (s : str) :
  In c s -> c <> ch -> In c (rstrip ch s).
Proof.
  intros Hin Hc. induction s as [|d t IH]; simpl in *; [contradiction|].
  destruct Hin as [-> | Hin].
  - destruct (rstrip ch t); [|now left].
    destruct (c =? ch) eqn:E; [apply N.eqb_eq in E; contradiction | now left].
  - specialize (IH Hin). destruct (rstrip ch t); [contradiction | now right].
Qed.

Lemma rstrip_fixed (ch : char) (s : str) :
  endswith ch s = false -> rstrip ch s = s.
Proof.
  induction s as [|c t IH]; [reflexivity|].
  destruct t as [|x r].
  - simpl. now intros ->.
  - intros H. change (endswith ch (c :: x :: r)) with (endswith ch (x :: r)) in H.
    change (rstrip ch (c :: x :: r))
      with (match rstrip ch (x :: r) with
            | [] => if c =? ch then [] else [c]
            | t' => c :: t'
            end).
    now rewrite (IH H).
Qed.

(** ** [sanitize_filename] *)

Lemma not_In_Forall (x : char) (s : str) :
  ~ In x s -> Forall (fun c => c <> x) s.
Proof.
  intros H. apply Forall_forall. intros c Hc ->. contradiction.
Qed.

Lemma sanitize_sanitized (s : str) :
  ~ In 0x130 s -> sanitized (sanitize_filename s) = true.
Proof.
  intros Hp. unfold sanitize_filename, re_sub_runs, strip, lower.
  set (s1 := re_sub_delete not_word_space_hyphen s).
  set (s2 := re_sub_runs_from hyphen_or_space [hyphen] false s1).
  assert (H1 : Forall (fun c => c <> 0x130 /\ not_word_space_hyphen c = false)
                 s1).
  { apply Forall_forall. intros c Hc. apply delete_In in Hc.
    destruct Hc as [Hc Hk]. split; [|exact Hk]. intros ->. contradiction. }
  pose proof (runs_chars _ false s1 H1) as H2. fold s2 in H2.
  destruct (runs_shape false s1) as [Hn _]. fold s2 in Hn.
  assert (P2 : Forall (fun c => c <> 0x130) s2).
  { eapply Forall_impl; [|exact H2]. simpl.
    intros c [-> | [_ [Hc _]]]; [discriminate | exact Hc]. }
  assert (W2 : Forall (fun c => c = hyphen \/ is_word c = true) s2).
  { eapply Forall_impl; [|exact H2]. simpl.
    intros c [-> | [Hs [_ Hk]]]; [now left | right].
    apply hyphen_or_space_false in Hs. destruct Hs as [Hh Hs].
    unfold not_word_space_hyphen in Hk. apply negb_false_iff in Hk.
    rewrite Hh, Hs, !orb_false_r in Hk. exact Hk. }
  destruct (lower_from_shape [] s2 P2 W2 Hn) as (F3 & N3 & _).
  unfold sanitized. rewrite !andb_true_iff, !negb_true_iff. repeat split.
  - now apply rstrip_forallb, lstrip_forallb.
  - now apply rstrip_no_double, lstrip_no_double.
  - apply rstrip_startswith, lstrip_startswith.
  - apply rstrip_endswith.
Qed.

Lemma sanitized_fixed (t : str) :
  sanitized t = true -> sanitize_filename t = t.
Proof.
  unfold sanitized. rewrite !andb_true_iff, !negb_true_iff.
  intros [[[Hf Hn] Hs] He].
  rewrite forallb_forall in Hf.
  unfold sanitize_filename, re_sub_runs, strip.
  rewrite delete_fixed.
  2:{ apply Forall_forall. intros c Hc.
      destruct (safe_char_cases c (Hf c Hc)) as [-> | (_ & Hw & _)];
        [reflexivity|].
      unfold not_word_space_hyphen. now rewrite Hw. }
  rewrite runs_fixed; [| |exact Hn|discriminate].
  2:{ apply Forall_forall. intros c Hc.
      destruct (safe_char_cases c (Hf c Hc)) as [-> | (Hh & _ & Hsp & _)];
        [now left | right].
      unfold hyphen_or_space. rewrite Hsp, orb_false_r. now apply N.eqb_neq. }
  rewrite lower_fixed.
  2:{ apply Forall_forall. intros c Hc.
      destruct (safe_char_cases c (Hf c Hc)) as [-> | (_ & _ & _ & Hl)];
        [reflexivity | exact Hl]. }
  rewrite lstrip_fixed by exact Hs. now apply rstrip_fixed.
Qed.

Lemma sanitized_chars (t : str) :
  sanitized t = true ->
  Forall (fun c => c = hyphen \/ (is_word c = true /\ lower_char c = [c])) t /\
  Forall (fun c => is_space c = false) t.
Proof.
  unfold sanitized. rewrite !andb_true_iff. intros [[[Hf _] _] _].
  rewrite forallb_forall in Hf.
  split; apply Forall_forall; intros c Hc;
    destruct (safe_char_cases c (Hf c Hc)) as [-> | (_ & Hw & Hs & Hl)];
    auto.
Qed.

Lemma sanitize_keeps_word (s : str) :
  has_word s -> has_word (sanitize_filename s).
Proof.
  intros (c & Hin & Hw).
  assert (H2 : In c (re_sub_runs_from hyphen_or_space [hyphen] false
                       (re_sub_delete not_word_space_hyphen s))).
  { apply runs_In.
    - apply delete_In. split; [exact Hin|].
      unfold not_word_space_hyphen. now rewrite Hw.
    - unfold hyphen_or_space. rewrite (word_not_space c Hw), orb_false_r.
      apply N.eqb_neq. intros ->. discriminate. }
  destruct (lower_from_word [] _ c H2 Hw) as (c' & Hc' & Hw').
  exists c'. split; [|exact Hw'].
  assert (Hh : c' <> hyphen) by (intros ->; discriminate).
  unfold sanitize_filename, strip, re_sub_runs.
  apply rstrip_In; [apply lstrip_In; [|exact Hh] | exact Hh].
  exact Hc'.
Qed.

Lemma runs_all_separators (b : bool) (s : str) :
  Forall (fun c => hyphen_or_space c = true) s ->
  re_sub_runs_from hyphen_or_space [hyphen] b s =
  if b then [] else match s with [] => [] | _ :: _ => [hyphen] end.
Proof.
  intros H. revert b. induction H as [|c t Hc _ IH]; intros b.
  - now destruct b.
  - simpl. rewrite Hc, (IH true). destruct b; reflexivity.
Qed.

Lemma sanitize_no_word (s : str) : ~ has_word s -> sanitize_filename s = [].
Proof.
  intros Hn. unfold sanitize_filename, re_sub_runs.
  rewrite runs_all_separators.
  - destruct (re_sub_delete not_word_space_hyphen s); reflexivity.
  - apply Forall_forall. intros c Hc. apply delete_In in Hc.
    destruct Hc as [Hin Hk]. unfold not_word_space_hyphen in Hk.
    apply negb_false_iff in Hk.
    destruct (is_word c) eqn:Hw.
    + exfalso. apply Hn. now exists c.
    + unfold hyphen_or_space. simpl in Hk. now rewrite orb_comm.
Qed.

Lemma has_word_dec (s : str) : has_word s \/ ~ has_word s.
Proof.
  destruct (existsb is_word s) eqn:E.
  - left. apply existsb_exists in E. exact E.
  - right. intros (c & Hin & Hw).
    assert (H : existsb is_word s = true) by (apply existsb_exists; eauto).
    congruence.
Qed.

Lemma NNPP_has_word (s : str) : ~ ~ has_word s -> has_word s.
Proof. destruct (has_word_dec s); tauto. Qed.

(** C2.  On every string without the capital I with dot above (U+0130),
    [sanitize_filename] deletes the characters that are not word
    characters, whitespace or hyphens, replaces every run of hyphens and
    whitespace by one hyphen, lower-cases and trims hyphens at both ends;
    its output has only hyphens and word characters in lower case, no
    whitespace, no two hyphens in a row, and no hyphen at either end. *)
Theorem sanitize_filename_output (s : str) (Hs : ~ In 0x130 s) :
  let out := sanitize_filename s in
  out = strip hyphen (lower (re_sub_runs hyphen_or_space [hyphen]
                               (re_sub_delete not_word_space_hyphen s))) /\
  Forall (fun c => c = hyphen \/ (is_word c = true /\ lower_char c = [c])) out /\
  Forall (fun c => is_space c = false) out /\
  no_double_hyphen out = true /\
  startswith hyphen out = false /\ endswith hyphen out = false.
Proof.
  intros out. pose proof (sanitize_sanitized s Hs) as H. fold out in H.
  destruct (sanitized_chars out H) as [Hc Hsp].
  unfold sanitized in H. rewrite !andb_true_iff, !negb_true_iff in H.
  destruct H as [[[_ Hn] Hst] He]. repeat split; assumption.
Qed.

Lemma sanitize_filename_output_witness :
  ~ In 0x130 (py " --Caf" ++ [0xc9; 0x2003; 0x39f; 0x394; 0x39f; 0x3a3]
              ++ py "_Lait! ") /\
  sanitize_filename (py " --Caf" ++ [0xc9; 0x2003; 0x39f; 0x394; 0x39f; 0x3a3]
                     ++ py "_Lait! ")
    = py "caf" ++ [0xe9; 0x2d; 0x3bf; 0x3b4; 0x3bf; 0x3c2] ++ py "_lait".
Proof.
  assert (H : ~ In 0x130 (py " --Caf"
                          ++ [0xc9; 0x2003; 0x39f; 0x394; 0x39f; 0x3a3]
                          ++ py "_Lait! ")).
  { intros Hc. simpl in Hc.
    repeat (destruct Hc as [Hc | Hc]; [discriminate|]). contradiction. }
  split; [exact H|].
  destruct (sanitize_filename_output _ H) as [E _].
  rewrite E. vm_compute. reflexivity.
Defined.

(** C2, as stated for every string: the capital I with dot above (U+0130)
    is a word character whose lower-casing ends in the combining dot U+0307,
    which is neither a word character nor a hyphen, and stays in the
    output. *)
Lemma sanitize_filename_output_U0130 :
  sanitize_filename [0x130] = [0x69; 0x307] /\
  ~ Forall (fun c => c = hyphen \/ is_word c = true) (sanitize_filename [0x130]).
Proof.
  split; [reflexivity|]. intros H.
  change (sanitize_filename [0x130]) with [0x69; 0x307] in H.
  inversion H as [|? ? _ H']; subst. inversion H' as [|? ? [E | E] _]; subst;
    discriminate.
Qed.

(** C3.  On every string without the capital I with dot above (U+0130),
    sanitizing a sanitized filename changes nothing. *)
Theorem sanitize_filename_idempotent (s : str) (Hs : ~ In 0x130 s) :
  sanitize_filename (sanitize_filename s) = sanitize_filename s.
Proof. apply sanitized_fixed, sanitize_sanitized, Hs. Qed.

Lemma sanitize_filename_idempotent_witness :
  ~ In 0x130 (py "Hello, World! 2024") /\
  sanitize_filename (sanitize_filename (py "Hello, World! 2024"))
    = sanitize_filename (py "Hello, World! 2024").
Proof.
  assert (H : ~ In 0x130 (py "Hello, World! 2024")).
  { intros Hc. simpl in Hc.
    repeat (destruct Hc as [Hc | Hc]; [discriminate|]). contradiction. }
  split; [exact H | exact (sanitize_filename_idempotent _ H)].
Defined.

(** C3, as stated for every string: sanitizing U+0130 gives [i] followed by
    U+0307, and sanitizing that again deletes U+0307. *)
Lemma sanitize_filename_not_idempotent_U0130 :
  sanitize_filename (sanitize_filename [0x130]) = [0x69] /\
  sanitize_filename (sanitize_filename [0x130]) <> sanitize_filename [0x130].
Proof. split; [reflexivity | discriminate]. Qed.

(** C4.  [sanitize_filename] returns a non-empty string exactly for the
    strings that have a word character: a string that is left with
    whitespace and hyphens only is sanitized to the empty string;
    ["Hello, World! 2024"] is sanitized to ["hello-world-2024"]. *)
Theorem sanitize_filename_nonempty (s : str) :
  (sanitize_filename s <> [] <-> has_word s) /\
  sanitize_filename (py "Hello, World! 2024") = py "hello-world-2024".
Proof.
  split; [|reflexivity]. split.
  - intros Hne. destruct (sanitize_filename s) as [|c t] eqn:E;
      [congruence|].
    apply NNPP_has_word. intros Hn. apply sanitize_no_word in Hn. congruence.
  - intros Hw. destruct (sanitize_keeps_word s Hw) as (c & Hin & _).
    intros E. rewrite E in Hin. contradiction.
Qed.

(** C4, as stated: a lone space is not empty once the characters outside
    word characters, whitespace and hyphens are deleted, and is sanitized to
    the empty string. *)
Lemma sanitize_filename_space_empty :
  re_sub_delete not_word_space_hyphen (py " ") <> [] /\
  sanitize_filename (py " ") = [].
Proof. split; [discriminate | reflexivity]. Qed.

(** ** Timestamps *)

Lemma two_digits (n : N) :
  n < 100 ->
  exists a b, zfill 2 (str_of_N n) = [a; b] /\
              is_digit a = true /\ is_digit b = true.
Proof.
  intros Hn.
  pose (P := fun n => match zfill 2 (str_of_N n) with
                      | [a; b] => is_digit a && is_digit b
                      | _ => false
                      end).
  assert (H : P n = true).
  { apply (below_forallb 100 P); [vm_compute; reflexivity | exact Hn]. }
  unfold P in H. destruct (zfill 2 (str_of_N n)) as [|a [|b [|]]]; try discriminate.
  apply andb_true_iff in H. exists a, b. tauto.
Qed.

Lemma four_digits (n : N) :
  1000 <= n <= 9999 ->
  exists a b c d, str_of_N n = [a; b; c; d] /\ is_digit a = true /\
                  is_digit b = true /\ is_digit c = true /\ is_digit d = true.
Proof.
  intros Hn.
  pose (P := fun n => (n <? 1000) ||
                      match str_of_N n with
                      | [a; b; c; d] =>
                          is_digit a && is_digit b && is_digit c && is_digit d
                      | _ => false
                      end).
  assert (H : P n = true).
  { apply (below_forallb 10000 P); [vm_compute; reflexivity | lia]. }
  unfold P in H. apply orb_true_iff in H. destruct H as [H | H].
  { apply N.ltb_lt in H. lia. }
  destruct (str_of_N n) as [|a [|b [|c [|d [|]]]]]; try discriminate.
  rewrite !andb_true_iff in H. exists a, b, c, d. tauto.
Qed.

Lemma strftime_unfold (d : datetime) :
  strftime d (py "%Y%m%d_%H%M%S") =
  str_of_N (year d) ++ zfill 2 (str_of_N (month d))
  ++ zfill 2 (str_of_N (day d)) ++ [0x5f] ++ zfill 2 (str_of_N (hour d))
  ++ zfill 2 (str_of_N (minute d)) ++ zfill 2 (str_of_N (second d)).
Proof. cbn. now rewrite app_nil_r. Qed.

Lemma strftime_nonempty (d : datetime) :
  strftime d (py "%Y%m%d_%H%M%S") <> [].
Proof.
  rewrite strftime_unfold. intros E.
  apply (f_equal (@List.length char)) in E.
  rewrite !length_app in E. simpl in E. lia.
Qed.

Lemma strftime_timestamp (d : datetime) :
  wf_datetime d -> is_timestamp (strftime d (py "%Y%m%d_%H%M%S")) = true.
Proof.
  intros (Hy & Hm & Hd & HH & HM & HS). rewrite strftime_unfold.
  destruct (four_digits (year d) Hy) as (y1 & y2 & y3 & y4 & -> & ? & ? & ? & ?).
  destruct (two_digits (month d)) as (m1 & m2 & -> & ? & ?); [lia|].
  destruct (two_digits (day d)) as (d1 & d2 & -> & ? & ?); [lia|].
  destruct (two_digits (hour d)) as (h1 & h2 & -> & ? & ?); [lia|].
  destruct (two_digits (minute d)) as (n1 & n2 & -> & ? & ?); [lia|].
  destruct (two_digits (second d)) as (s1 & s2 & -> & ? & ?); [lia|].
  unfold is_timestamp. simpl.
  repeat match goal with H : is_digit _ = true |- _ => rewrite H; clear H end.
  reflexivity.
Qed.

(** ** The filename of a run *)

Lemma latin1_firstn (n : nat) (s : str) : latin1 s -> latin1 (firstn n s).
Proof.
  unfold latin1. intros H. rewrite <- (firstn_skipn n s) in H.
  now apply Forall_app in H.
Qed.

Lemma not_In_firstn (x : char) (n : nat) (s : str) :
  ~ In x s -> ~ In x (firstn n s).
Proof.
  intros H Hin. apply H. rewrite <- (firstn_skipn n s).
  apply in_or_app. now left.
Qed.

Lemma latin1_not_In (s : str) : latin1 s -> ~ In 0x130 s.
Proof.
  unfold latin1. rewrite Forall_forall. intros H Hin.
  specialize (H _ Hin). lia.
Qed.

Lemma saved_filename_given (now : datetime) (description given : str) :
  given <> [] ->
  saved_filename now description (Some given) = sanitize_filename given.
Proof. destruct given; [congruence | reflexivity]. Qed.

Lemma saved_filename_derived (now : datetime) (description : str)
    (filename : option str) :
  truthy filename = false ->
  saved_filename now description filename =
  match sanitize_filename (firstn 30 description) with
  | [] => strftime now (py "%Y%m%d_%H%M%S")
  | derived => sanitize_filename derived
  end.
Proof.
  intros H. unfold saved_filename, resolve_filename. rewrite H.
  cbn [negb]. unfold init_filename.
  destruct (sanitize_filename (firstn 30 description)); reflexivity.
Qed.

Lemma sanitize_twice_nonempty (s : str) :
  sanitize_filename s <> [] -> sanitize_filename (sanitize_filename s) <> [].
Proof.
  intros H E. destruct (has_word_dec s) as [Hw | Hn].
  - destruct (sanitize_keeps_word _ (sanitize_keeps_word s Hw))
      as (c & Hin & _).
    rewrite E in Hin. contradiction.
  - now apply sanitize_no_word in Hn.
Qed.

(** X23.  The name under which a run saves its image is empty exactly
    when an explicit, non-empty filename is sanitized to the empty string:
    a name derived from the description, or the timestamp, is never
    empty. *)
Theorem saved_filename_empty_iff (now : datetime) (description : str)
    (filename : option str) :
  saved_filename now description filename = [] <->
  exists given, filename = Some given /\ given <> [] /\
                sanitize_filename given = [].
Proof.
  assert (Hder : truthy filename = false ->
                 saved_filename now description filename <> []).
  { intros Hf. rewrite (saved_filename_derived _ _ _ Hf).
    destruct (sanitize_filename (firstn 30 description)) eqn:E.
    - apply strftime_nonempty.
    - rewrite <- E. apply sanitize_twice_nonempty. congruence. }
  split.
  - intros Hn. destruct filename as [[|c given]|].
    + now apply Hder in Hn.
    + exists (c :: given). repeat split; [discriminate|].
      now rewrite saved_filename_given in Hn.
    + now apply Hder in Hn.
  - intros (given & -> & Hg & Hs). now rewrite saved_filename_given.
Qed.

(** C5.  With no filename and a description whose first 30 characters are
    sanitized to the empty string, the name is the clock reading formatted as
    eight digits, an underscore and six digits. *)
Theorem fallback_is_timestamp (now : datetime) (description : str)
    (filename : option str) (Hnow : wf_datetime now)
    (Hf : truthy filename = false)
    (Hd : sanitize_filename (firstn 30 description) = []) :
  saved_filename now description filename = strftime now (py "%Y%m%d_%H%M%S") /\
  is_timestamp (saved_filename now description filename) = true.
Proof.
  rewrite (saved_filename_derived _ _ _ Hf), Hd.
  split; [reflexivity | now apply strftime_timestamp].
Qed.

Lemma fallback_is_timestamp_witness :
  saved_filename (sample_now) (py "?!") None
  = py "20240309_070500".
Proof.
  destruct (fallback_is_timestamp (sample_now) (py "?!") None)
    as [E _].
  - unfold wf_datetime. simpl. lia.
  - reflexivity.
  - reflexivity.
  - rewrite E. reflexivity.
Defined.

(** ** The tables *)

(** C6.  [get_dimensions] answers for each of the three sizes, with
    ["1024x1024"] for square, ["1024x1792"] for portrait and ["1792x1024"]
    for landscape. *)
Theorem get_dimensions_table :
  get_dimensions SQUARE = ([], Ok (py "1024x1024")) /\
  get_dimensions PORTRAIT = ([], Ok (py "1024x1792")) /\
  get_dimensions LANDSCAPE = ([], Ok (py "1792x1024")) /\
  forall size, exists dimensions, get_dimensions size = ([], Ok dimensions).
Proof.
  repeat split. intros []; eexists; reflexivity.
Qed.

Lemma get_dimensions_total (size : ImageSize) :
  exists dimensions, get_dimensions size = ([], Ok dimensions).
Proof. destruct size; eexists; reflexivity. Qed.

Lemma contains_app_l (needle p s : str) :
  contains needle s -> contains needle (p ++ s).
Proof.
  intros (before & after & ->). exists (p ++ before), after.
  now rewrite <- app_assoc.
Qed.

Lemma contains_template (description directive : str)
    (additional_instructions : option str) :
  contains directive
    (prompt_template description directive additional_instructions).
Proof.
  unfold prompt_template. do 7 apply contains_app_l.
  now exists [], (nl ++ nl ++ py "Additional requirements:" ++ nl
    ++ py "1. Focus on visual elements and composition" ++ nl
    ++ py "2. Be specific about colors, lighting, and mood" ++ nl
    ++ py "3. Include details about perspective and framing" ++ nl
    ++ py "4. Maintain consistency with the chosen style" ++ nl
    ++ match additional_instructions with
       | Some ((_ :: _) as a) => py "5. " ++ a
       | _ => []
       end ++ nl
    ++ nl
    ++ py "Write a clear, detailed prompt for DALL-E to create this image.").
Qed.

Lemma ImageStyle_eqb_eq (a b : ImageStyle) :
  ImageStyle_eqb a b = true <-> a = b.
Proof. destruct a, b; simpl; split; congruence. Qed.

Lemma dict_get_In {V : Type} (d : dict ImageStyle V) (k : ImageStyle) (v : V) :
  NoDup (map fst d) -> In (k, v) d -> dict_get ImageStyle_eqb d k = Some v.
Proof.
  induction d as [|[k' v'] d IH]; simpl; intros Hn Hin; [contradiction|].
  inversion Hn as [|? ? Hk Hd]; subst.
  destruct Hin as [E | Hin].
  - injection E as -> ->.
    now rewrite (proj2 (ImageStyle_eqb_eq k k) eq_refl).
  - destruct (ImageStyle_eqb k' k) eqn:E.
    + apply ImageStyle_eqb_eq in E. subst k'. exfalso. apply Hk.
      apply in_map_iff. now exists (k, v).
    + now apply IH.
Qed.

Lemma all_styles_NoDup : NoDup all_styles.
Proof.
  unfold all_styles.
  repeat (constructor; [simpl; intros H; repeat (destruct H as [H | H];
    [discriminate|]); contradiction|]).
  constructor.
Qed.

Lemma build_prompt_Ok (table : dict ImageStyle str) (description : str)
    (style : ImageStyle) (additional_instructions : option str)
    (directive : str) :
  dict_get ImageStyle_eqb table style = Some directive ->
  build_prompt table description style additional_instructions
  = ([], Ok (prompt_template description directive additional_instructions)).
Proof. intros H. unfold build_prompt, lookup. now rewrite H. Qed.

Lemma generate_image_prompt_trace (w : World) (self : FlexibleImageGenerator)
    (description : str) (style : ImageStyle)
    (additional_instructions : option str) (p : str) :
  build_prompt style_instructions description style additional_instructions
  = ([], Ok p) ->
  fst (generate_image_prompt w self description style additional_instructions)
  = [EMessagesCreate (py "claude-3-sonnet-20240229") 500 (temperature self) p].
Proof.
  intros H. unfold generate_image_prompt. rewrite H.
  unfold bind, call, index0, ret, raise.
  destruct (messages_create w (anthropic_client self) (temperature self) p)
    as [[|x l]|e]; reflexivity.
Qed.

(** C7.  The table has one entry for each of the five styles and no other;
    for every style, the text sent to the text-generation service has the
    directive of that style in it, and a table without an entry for the
    style makes the lookup raise [KeyError]: there is no default. *)
Theorem style_directive_in_prompt (w : World) (self : FlexibleImageGenerator)
    (description : str) (style : ImageStyle)
    (additional_instructions : option str) :
  map fst style_instructions = all_styles /\ NoDup all_styles /\
  In style all_styles /\
  (exists directive,
     dict_get ImageStyle_eqb style_instructions style = Some directive /\
     (forall d, In (style, d) style_instructions -> d = directive) /\
     exists p,
       build_prompt style_instructions description style
         additional_instructions = ([], Ok p) /\
       contains directive p /\
       fst (generate_image_prompt w self description style
              additional_instructions)
       = [EMessagesCreate (py "claude-3-sonnet-20240229") 500
            (temperature self) p]) /\
  (forall table,
     dict_get ImageStyle_eqb table style = None ->
     build_prompt table description style additional_instructions
     = ([], Raise (KeyError (ImageStyle_repr style)))).
Proof.
  assert (Hk : map fst style_instructions = all_styles) by reflexivity.
  split; [exact Hk|]. split; [apply all_styles_NoDup|].
  split; [destruct style; simpl; tauto|]. split.
  - assert (Hd : exists directive,
               dict_get ImageStyle_eqb style_instructions style = Some directive)
      by (destruct style; eexists; reflexivity).
    destruct Hd as [directive Hd]. exists directive.
    split; [exact Hd|]. split.
    + intros d Hin. apply dict_get_In in Hin.
      * congruence.
      * rewrite Hk. apply all_styles_NoDup.
    + exists (prompt_template description directive additional_instructions).
      pose proof (build_prompt_Ok _ description style additional_instructions
                    _ Hd) as Hb.
      split; [exact Hb|]. split; [apply contains_template|].
      now apply generate_image_prompt_trace.
  - intros table Hn. unfold build_prompt, lookup. now rewrite Hn.
Qed.

Lemma build_prompt_total (description : str) (style : ImageStyle)
    (additional_instructions : option str) :
  exists directive,
    dict_get ImageStyle_eqb style_instructions style = Some directive /\
    build_prompt style_instructions description style additional_instructions
    = ([], Ok (prompt_template description directive additional_instructions)).
Proof.
  assert (H : exists directive,
             dict_get ImageStyle_eqb style_instructions style = Some directive)
    by (destruct style; eexists; reflexivity).
  destruct H as [directive H]. exists directive.
  split; [exact H | now apply build_prompt_Ok].
Qed.

(** ** Computations *)

Lemma print_plain (w : World) (text : list piece) :
  existsb brings_markup text = false ->
  print w text = ([EPrint (map fragment_of text)], Ok tt).
Proof. intros H. unfold print. cbv zeta. now rewrite H. Qed.

Lemma print_cases (w : World) (text : list piece) :
  print w text = ([EPrint (map fragment_of text)], Ok tt) \/
  exists e, existsb brings_markup text = true /\
            console_print w (map fragment_of text) = Raise e /\
            print w text = ([], Raise e).
Proof.
  unfold print. cbv zeta. destruct (existsb brings_markup text); [|now left].
  destruct (console_print w (map fragment_of text)) as [[]|e];
    [now left | right]. now exists e.
Qed.

Lemma save_cases (w : World) (image : Image) (path : Path) (name : str) :
  save w image path name =
  match splitext_ext name with
  | [] => ([], Raise (ValueError (py "unknown file extension: ")))
  | _ => ([EImageSave image path], Image_save w image path)
  end.
Proof. unfold save. destruct (splitext_ext name); reflexivity. Qed.

Lemma generate_image_body_unfold (w : World) (self : FlexibleImageGenerator)
    (prompt : str) (size : ImageSize) (dimensions : str) :
  get_dimensions size = ([], Ok dimensions) ->
  generate_image_body w self prompt size =
  let e1 := EImagesGenerate (py "dall-e-3") prompt dimensions
              (py "standard") 1 in
  match images_generate w (openai_client self) prompt dimensions with
  | Raise e => ([e1], Raise e)
  | Ok [] => ([e1], Raise IndexError)
  | Ok (url :: _) =>
      let e2 := ERequestsGet url in
      match requests_get w url with
      | Raise e => ([e1; e2], Raise e)
      | Ok content =>
          let e3 := EImageOpen content in
          match Image_open w content with
          | Raise e => ([e1; e2; e3], Raise e)
          | Ok image =>
              match images_dir self with
              | None => ([e1; e2; e3], Raise AttributeError)
              | Some dir =>
                  let e4 := EMkdir dir in
                  let image_path := PathJoin dir (filename self ++ py ".png") in
                  let e5 := EImageSave image image_path in
                  match Path_mkdir w dir with
                  | Raise e => ([e1; e2; e3; e4], Raise e)
                  | Ok _ =>
                      match splitext_ext (filename self ++ py ".png") with
                      | [] =>
                          ([e1; e2; e3; e4],
                           Raise (ValueError (py "unknown file extension: ")))
                      | _ =>
                          match Image_save w image image_path with
                          | Raise e => ([e1; e2; e3; e4; e5], Raise e)
                          | Ok _ => ([e1; e2; e3; e4; e5], Ok image_path)
                          end
                      end
                  end
              end
          end
      end
  end.
Proof.
  intros H. unfold generate_image_body, save. rewrite H. cbv zeta.
  unfold bind, call, index0, ret, raise.
  destruct (images_generate w (openai_client self) prompt dimensions)
    as [[|url rest]|e]; try reflexivity.
  destruct (requests_get w url) as [content|e]; try reflexivity.
  destruct (Image_open w content) as [image|e]; try reflexivity.
  destruct (images_dir self) as [dir|]; try reflexivity.
  destruct (Path_mkdir w dir) as [[]|e]; try reflexivity.
  destruct (splitext_ext (filename self ++ py ".png")); try reflexivity.
  destruct (Image_save w image (PathJoin dir (filename self ++ py ".png")))
    as [[]|e]; reflexivity.
Qed.

(** What the handler of [generate_image] makes of a failure of the body. *)
Lemma generate_image_handler (w : World) (self : FlexibleImageGenerator)
    (prompt : str) (size : ImageSize) (t : trace) (e : exn) :
  generate_image_body w self prompt size = (t, Raise e) ->
  generate_image w self prompt size =
  if verbose self && is_Exception e
  then match print w (warning_text e) with
       | (t', Ok _) => (t ++ t', Raise e)
       | (t', Raise e') => (t ++ t', Raise e')
       end
  else (t, Raise e).
Proof.
  intros H. unfold generate_image, try_except. rewrite H.
  destruct (is_Exception e), (verbose self); simpl;
    rewrite ?app_nil_r; try reflexivity.
  destruct (print w (warning_text e)) as [t' [[]|e']]; simpl;
    now rewrite ?app_nil_r.
Qed.

Lemma generate_image_reraises (w : World) (self : FlexibleImageGenerator)
    (prompt : str) (size : ImageSize) (t : trace) (e : exn) :
  generate_image_body w self prompt size = (t, Raise e) ->
  verbose self = false \/ existsb (N.eqb 0x5b) (exn_str e) = false ->
  generate_image w self prompt size =
  (t ++ (if verbose self && is_Exception e then [EPrint (warning e)] else []),
   Raise e).
Proof.
  intros H Hp. rewrite (generate_image_handler w self prompt size t e H).
  destruct Hp as [Hv | Hb].
  - rewrite Hv. simpl. now rewrite app_nil_r.
  - destruct (verbose self && is_Exception e); [|now rewrite app_nil_r].
    rewrite print_plain; [reflexivity|].
    simpl. now rewrite Hb.
Qed.

Lemma generate_image_trace (w : World) (self : FlexibleImageGenerator)
    (prompt : str) (size : ImageSize) (t : trace) (e : exn) :
  generate_image_body w self prompt size = (t, Raise e) ->
  exists e',
    (snd (generate_image w self prompt size) = Raise e') /\
    (fst (generate_image w self prompt size) = t \/
     fst (generate_image w self prompt size) = t ++ [EPrint (warning e)]).
Proof.
  intros H. rewrite (generate_image_handler w self prompt size t e H).
  destruct (verbose self && is_Exception e).
  - destruct (print_cases w (warning_text e)) as [-> | (e' & _ & _ & ->)].
    + exists e. split; [reflexivity | now right].
    + exists e'. split; [reflexivity | left; apply app_nil_r].
  - exists e. split; [reflexivity | now left].
Qed.

Lemma generate_image_returns (w : World) (self : FlexibleImageGenerator)
    (prompt : str) (size : ImageSize) (t : trace) (p : Path) :
  generate_image w self prompt size = (t, Ok p) ->
  generate_image_body w self prompt size = (t, Ok p).
Proof.
  intros H.
  destruct (generate_image_body w self prompt size) as [t' [p'|e]] eqn:E.
  - unfold generate_image, try_except in H. now rewrite E in H.
  - destruct (generate_image_trace w self prompt size t' e E) as (e' & H1 & _).
    rewrite H in H1. discriminate.
Qed.

Lemma bind_Ok_inv {A B : Type} (m : M A) (k : A -> M B) (t : trace) (b : B) :
  bind m k = (t, Ok b) ->
  exists t1 a t2, m = (t1, Ok a) /\ k a = (t2, Ok b) /\ t = t1 ++ t2.
Proof.
  unfold bind. destruct m as [t1 [a|e]]; [|discriminate].
  destruct (k a) as [t2 r] eqn:E. intros H. injection H as <- ->.
  now exists t1, a, t2.
Qed.

Lemma async_def_Ok {T A : Type} (body : T * result A) (t : T) (a : A) :
  async_def body = (t, Ok a) -> body = (t, Ok a).
Proof.
  unfold async_def. destruct body as [t' [a'|[]]]; try discriminate; trivial.
Qed.

(** C9, at a failure whose text holds a closing tag.  In verbose mode the
    fetcher hands the text of the error to the console inside its own
    markup; the console refuses it, and the fetcher raises the console's
    [MarkupError] in place of the error of the service, with no warning
    shown. *)
Theorem markup_error_replaces_failure :
  let self := sample_generator world_unbalanced_markup true in
  images_generate world_unbalanced_markup (openai_client self)
    (py "A red fox in fresh snow") (py "1024x1024")
  = Raise (Exception (py "unexpected token [/INST] in prompt")) /\
  generate_image world_unbalanced_markup self (py "A red fox in fresh snow")
    SQUARE
  = ([EImagesGenerate (py "dall-e-3") (py "A red fox in fresh snow")
        (py "1024x1024") (py "standard") 1],
     Raise (MarkupError (py "closing tag '[/INST]' at position 60 doesn't match any open tag"))).
Proof. split; vm_compute; reflexivity. Qed.

(** ** A name without extension *)

Lemma count_app (p : event -> bool) (a b : trace) :
  count p (a ++ b) = (count p a + count p b)%nat.
Proof. unfold count. now rewrite filter_app, length_app. Qed.





(** ** The whole run *)





(** ** [create_image] *)

(** C8.  When the Anthropic key or the OpenAI key is absent or empty,
    [create_image] prints the message that names the missing key, then the
    generic error line (and the traceback when verbose), creates no client
    and makes no network call, and the process ends with status 1. *)
Theorem missing_key_exits (w : World) (description : str) (style : ImageStyle)
    (size : ImageSize) (additional_instructions filename : option str)
    (images_dir : str) (temperature : temperature_t)
    (anthropic_api_key openai_api_key : option str) (verbose : bool)
    (H : truthy anthropic_api_key = false \/ truthy openai_api_key = false) :
  let run := create_image w description style size additional_instructions
               filename images_dir temperature anthropic_api_key
               openai_api_key verbose in
  run =
    (EPrint (if truthy anthropic_api_key then openai_key_required
             else anthropic_key_required)
     :: EPrint [Text (py "[red]Error during generation: "); Text (py "1");
                Text (py "[/red]")]
     :: (if verbose then [EPrintException] else []),
     Raise (Exit 1)) /\
  exit_status (snd run) = 1%Z /\
  forallb (fun ev => negb (is_network_or_client ev)) (fst run) = true.
Proof.
  intros run.
  assert (E : run =
    (EPrint (if truthy anthropic_api_key then openai_key_required
             else anthropic_key_required)
     :: EPrint [Text (py "[red]Error during generation: "); Text (py "1");
                Text (py "[/red]")]
     :: (if verbose then [EPrintException] else []),
     Raise (Exit 1))).
  { unfold run, create_image.
    destruct (truthy anthropic_api_key) eqn:Ea.
    - destruct H as [H | H]; [discriminate|]. rewrite H.
      destruct verbose; reflexivity.
    - destruct verbose; reflexivity. }
  split; [exact E|]. rewrite E. split; [reflexivity|].
  destruct (truthy anthropic_api_key), verbose; reflexivity.
Qed.

Lemma missing_key_exits_witness :
  exit_status
    (snd (create_image world_ok (py "a red fox in snow") PHOTOREALISTIC SQUARE
            None None (py "./images") (7%Z, 10%positive) None
            (Some (py "sk-oai")) false)) = 1%Z.
Proof.
  refine (proj1 (proj2 (missing_key_exits world_ok (py "a red fox in snow")
            PHOTOREALISTIC SQUARE None None (py "./images") (7%Z, 10%positive)
            None (Some (py "sk-oai")) false _))).
  left. reflexivity.
Defined.

(** C1, at the explicit filename ["!!!"].  The filename is sanitized to the
    empty string and kept as the name, where the same text given as the
    description falls back to the timestamp; the save under the empty name
    is refused, nothing is written, and the command ends with status 1. *)
Theorem explicit_punctuation_filename_fails :
  let run := create_image world_ok (py "a red fox in snow") PHOTOREALISTIC
               SQUARE None (Some (py "!!!")) (py "./images")
               (7%Z, 10%positive) (Some (py "sk-ant")) (Some (py "sk-oai"))
               false in
  saved_filename sample_now (py "a red fox in snow") (Some (py "!!!")) = [] /\
  saved_filename sample_now (py "!!!") None = py "20240309_070500" /\
  count is_image_save (fst run) = 0%nat /\
  In (EPrint [Text (py "[red]Error during generation: ");
              Text (py "unknown file extension: "); Text (py "[/red]")])
    (fst run) /\
  snd run = Raise (Exit 1) /\ exit_status (snd run) = 1%Z.
Proof.
  cbv zeta. repeat split; try (vm_compute; reflexivity).
  vm_compute. tauto.
Qed.

(** * Further properties *)

(** ** More on [sanitize_filename] *)

Lemma latin1_In (s : str) (c : char) : latin1 s -> In c s -> c < 256.
Proof. unfold latin1. rewrite Forall_forall. auto. Qed.

Lemma latin1_delete (cls : char -> bool) (s : str) :
  latin1 s -> latin1 (re_sub_delete cls s).
Proof.
  intros H. apply Forall_forall. intros c Hc. apply delete_In in Hc.
  apply (latin1_In s c H), Hc.
Qed.

Lemma latin1_runs (b : bool) (s : str) :
  latin1 s -> latin1 (re_sub_runs_from hyphen_or_space [hyphen] b s).
Proof.
  intros H. pose proof (runs_chars (fun c => c < 256) b s H) as Hr.
  eapply Forall_impl; [|exact Hr]. simpl.
  intros c [-> | [_ Hc]]; [reflexivity | exact Hc].
Qed.

Lemma latin1_plain (s : str) : latin1 s -> plain s.
Proof. apply Forall_impl. intros c Hc ->. discriminate. Qed.

Lemma latin1_no_sigma (s : str) :
  latin1 s -> Forall (fun c => c <> capital_sigma) s.
Proof. apply Forall_impl. intros c Hc ->. discriminate. Qed.

Lemma lower_latin1_each (s : str) : latin1 s -> lower s = lower_each s.
Proof. intros H. now apply lower_from_flat, latin1_no_sigma. Qed.

(** X1.  A string of Latin-1 characters is sanitized to the empty string
    exactly when it has no word character. *)
Theorem sanitize_filename_empty_iff (s : str) (Hs : latin1 s) :
  sanitize_filename s = [] <-> ~ has_word s.
Proof.
  split.
  - intros E Hw. destruct (sanitize_keeps_word s Hw) as (c & Hin & _).
    rewrite E in Hin. contradiction.
  - apply sanitize_no_word.
Qed.

Lemma sanitize_filename_empty_iff_witness :
  sanitize_filename (py " -- ?! -- ") = [].
Proof.
  assert (H : latin1 (py " -- ?! -- ")).
  { apply Forall_forall. intros c Hc. simpl in Hc.
    repeat (destruct Hc as [<- | Hc]; [reflexivity|]). contradiction. }
  apply (proj2 (sanitize_filename_empty_iff _ H)).
  intros (c & Hc & Hw). simpl in Hc.
  repeat (destruct Hc as [<- | Hc]; [discriminate|]). contradiction.
Defined.

Lemma delete_length (cls : char -> bool) (s : str) :
  (List.length (re_sub_delete cls s) <= List.length s)%nat.
Proof.
  unfold re_sub_delete. induction s as [|c t IH]; simpl; [lia|].
  destruct (negb (cls c)); simpl; lia.
Qed.

Lemma runs_length (b : bool) (s : str) :
  (List.length (re_sub_runs_from hyphen_or_space [hyphen] b s)
   <= List.length s)%nat.
Proof.
  revert b. induction s as [|c t IH]; intros b; simpl; [lia|].
  destruct (hyphen_or_space c).
  - rewrite length_app. specialize (IH true). destruct b; simpl; lia.
  - specialize (IH false). simpl. lia.
Qed.

Lemma lower_length (s : str) :
  latin1 s -> List.length (lower s) = List.length s.
Proof. intros H. now apply lower_from_length, latin1_plain. Qed.

Lemma lstrip_length (ch : char) (s : str) :
  (List.length (lstrip ch s) <= List.length s)%nat.
Proof.
  destruct (lstrip_suffix ch s) as [p E]. rewrite E at 2.
  rewrite length_app. lia.
Qed.

Lemma rstrip_length (ch : char) (s : str) :
  (List.length (rstrip ch s) <= List.length s)%nat.
Proof.
  induction s as [|c t IH]; simpl; [lia|].
  destruct (rstrip ch t); [destruct (c =? ch)|]; simpl in *; lia.
Qed.

Lemma sanitize_length (s : str) :
  latin1 s -> (List.length (sanitize_filename s) <= List.length s)%nat.
Proof.
  intros Hs. unfold sanitize_filename, re_sub_runs, strip.
  pose proof (delete_length not_word_space_hyphen s) as H1.
  pose proof (runs_length false (re_sub_delete not_word_space_hyphen s)) as H2.
  pose proof (lower_length _ (latin1_runs false _
                                (latin1_delete not_word_space_hyphen s Hs)))
    as H3.
  pose proof (lstrip_length hyphen
                (lower (re_sub_runs_from hyphen_or_space [hyphen] false
                          (re_sub_delete not_word_space_hyphen s)))) as H4.
  pose proof (rstrip_length hyphen
                (lstrip hyphen
                   (lower (re_sub_runs_from hyphen_or_space [hyphen] false
                             (re_sub_delete not_word_space_hyphen s))))) as H5.
  lia.
Qed.

(** X2.  Sanitizing a string of Latin-1 characters never makes it longer. *)
Theorem sanitize_filename_not_longer (s : str) (Hs : latin1 s) :
  (List.length (sanitize_filename s) <= List.length s)%nat.
Proof.
  unfold sanitize_filename, re_sub_runs, strip.
  pose proof (delete_length not_word_space_hyphen s) as H1.
  pose proof (runs_length false (re_sub_delete not_word_space_hyphen s)) as H2.
  pose proof (lower_length _ (latin1_runs false _
                                (latin1_delete not_word_space_hyphen s Hs)))
    as H3.
  pose proof (lstrip_length hyphen
                (lower (re_sub_runs_from hyphen_or_space [hyphen] false
                          (re_sub_delete not_word_space_hyphen s)))) as H4.
  pose proof (rstrip_length hyphen
                (lstrip hyphen
                   (lower (re_sub_runs_from hyphen_or_space [hyphen] false
                             (re_sub_delete not_word_space_hyphen s))))) as H5.
  lia.
Qed.

Lemma sanitize_filename_not_longer_witness :
  (List.length (sanitize_filename (py "Hello, World! 2024"))
   <= List.length (py "Hello, World! 2024"))%nat.
Proof.
  apply sanitize_filename_not_longer.
  apply Forall_forall. intros c Hc. simpl in Hc.
  repeat (destruct Hc as [<- | Hc]; [reflexivity|]). contradiction.
Defined.

Lemma latin1_lower_each (s : str) : latin1 s -> latin1 (lower_each s).
Proof.
  unfold lower_each. induction 1 as [|c t Hc _ IH]; [constructor|].
  destruct (lower_latin1 c Hc) as (c' & E & Hc' & _).
  simpl. rewrite E. simpl. now constructor.
Qed.

Lemma lower_each_twice (s : str) :
  latin1 s -> lower_each (lower_each s) = lower_each s.
Proof.
  unfold lower_each. induction 1 as [|c t Hc _ IH]; [reflexivity|].
  destruct (lower_latin1 c Hc) as (c' & E & _ & _ & _ & _ & Ef).
  simpl. rewrite E. simpl. now rewrite Ef, IH.
Qed.

Lemma lower_each_cons (c : char) (t : str) :
  lower_each (c :: t) = lower_char c ++ lower_each t.
Proof. reflexivity. Qed.

Lemma delete_lower_each (s : str) :
  latin1 s ->
  re_sub_delete not_word_space_hyphen (lower_each s)
  = lower_each (re_sub_delete not_word_space_hyphen s).
Proof.
  induction 1 as [|c t Hc _ IH]; [reflexivity|].
  destruct (lower_latin1 c Hc) as (c' & E & _ & Ew & Es & Eh & _).
  assert (Ek : not_word_space_hyphen c' = not_word_space_hyphen c).
  { unfold not_word_space_hyphen. now rewrite Ew, Es, Eh. }
  rewrite lower_each_cons, E.
  change (re_sub_delete not_word_space_hyphen ([c'] ++ lower_each t))
    with (if negb (not_word_space_hyphen c')
          then c' :: re_sub_delete not_word_space_hyphen (lower_each t)
          else re_sub_delete not_word_space_hyphen (lower_each t)).
  change (re_sub_delete not_word_space_hyphen (c :: t))
    with (if negb (not_word_space_hyphen c)
          then c :: re_sub_delete not_word_space_hyphen t
          else re_sub_delete not_word_space_hyphen t).
  rewrite Ek, IH. destruct (negb (not_word_space_hyphen c)); [|reflexivity].
  now rewrite lower_each_cons, E.
Qed.

Lemma runs_lower_each (b : bool) (s : str) :
  latin1 s ->
  re_sub_runs_from hyphen_or_space [hyphen] b (lower_each s)
  = lower_each (re_sub_runs_from hyphen_or_space [hyphen] b s).
Proof.
  intros H. revert b. induction H as [|c t Hc _ IH]; intros b; [reflexivity|].
  destruct (lower_latin1 c Hc) as (c' & E & _ & _ & Es & Eh & _).
  assert (Ek : hyphen_or_space c' = hyphen_or_space c).
  { unfold hyphen_or_space. now rewrite Es, Eh. }
  rewrite lower_each_cons, E.
  change (re_sub_runs_from hyphen_or_space [hyphen] b ([c'] ++ lower_each t))
    with (if hyphen_or_space c'
          then (if b then [] else [hyphen])
               ++ re_sub_runs_from hyphen_or_space [hyphen] true (lower_each t)
          else c' :: re_sub_runs_from hyphen_or_space [hyphen] false (lower_each t)).
  change (re_sub_runs_from hyphen_or_space [hyphen] b (c :: t))
    with (if hyphen_or_space c
          then (if b then [] else [hyphen])
               ++ re_sub_runs_from hyphen_or_space [hyphen] true t
          else c :: re_sub_runs_from hyphen_or_space [hyphen] false t).
  rewrite Ek, !IH. destruct (hyphen_or_space c).
  - destruct b; [reflexivity|].
    change ([hyphen] ++ ?x) with (hyphen :: x). now rewrite lower_each_cons.
  - now rewrite lower_each_cons, E.
Qed.

Lemma sanitize_lower (s : str) :
  latin1 s -> sanitize_filename (lower s) = sanitize_filename s.
Proof.
  intros Hs. rewrite (lower_latin1_each s Hs).
  unfold sanitize_filename, re_sub_runs.
  rewrite (delete_lower_each s Hs).
  rewrite runs_lower_each by now apply latin1_delete.
  rewrite !lower_latin1_each.
  - rewrite lower_each_twice; [reflexivity|].
    now apply latin1_runs, latin1_delete.
  - now apply latin1_runs, latin1_delete.
  - now apply latin1_lower_each, latin1_runs, latin1_delete.
Qed.

(** X3.  Two strings of Latin-1 characters that differ only in the case of
    their letters are sanitized to the same filename. *)
Theorem sanitize_filename_ignores_case (s1 s2 : str) (H1 : latin1 s1)
    (H2 : latin1 s2) (E : lower s1 = lower s2) :
  sanitize_filename s1 = sanitize_filename s2.
Proof.
  rewrite <- (sanitize_lower s1 H1), <- (sanitize_lower s2 H2). now rewrite E.
Qed.

Lemma sanitize_filename_ignores_case_witness :
  sanitize_filename (py "A Red FOX") = sanitize_filename (py "a red fox").
Proof.
  apply sanitize_filename_ignores_case.
  - apply Forall_forall. intros c Hc. simpl in Hc.
    repeat (destruct Hc as [<- | Hc]; [reflexivity|]). contradiction.
  - apply Forall_forall. intros c Hc. simpl in Hc.
    repeat (destruct Hc as [<- | Hc]; [reflexivity|]). contradiction.
  - reflexivity.
Defined.

(** ** More on the name of the saved file *)

Lemma strftime_chars (d : datetime) :
  wf_datetime d ->
  Forall (fun c => is_digit c = true \/ c = 0x5f)
    (strftime d (py "%Y%m%d_%H%M%S")) /\
  List.length (strftime d (py "%Y%m%d_%H%M%S")) = 15%nat.
Proof.
  intros (Hy & Hm & Hd & HH & HM & HS). rewrite strftime_unfold.
  destruct (four_digits (year d) Hy) as (y1 & y2 & y3 & y4 & -> & ? & ? & ? & ?).
  destruct (two_digits (month d)) as (m1 & m2 & -> & ? & ?); [lia|].
  destruct (two_digits (day d)) as (d1 & d2 & -> & ? & ?); [lia|].
  destruct (two_digits (hour d)) as (h1 & h2 & -> & ? & ?); [lia|].
  destruct (two_digits (minute d)) as (n1 & n2 & -> & ? & ?); [lia|].
  destruct (two_digits (second d)) as (s1 & s2 & -> & ? & ?); [lia|].
  split; [|reflexivity]. simpl.
  repeat (apply Forall_cons;
          [first [left; assumption | right; reflexivity]|]).
  apply Forall_nil.
Qed.

Lemma digit_safe (c : char) : is_digit c = true -> safe_char c = true.
Proof.
  intros H. assert (Hc : c < 256).
  { unfold is_digit, in_range in H.
    rewrite andb_true_iff, !N.leb_le in H. lia. }
  revert H.
  pose (P := fun c => implb (is_digit c) (safe_char c)).
  assert (HP : P c = true).
  { apply latin1_forallb; [vm_compute; reflexivity | exact Hc]. }
  unfold P in HP. intros H. now rewrite H in HP.
Qed.

Lemma saved_filename_safe_chars (now : datetime) (description : str)
    (filename : option str) :
  wf_datetime now -> latin1 description ->
  (forall given, filename = Some given -> latin1 given) ->
  forallb safe_char (saved_filename now description filename) = true.
Proof.
  intros Hnow Hd Hf.
  assert (Hsan : forall s, latin1 s ->
                           forallb safe_char (sanitize_filename s) = true).
  { intros s Hs. pose proof (sanitize_sanitized s (latin1_not_In s Hs)) as H.
    unfold sanitized in H. rewrite !andb_true_iff in H. tauto. }
  destruct (truthy filename) eqn:Ht.
  - destruct filename as [[|c given]|]; try discriminate.
    rewrite saved_filename_given by discriminate. now apply Hsan, Hf.
  - rewrite (saved_filename_derived _ _ _ Ht).
    destruct (sanitize_filename (firstn 30 description)) eqn:E.
    + apply forallb_forall. intros c Hc.
      destruct (strftime_chars now Hnow) as [Hch _].
      rewrite Forall_forall in Hch.
      destruct (Hch c Hc) as [H | ->]; [now apply digit_safe | reflexivity].
    + rewrite <- E.
      rewrite sanitized_fixed
        by now apply sanitize_sanitized, latin1_not_In, latin1_firstn.
      now apply Hsan, latin1_firstn.
Qed.

(** X4.  For a description and a filename of Latin-1 characters and a valid
    clock reading, the name under which the image is saved, whichever way it
    was chosen, has only hyphens and lower-case word characters: no slash,
    backslash, dot or whitespace. *)
Theorem saved_filename_is_safe (now : datetime) (description : str)
    (filename : option str) (Hnow : wf_datetime now)
    (Hd : latin1 description)
    (Hf : forall given, filename = Some given -> latin1 given) :
  let name := saved_filename now description filename in
  Forall (fun c => c = hyphen \/ (is_word c = true /\ lower_char c = [c])) name /\
  ~ In 0x2f name /\ ~ In 0x5c name /\ ~ In 0x2e name /\
  Forall (fun c => is_space c = false) name.
Proof.
  intros name.
  pose proof (saved_filename_safe_chars now description filename Hnow Hd Hf)
    as H.
  fold name in H. rewrite forallb_forall in H.
  assert (Hno : forall c, safe_char c = false -> ~ In c name).
  { intros c Hc Hin. rewrite (H c Hin) in Hc. discriminate. }
  repeat split; try (apply Hno; reflexivity);
    apply Forall_forall; intros c Hc;
    destruct (safe_char_cases c (H c Hc)) as [-> | (_ & Hw & Hs & Hl)];
    auto.
Qed.

Lemma saved_filename_is_safe_witness :
  ~ In 0x2f (saved_filename sample_now (py "a red fox") (Some (py "../../etc/x"))).
Proof.
  refine (proj1 (proj2 (saved_filename_is_safe sample_now (py "a red fox")
                          (Some (py "../../etc/x")) _ _ _))).
  - unfold wf_datetime. simpl. lia.
  - apply Forall_forall. intros c Hc. simpl in Hc.
    repeat (destruct Hc as [<- | Hc]; [reflexivity|]). contradiction.
  - intros given E. injection E as <-.
    apply Forall_forall. intros c Hc. simpl in Hc.
    repeat (destruct Hc as [<- | Hc]; [reflexivity|]). contradiction.
Defined.

(** X5.  With no filename, a description of Latin-1 characters and a valid
    clock reading, the name of the saved file has at most 30 characters. *)
Theorem derived_filename_length (now : datetime) (description : str)
    (filename : option str) (Hnow : wf_datetime now)
    (Hd : latin1 description) (Hf : truthy filename = false) :
  (List.length (saved_filename now description filename) <= 30)%nat.
Proof.
  rewrite (saved_filename_derived _ _ _ Hf).
  pose proof (sanitize_length _ (latin1_firstn 30 description Hd)) as H1.
  pose proof (firstn_le_length 30 description) as H2.
  destruct (sanitize_filename (firstn 30 description)) eqn:E.
  - destruct (strftime_chars now Hnow) as [_ Hl]. rewrite Hl. lia.
  - rewrite <- E.
    rewrite sanitized_fixed
      by now apply sanitize_sanitized, latin1_not_In, latin1_firstn.
    rewrite E. pose proof (length_firstn 30 description) as H3. lia.
Qed.

Lemma derived_filename_length_witness :
  (List.length
     (saved_filename sample_now
        (py "a very long description of a red fox walking in the snow") None)
   <= 30)%nat.
Proof.
  apply derived_filename_length.
  - unfold wf_datetime. simpl. lia.
  - apply Forall_forall. intros c Hc. simpl in Hc.
    repeat (destruct Hc as [<- | Hc]; [reflexivity|]). contradiction.
  - reflexivity.
Defined.

(** ** More on the image fetcher *)

Lemma generate_image_ok_inv (w : World) (self : FlexibleImageGenerator)
    (prompt : str) (size : ImageSize) (t : trace) (p : Path)
    (H : generate_image w self prompt size = (t, Ok p)) :
  exists dimensions url rest content image dir,
    get_dimensions size = ([], Ok dimensions) /\
    images_generate w (openai_client self) prompt dimensions
      = Ok (url :: rest) /\
    images_dir self = Some dir /\
    p = PathJoin dir (filename self ++ py ".png") /\
    t = [EImagesGenerate (py "dall-e-3") prompt dimensions (py "standard") 1;
         ERequestsGet url; EImageOpen content; EMkdir dir;
         EImageSave image p].
Proof.
  apply generate_image_returns in H.
  destruct (get_dimensions_total size) as [dimensions Hd].
  rewrite (generate_image_body_unfold w self prompt size dimensions Hd) in H.
  cbv zeta in H. exists dimensions.
  destruct (images_generate w (openai_client self) prompt dimensions)
    as [[|url rest]|e] eqn:E1; try discriminate.
  exists url, rest.
  destruct (requests_get w url) as [content|e]; try discriminate.
  exists content.
  destruct (Image_open w content) as [image|e]; try discriminate.
  exists image.
  destruct (images_dir self) as [dir|] eqn:E2; try discriminate.
  exists dir.
  destruct (Path_mkdir w dir) as [[]|e]; try discriminate.
  destruct (splitext_ext (filename self ++ py ".png")); try discriminate.
  destruct (Image_save w image (PathJoin dir (filename self ++ py ".png")))
    as [[]|e]; try discriminate.
  injection H as <- <-. repeat split; assumption || reflexivity.
Qed.

(** X6.  When [generate_image] returns a path, it has called the service
    once (model dall-e-3, quality standard, one image), fetched the first
    URL of the answer, decoded it, created the directory and saved the image,
    in this order and nothing else; the path is the directory joined with the
    generator's filename and [.png], and nothing was printed. *)
Theorem generate_image_success (w : World) (self : FlexibleImageGenerator)
    (prompt : str) (size : ImageSize) (t : trace) (p : Path)
    (H : generate_image w self prompt size = (t, Ok p)) :
  exists dimensions url rest content image dir,
    get_dimensions size = ([], Ok dimensions) /\
    images_generate w (openai_client self) prompt dimensions
      = Ok (url :: rest) /\
    images_dir self = Some dir /\
    p = PathJoin dir (filename self ++ py ".png") /\
    t = [EImagesGenerate (py "dall-e-3") prompt dimensions (py "standard") 1;
         ERequestsGet url; EImageOpen content; EMkdir dir;
         EImageSave image p].
Proof.
  apply generate_image_returns in H.
  destruct (get_dimensions_total size) as [dimensions Hd].
  rewrite (generate_image_body_unfold w self prompt size dimensions Hd) in H.
  cbv zeta in H. exists dimensions.
  destruct (images_generate w (openai_client self) prompt dimensions)
    as [[|url rest]|e] eqn:E1; try discriminate.
  exists url, rest.
  destruct (requests_get w url) as [content|e]; try discriminate.
  exists content.
  destruct (Image_open w content) as [image|e]; try discriminate.
  exists image.
  destruct (images_dir self) as [dir|] eqn:E2; try discriminate.
  exists dir.
  destruct (Path_mkdir w dir) as [[]|e]; try discriminate.
  destruct (splitext_ext (filename self ++ py ".png")); try discriminate.
  destruct (Image_save w image (PathJoin dir (filename self ++ py ".png")))
    as [[]|e]; try discriminate.
  injection H as <- <-. repeat split; assumption || reflexivity.
Qed.

Lemma generate_image_success_witness :
  exists t,
    generate_image world_ok (sample_generator world_ok true)
      (py "A red fox in fresh snow") PORTRAIT
    = (t, Ok (PathJoin (PathOf (py "./images")) (py "fox.png"))) /\
    List.length t = 5%nat.
Proof.
  eexists. split; [vm_compute; reflexivity|].
  destruct (generate_image_success world_ok (sample_generator world_ok true)
              (py "A red fox in fresh snow") PORTRAIT _ _ eq_refl)
    as (d & u & r & c & i & dir & _ & _ & _ & _ & E).
  reflexivity.
Defined.

(** X7.  When the service call, the download or the decoding fails, the
    directory is not created and nothing is saved; when creating the
    directory fails, nothing is saved. *)
Theorem early_failure_writes_nothing (w : World)
    (self : FlexibleImageGenerator) (prompt : str) (size : ImageSize)
    (st : step) (e : exn) (H : step_fails w self prompt size st e)
    (Hst : st <> Save) :
  let t := fst (generate_image w self prompt size) in
  count is_image_save t = 0%nat /\
  (st <> MakeDirectory -> count is_mkdir t = 0%nat).
Proof.
  intros t. unfold t. clear t.
  destruct H as (dimensions & Hd & H).
  assert (Hb : exists t0,
             generate_image_body w self prompt size = (t0, Raise e) /\
             count is_image_save t0 = 0%nat /\
             (st <> MakeDirectory -> count is_mkdir t0 = 0%nat)).
  { rewrite (generate_image_body_unfold w self prompt size dimensions Hd).
    cbv zeta. destruct st.
    - rewrite H. eexists. split; [reflexivity|]. now split.
    - destruct H as (url & rest & -> & ->).
      eexists. split; [reflexivity|]. now split.
    - destruct H as (url & rest & -> & content & -> & ->).
      eexists. split; [reflexivity|]. now split.
    - destruct H as (url & rest & -> & content & -> & image & dir & -> & -> & ->).
      eexists. split; [reflexivity|]. split; [reflexivity | congruence].
    - congruence. }
  destruct Hb as (t0 & Hb & Hs & Hm).
  destruct (generate_image_trace w self prompt size t0 e Hb)
    as (e' & _ & [-> | ->]).
  - split; assumption.
  - rewrite !count_app. split.
    + rewrite Hs. reflexivity.
    + intros Hne. rewrite (Hm Hne). reflexivity.
Qed.

Lemma early_failure_writes_nothing_witness :
  count is_image_save
    (fst (generate_image world_service_down
            (sample_generator world_service_down true)
            (py "A red fox in fresh snow") SQUARE)) = 0%nat.
Proof.
  refine (proj1 (early_failure_writes_nothing world_service_down
                   (sample_generator world_service_down true)
                   (py "A red fox in fresh snow") SQUARE ServiceCall
                   (Exception (py "rate limit")) _ _)).
  - exists (py "1024x1024"). split; reflexivity.
  - discriminate.
Defined.

(** X8.  When the service answers with an empty list of images,
    [generate_image] raises [IndexError] without requesting any URL, and
    prints the warning when verbose. *)
Theorem empty_answer_raises_IndexError (w : World)
    (self : FlexibleImageGenerator) (prompt : str) (size : ImageSize)
    (dimensions : str) (Hd : get_dimensions size = ([], Ok dimensions))
    (H : images_generate w (openai_client self) prompt dimensions = Ok []) :
  generate_image w self prompt size =
  (EImagesGenerate (py "dall-e-3") prompt dimensions (py "standard") 1
   :: (if verbose self then [EPrint (warning IndexError)] else []),
   Raise IndexError).
Proof.
  rewrite (generate_image_reraises w self prompt size
             [EImagesGenerate (py "dall-e-3") prompt dimensions
                (py "standard") 1] IndexError).
  - now destruct (verbose self).
  - rewrite (generate_image_body_unfold w self prompt size dimensions Hd).
    cbv zeta. now rewrite H.
  - now right.
Qed.

Lemma empty_answer_raises_IndexError_witness :
  snd (generate_image world_no_image (sample_generator world_no_image false)
         (py "A red fox in fresh snow") SQUARE) = Raise IndexError.
Proof.
  rewrite (empty_answer_raises_IndexError world_no_image
             (sample_generator world_no_image false)
             (py "A red fox in fresh snow") SQUARE (py "1024x1024")
             eq_refl eq_refl).
  reflexivity.
Defined.

(** X9.  A generator built without an images directory (the default of the
    constructor) raises [AttributeError] only after the service has been
    called and the image downloaded and decoded; nothing is saved. *)
Theorem missing_images_dir (w : World) (self : FlexibleImageGenerator)
    (prompt : str) (size : ImageSize) (dimensions url : str)
    (rest : list str) (content : bytes) (image : Image)
    (Hd : get_dimensions size = ([], Ok dimensions))
    (Hdir : images_dir self = None)
    (H1 : images_generate w (openai_client self) prompt dimensions
          = Ok (url :: rest))
    (H2 : requests_get w url = Ok content)
    (H3 : Image_open w content = Ok image) :
  generate_image w self prompt size =
  ([EImagesGenerate (py "dall-e-3") prompt dimensions (py "standard") 1;
    ERequestsGet url; EImageOpen content]
   ++ (if verbose self then [EPrint (warning AttributeError)] else []),
   Raise AttributeError).
Proof.
  rewrite (generate_image_reraises w self prompt size
             [EImagesGenerate (py "dall-e-3") prompt dimensions
                (py "standard") 1; ERequestsGet url; EImageOpen content]
             AttributeError).
  - now destruct (verbose self).
  - rewrite (generate_image_body_unfold w self prompt size dimensions Hd).
    cbv zeta. now rewrite H1, H2, H3, Hdir.
  - now right.
Qed.

Lemma missing_images_dir_witness :
  snd (generate_image world_ok
         (init world_ok (py "sk-ant") (py "sk-oai") (7%Z, 10%positive) false
            (Some (py "fox")) None)
         (py "A red fox in fresh snow") SQUARE) = Raise AttributeError.
Proof.
  rewrite (missing_images_dir world_ok
             (init world_ok (py "sk-ant") (py "sk-oai") (7%Z, 10%positive)
                false (Some (py "fox")) None)
             (py "A red fox in fresh snow") SQUARE (py "1024x1024")
             (py "https://images.example/fox") [] [0x89; 0x50; 0x4e; 0x47]
             [0x89; 0x50; 0x4e; 0x47] eq_refl eq_refl eq_refl eq_refl eq_refl).
  reflexivity.
Defined.

(** X22.  When the collaborator of a step of the image fetcher (service
    call, download, decoding, directory creation, saving) raises [e], and
    verbose mode is off or the text of [e] has no opening bracket, the
    fetcher raises the same [e] and returns no path; it prints the warning,
    once and after the failure, exactly when [verbose] is set and [e] is an
    [Exception], and prints nothing otherwise; each collaborator has been
    called at most once. *)
Theorem generate_image_failure (w : World) (self : FlexibleImageGenerator)
    (prompt : str) (size : ImageSize) (st : step) (e : exn)
    (H : step_fails w self prompt size st e)
    (Hp : verbose self = false \/ existsb (N.eqb 0x5b) (exn_str e) = false) :
  exists t,
    generate_image_body w self prompt size = (t, Raise e) /\
    generate_image w self prompt size =
      (t ++ (if verbose self && is_Exception e
             then [EPrint (warning e)] else []),
       Raise e) /\
    (forall p, snd (generate_image w self prompt size) <> Ok p) /\
    count is_print t = 0%nat /\
    (count is_images_generate t <= 1)%nat /\
    (count is_requests_get t <= 1)%nat /\
    (count is_image_open t <= 1)%nat /\
    (count is_mkdir t <= 1)%nat /\
    (count is_image_save t <= 1)%nat.
Proof.
  destruct H as (dimensions & Hd & H).
  assert (Hb : exists t,
             generate_image_body w self prompt size = (t, Raise e) /\
             count is_print t = 0%nat /\
             (count is_images_generate t <= 1)%nat /\
             (count is_requests_get t <= 1)%nat /\
             (count is_image_open t <= 1)%nat /\
             (count is_mkdir t <= 1)%nat /\
             (count is_image_save t <= 1)%nat).
  { rewrite (generate_image_body_unfold w self prompt size dimensions Hd).
    cbv zeta. destruct st.
    - rewrite H. eexists. split; [reflexivity|]. unfold count. simpl. repeat split; lia.
    - destruct H as (url & rest & -> & ->).
      eexists. split; [reflexivity|]. unfold count. simpl. repeat split; lia.
    - destruct H as (url & rest & -> & content & -> & ->).
      eexists. split; [reflexivity|]. unfold count. simpl. repeat split; lia.
    - destruct H as (url & rest & -> & content & -> & image & dir & -> & -> & ->).
      eexists. split; [reflexivity|]. unfold count. simpl. repeat split; lia.
    - destruct H as (url & rest & -> & content & -> & image & dir & -> & ->
                     & -> & Hx & ->).
      destruct (splitext_ext (filename self ++ py ".png")); [congruence|].
      eexists. split; [reflexivity|]. unfold count. simpl. repeat split; lia. }
  destruct Hb as (t & Hb & Hc). exists t.
  pose proof (generate_image_reraises w self prompt size t e Hb Hp) as Hg.
  split; [exact Hb|]. split; [exact Hg|]. split; [|exact Hc].
  intros p. rewrite Hg. discriminate.
Qed.

Lemma generate_image_failure_witness :
  let self := init world_service_down (py "sk-ant") (py "sk-oai")
                (7%Z, 10%positive) true (Some (py "fox"))
                (Some (PathOf (py "./images"))) in
  step_fails world_service_down self (py "A red fox in fresh snow") SQUARE
    ServiceCall (Exception (py "rate limit")) /\
  snd (generate_image world_service_down self (py "A red fox in fresh snow")
         SQUARE)
  = Raise (Exception (py "rate limit")).
Proof.
  intros self.
  assert (H : step_fails world_service_down self (py "A red fox in fresh snow")
                SQUARE ServiceCall (Exception (py "rate limit"))).
  { exists (py "1024x1024"). split; reflexivity. }
  split; [exact H|].
  destruct (generate_image_failure _ _ _ _ _ _ H (or_intror eq_refl))
    as (t & _ & E & _).
  rewrite E. reflexivity.
Defined.

(** ** Extensions *)




(** ** More on the prompt *)

(** X10.  [generate_image_prompt] never raises [KeyError]: for every style
    it calls the text service exactly once, with model
    claude-3-sonnet-20240229, at most 500 tokens and the generator's
    temperature, and then returns the first text segment of the answer
    unchanged, raises [IndexError] when the answer has no segment, or raises
    the exception of the service. *)
Theorem generate_image_prompt_cases (w : World) (self : FlexibleImageGenerator)
    (description : str) (style : ImageStyle)
    (additional_instructions : option str) :
  exists directive,
    dict_get ImageStyle_eqb style_instructions style = Some directive /\
    let p := prompt_template description directive additional_instructions in
    generate_image_prompt w self description style additional_instructions =
    ([EMessagesCreate (py "claude-3-sonnet-20240229") 500 (temperature self) p],
     match messages_create w (anthropic_client self) (temperature self) p with
     | Ok (text :: _) => Ok text
     | Ok [] => Raise IndexError
     | Raise e => Raise e
     end).
Proof.
  destruct (build_prompt_total description style additional_instructions)
    as (directive & Hd & Hb).
  exists directive. split; [exact Hd|]. cbv zeta.
  unfold generate_image_prompt. rewrite Hb.
  unfold bind, call, index0, ret, raise.
  destruct (messages_create w (anthropic_client self) (temperature self)
              (prompt_template description directive additional_instructions))
    as [[|text rest]|e]; reflexivity.
Qed.

(** X11.  The description is in the prompt unchanged and in full, whatever
    its length; non-empty additional instructions are in it as the
    requirement numbered 5; empty additional instructions give the same
    prompt as none. *)
Theorem prompt_template_contents (description directive : str)
    (additional_instructions : option str) :
  contains (py "Description: " ++ description ++ nl)
    (prompt_template description directive additional_instructions) /\
  (forall a, additional_instructions = Some a -> a <> [] ->
     contains (nl ++ py "5. " ++ a ++ nl)
       (prompt_template description directive additional_instructions)) /\
  prompt_template description directive (Some [])
  = prompt_template description directive None.
Proof.
  repeat split.
  - unfold prompt_template. do 2 apply contains_app_l.
    exists [], (nl ++ py "Style instructions: " ++ directive ++ nl ++ nl
                ++ py "Additional requirements:" ++ nl
                ++ py "1. Focus on visual elements and composition" ++ nl
                ++ py "2. Be specific about colors, lighting, and mood" ++ nl
                ++ py "3. Include details about perspective and framing" ++ nl
                ++ py "4. Maintain consistency with the chosen style" ++ nl
                ++ match additional_instructions with
                   | Some ((_ :: _) as a) => py "5. " ++ a
                   | _ => []
                   end ++ nl ++ nl
                ++ py "Write a clear, detailed prompt for DALL-E to create this image.").
    cbn [app]. now rewrite <- !app_assoc.
  - intros a -> Ha. destruct a as [|c a]; [congruence|].
    unfold prompt_template. do 19 apply contains_app_l.
    exists [], (nl ++ py "Write a clear, detailed prompt for DALL-E to create this image.").
    rewrite app_nil_l, <- !app_assoc. reflexivity.
Qed.

Lemma prompt_template_contents_witness :
  contains (nl ++ py "5. at dusk" ++ nl)
    (prompt_template (py "a fox") (py "Create") (Some (py "at dusk"))).
Proof.
  refine (proj1 (proj2 (prompt_template_contents (py "a fox") (py "Create")
                          (Some (py "at dusk")))) (py "at dusk") eq_refl _).
  discriminate.
Defined.

(** ** More on [generate], [run_generation] and [create_image] *)

Lemma generate_image_prompt_no_image_call (w : World)
    (self : FlexibleImageGenerator) (description : str) (style : ImageStyle)
    (additional_instructions : option str) :
  exists p,
    fst (generate_image_prompt w self description style additional_instructions)
    = [EMessagesCreate (py "claude-3-sonnet-20240229") 500 (temperature self) p].
Proof.
  destruct (build_prompt_total description style additional_instructions)
    as (directive & _ & Hb).
  eexists. apply generate_image_prompt_trace. exact Hb.
Qed.

(** X12.  When the synthesis of the prompt fails, [generate] has called
    nothing but the text service: the image service is not called, nothing
    is downloaded and nothing is saved.  It raises the exception of the
    synthesis, except that a [StopIteration] leaves the coroutine as a
    [RuntimeError]. *)
Theorem generate_stops_at_prompt_failure (w : World)
    (self : FlexibleImageGenerator) (description : str) (style : ImageStyle)
    (size : ImageSize) (additional_instructions : option str) (e : exn)
    (H : snd (generate_image_prompt w self description style
                additional_instructions) = Raise e) :
  exists p,
    generate w self description style size additional_instructions =
    ([EMessagesCreate (py "claude-3-sonnet-20240229") 500 (temperature self) p],
     Raise match e with
           | StopIteration _ =>
               RuntimeError (py "coroutine raised StopIteration")
           | _ => e
           end).
Proof.
  destruct (generate_image_prompt_no_image_call w self description style
              additional_instructions) as [p Hp].
  exists p. unfold generate.
  destruct (generate_image_prompt w self description style
              additional_instructions) as [t r].
  simpl in H, Hp. subst. destruct e; reflexivity.
Qed.

Lemma generate_stops_at_prompt_failure_witness :
  snd (generate world_text_down (sample_generator world_text_down false)
         (py "a red fox") CARTOON SQUARE None)
  = Raise (Exception (py "overloaded")).
Proof.
  destruct (generate_stops_at_prompt_failure world_text_down
              (sample_generator world_text_down false) (py "a red fox")
              CARTOON SQUARE None (Exception (py "overloaded")) eq_refl)
    as [p E].
  rewrite E. reflexivity.
Defined.

Lemma generate_ok_inv (w : World) (self : FlexibleImageGenerator)
    (description : str) (style : ImageStyle) (size : ImageSize)
    (additional_instructions : option str) (t : trace)
    (r : GenerationResult) :
  generate w self description style size additional_instructions = (t, Ok r) ->
  exists tp tg,
    generate_image_prompt w self description style additional_instructions
      = (tp, Ok (prompt r)) /\
    generate_image w self (prompt r) size = (tg, Ok (image_path r)) /\
    t = tp ++ tg.
Proof.
  unfold generate. intros H. apply async_def_Ok in H.
  apply bind_Ok_inv in H. destruct H as (tp & text & t2 & Hp & H & ->).
  apply bind_Ok_inv in H. destruct H as (tg & p & t3 & Hg & H & ->).
  unfold ret in H. injection H as <- <-.
  exists tp, tg. simpl. rewrite app_nil_r. auto.
Qed.

Lemma generate_ok_trace (w : World) (self : FlexibleImageGenerator)
    (description : str) (style : ImageStyle) (size : ImageSize)
    (additional_instructions : option str) (t : trace) (r : GenerationResult)
    (H : generate w self description style size additional_instructions
         = (t, Ok r)) :
  exists p dimensions url content image dir,
    t = [EMessagesCreate (py "claude-3-sonnet-20240229") 500 (temperature self) p;
         EImagesGenerate (py "dall-e-3") (prompt r) dimensions (py "standard") 1;
         ERequestsGet url; EImageOpen content; EMkdir dir;
         EImageSave image (image_path r)] /\
    (exists rest,
       messages_create w (anthropic_client self) (temperature self) p
       = Ok (prompt r :: rest)) /\
    images_dir self = Some dir /\
    image_path r = PathJoin dir (filename self ++ py ".png").
Proof.
  apply generate_ok_inv in H. destruct H as (tp & tg & Hp & Hg & ->).
  apply generate_image_ok_inv in Hg.
  destruct Hg as (dimensions & url & rest & content & image & dir
                  & _ & _ & Hdir & Hpath & ->).
  destruct (build_prompt_total description style additional_instructions)
    as (directive & _ & Hb).
  exists (prompt_template description directive additional_instructions),
    dimensions, url, content, image, dir.
  unfold generate_image_prompt in Hp. rewrite Hb in Hp.
  unfold bind, call, index0, ret, raise in Hp.
  destruct (messages_create w (anthropic_client self) (temperature self)
              (prompt_template description directive additional_instructions))
    as [[|text rest']|e]; try discriminate.
  injection Hp as <- <-. split; [reflexivity|].
  split; [now exists rest' | split; [exact Hdir | exact Hpath]].
Qed.

(** X13.  When [generate] returns, the prompt of its result is the first
    text segment answered by the text service, the image service was called
    once, after the text service, with exactly that prompt, and the image
    path of the result is the path at which the image was saved. *)
Theorem generate_result_consistent (w : World) (self : FlexibleImageGenerator)
    (description : str) (style : ImageStyle) (size : ImageSize)
    (additional_instructions : option str) (t : trace) (r : GenerationResult)
    (H : generate w self description style size additional_instructions
         = (t, Ok r)) :
  exists p dimensions url content image dir,
    t = [EMessagesCreate (py "claude-3-sonnet-20240229") 500 (temperature self) p;
         EImagesGenerate (py "dall-e-3") (prompt r) dimensions (py "standard") 1;
         ERequestsGet url; EImageOpen content; EMkdir dir;
         EImageSave image (image_path r)] /\
    (exists rest,
       messages_create w (anthropic_client self) (temperature self) p
       = Ok (prompt r :: rest)) /\
    images_dir self = Some dir /\
    image_path r = PathJoin dir (filename self ++ py ".png").
Proof.
  apply generate_ok_inv in H. destruct H as (tp & tg & Hp & Hg & ->).
  apply generate_image_ok_inv in Hg.
  destruct Hg as (dimensions & url & rest & content & image & dir
                  & _ & _ & Hdir & Hpath & ->).
  destruct (build_prompt_total description style additional_instructions)
    as (directive & _ & Hb).
  exists (prompt_template description directive additional_instructions),
    dimensions, url, content, image, dir.
  unfold generate_image_prompt in Hp. rewrite Hb in Hp.
  unfold bind, call, index0, ret, raise in Hp.
  destruct (messages_create w (anthropic_client self) (temperature self)
              (prompt_template description directive additional_instructions))
    as [[|text rest']|e]; try discriminate.
  injection Hp as <- <-. split; [reflexivity|].
  split; [now exists rest' | split; [exact Hdir | exact Hpath]].
Qed.

Lemma generate_result_consistent_witness :
  exists t r,
    generate world_ok (sample_generator world_ok false) (py "a red fox")
      CARTOON SQUARE None = (t, Ok r) /\
    prompt r = py "A red fox in fresh snow".
Proof.
  eexists. eexists. split; [vm_compute; reflexivity|].
  destruct (generate_result_consistent world_ok
              (sample_generator world_ok false) (py "a red fox") CARTOON
              SQUARE None _ _ eq_refl) as (p & _).
  reflexivity.
Defined.

Lemma print_Ok_inv (w : World) (text : list piece) (t : trace) (u : unit) :
  print w text = (t, Ok u) -> t = [EPrint (map fragment_of text)].
Proof.
  destruct (print_cases w text) as [E | (e & _ & _ & E)]; rewrite E;
    intros H; [now injection H as <- | discriminate].
Qed.

Lemma run_generation_ok_inv (w : World) (description : str)
    (style : ImageStyle) (images_dir : str)
    (anthropic_api_key openai_api_key : str) (size : ImageSize)
    (additional_instructions : option str) (temperature : temperature_t)
    (verbose : bool) (filename : option str) (t : trace) :
  run_generation w description style images_dir anthropic_api_key
    openai_api_key size additional_instructions temperature verbose filename
  = (t, Ok tt) ->
  exists tg r,
    generate w
      (init w anthropic_api_key openai_api_key temperature verbose
         (resolve_filename description filename) (Some (PathOf images_dir)))
      description style size additional_instructions = (tg, Ok r) /\
    t = [EAnthropic anthropic_api_key; EOpenAI openai_api_key] ++ tg
        ++ [EPrint [Text (nl ++ py "[green]Generation Complete![/green]")];
            EPrint [Text (py "Total processing time: "); Elapsed;
                    Text (py " seconds")]]
        ++ (if verbose
            then [EPrint [Text (py "Generated prompt: "); Text (prompt r)]]
            else [])
        ++ [EPrint [Text (nl ++ py "[green]Image saved to: ");
                    PathText (image_path r); Text (py "[/green]")]].
Proof.
  unfold run_generation. intros H. apply async_def_Ok in H.
  apply bind_Ok_inv in H. destruct H as (t1 & [] & t2 & H1 & H & ->).
  apply bind_Ok_inv in H. destruct H as (t3 & [] & t4 & H3 & H & ->).
  cbv zeta in H.
  apply bind_Ok_inv in H. destruct H as (tg & r & t6 & Hg & H & ->).
  unfold call in H1, H3. injection H1 as <-. injection H3 as <-.
  exists tg, r. split; [exact Hg|].
  apply bind_Ok_inv in H. destruct H as (ta & [] & tb & Ha & H & ->).
  apply bind_Ok_inv in H. destruct H as (tc & [] & td & Hc & H & ->).
  apply bind_Ok_inv in H. destruct H as (te & [] & tf & He & H & ->).
  apply print_Ok_inv in Ha, Hc, H. subst ta tc tf.
  assert (E : te = if verbose
                   then [EPrint [Text (py "Generated prompt: ");
                                 Text (prompt r)]]
                   else []).
  { destruct verbose; [now apply print_Ok_inv in He|].
    unfold ret in He. now injection He as <-. }
  subst te. reflexivity.
Qed.



Lemma create_image_with_keys (w : World) (description : str)
    (style : ImageStyle) (size : ImageSize)
    (additional_instructions filename : option str) (images_dir : str)
    (temperature : temperature_t)
    (anthropic_api_key openai_api_key : option str) (verbose : bool) :
  truthy anthropic_api_key = true -> truthy openai_api_key = true ->
  create_image w description style size additional_instructions filename
    images_dir temperature anthropic_api_key openai_api_key verbose =
  try_except
    (run_generation w description style images_dir (key anthropic_api_key)
       (key openai_api_key) size additional_instructions temperature verbose
       filename)
    (fun e =>
       print w [Lit (Text (py "[red]Error during generation: "));
                Val (Text (exn_str e)); Lit (Text (py "[/red]"))] ;;;
       (if verbose then call EPrintException (Ok tt) else ret tt) ;;;
       raise (Exit 1)).
Proof.
  intros Ha Ho. unfold create_image. rewrite Ha, Ho. cbn [negb].
  f_equal. unfold bind at 1 2, ret.
  destruct (run_generation w description style images_dir
              (key anthropic_api_key) (key openai_api_key) size
              additional_instructions temperature verbose filename)
    as [t [[]|e]]; reflexivity.
Qed.

(** X15.  With both keys present, an [Exception] raised during the run is
    caught once by [create_image].  When its text has no opening bracket,
    or the console accepts the line, the line "Error during generation"
    with the text of the exception is printed after everything the run
    did, followed by the traceback in verbose mode only, and the command
    ends with [Exit(1)].  When the console refuses the line, the exception
    of the console is raised in its place and nothing more is printed.  An
    exception that is not an [Exception] passes through with nothing
    printed. *)
Theorem create_image_reports_errors (w : World) (description : str)
    (style : ImageStyle) (size : ImageSize)
    (additional_instructions filename : option str) (images_dir : str)
    (temperature : temperature_t)
    (anthropic_api_key openai_api_key : option str) (verbose : bool)
    (t : trace) (e : exn)
    (Ha : truthy anthropic_api_key = true)
    (Ho : truthy openai_api_key = true)
    (H : run_generation w description style images_dir (key anthropic_api_key)
           (key openai_api_key) size additional_instructions temperature
           verbose filename = (t, Raise e)) :
  let line := [Text (py "[red]Error during generation: "); Text (exn_str e);
               Text (py "[/red]")] in
  let run := create_image w description style size additional_instructions
               filename images_dir temperature anthropic_api_key
               openai_api_key verbose in
  (is_Exception e = false -> run = (t, Raise e)) /\
  (is_Exception e = true ->
   existsb (N.eqb 0x5b) (exn_str e) = false \/ console_print w line = Ok tt ->
   run = (t ++ EPrint line :: (if verbose then [EPrintException] else []),
          Raise (Exit 1))) /\
  (is_Exception e = true -> existsb (N.eqb 0x5b) (exn_str e) = true ->
   forall e', console_print w line = Raise e' -> run = (t, Raise e')).
Proof.
  cbv zeta. rewrite create_image_with_keys by assumption. rewrite H.
  unfold try_except. split; [intros ->; reflexivity|]. split.
  - intros -> Hp. unfold print. cbv zeta. cbn [existsb brings_markup
      has_bracket map fragment_of orb].
    rewrite orb_false_r.
    destruct (existsb (N.eqb 0x5b) (exn_str e)) eqn:Hb.
    + destruct Hp as [Hp | Hp]; [discriminate|]. rewrite Hp.
      destruct verbose; reflexivity.
    + destruct verbose; reflexivity.
  - intros -> Hb e' He. unfold print. cbv zeta. cbn [existsb brings_markup
      has_bracket map fragment_of orb].
    rewrite orb_false_r, Hb, He. simpl. now rewrite app_nil_r.
Qed.

Lemma create_image_reports_errors_witness :
  exit_status
    (snd (create_image world_service_down (py "a red fox in snow")
            PHOTOREALISTIC SQUARE None None (py "./images")
            (7%Z, 10%positive) (Some (py "sk-ant")) (Some (py "sk-oai"))
            false)) = 1%Z.
Proof.
  destruct (create_image_reports_errors world_service_down
             (py "a red fox in snow") PHOTOREALISTIC SQUARE None None
             (py "./images") (7%Z, 10%positive) (Some (py "sk-ant"))
             (Some (py "sk-oai")) false
             (fst (run_generation world_service_down (py "a red fox in snow")
                     PHOTOREALISTIC (py "./images") (py "sk-ant")
                     (py "sk-oai") SQUARE None (7%Z, 10%positive) false None))
             (Exception (py "rate limit")) eq_refl eq_refl) as (_ & E & _).
  - vm_compute. reflexivity.
  - rewrite E; [reflexivity | reflexivity | left; reflexivity].
Defined.

Lemma run_generation_saves (w : World) (description : str) (style : ImageStyle)
    (images_dir : str) (anthropic_api_key openai_api_key : str)
    (size : ImageSize) (additional_instructions : option str)
    (temperature : temperature_t) (verbose : bool) (filename : option str)
    (t : trace) :
  run_generation w description style images_dir anthropic_api_key
    openai_api_key size additional_instructions temperature verbose filename
  = (t, Ok tt) ->
  exists image,
    In (EImageSave image
          (PathJoin (PathOf images_dir)
             (saved_filename (now w) description filename ++ py ".png"))) t.
Proof.
  intros H. apply run_generation_ok_inv in H. destruct H as (tg & r & Hg & ->).
  apply generate_ok_trace in Hg.
  destruct Hg as (p & dimensions & url & content & image & dir
                  & -> & _ & Hd & Hpath).
  exists image.
  assert (Hdir : image_path r
                 = PathJoin (PathOf images_dir)
                     (saved_filename (now w) description filename ++ py ".png")).
  { rewrite Hpath. simpl in Hd. injection Hd as <-. reflexivity. }
  rewrite <- Hdir. simpl. tauto.
Qed.

Lemma create_image_handler_raises (w : World) (verbose : bool) (e : exn) :
  exists t' e',
    (print w [Lit (Text (py "[red]Error during generation: "));
              Val (Text (exn_str e)); Lit (Text (py "[/red]"))] ;;;
     (if verbose then call EPrintException (Ok tt) else ret tt) ;;;
     @raise unit (Exit 1)) = (t', Raise e').
Proof.
  destruct (print_cases w [Lit (Text (py "[red]Error during generation: "));
                           Val (Text (exn_str e)); Lit (Text (py "[/red]"))])
    as [-> | (e' & _ & _ & ->)].
  - destruct verbose; eexists; eexists; reflexivity.
  - eexists; eexists; reflexivity.
Qed.

(** X16.  When [create_image] ends normally (status 0), both keys were
    present, both clients were created with them before anything else, and
    the image was saved in the images directory under the name chosen from
    the filename or the description; the last line printed is the path of
    the saved image. *)
Theorem create_image_success (w : World) (description : str)
    (style : ImageStyle) (size : ImageSize)
    (additional_instructions filename : option str) (images_dir : str)
    (temperature : temperature_t)
    (anthropic_api_key openai_api_key : option str) (verbose : bool)
    (t : trace)
    (H : create_image w description style size additional_instructions
           filename images_dir temperature anthropic_api_key openai_api_key
           verbose = (t, Ok tt)) :
  let path := PathJoin (PathOf images_dir)
                (saved_filename (now w) description filename ++ py ".png") in
  truthy anthropic_api_key = true /\ truthy openai_api_key = true /\
  (exists t', t = EAnthropic (key anthropic_api_key)
                  :: EOpenAI (key openai_api_key) :: t'
                  ++ [EPrint [Text (nl ++ py "[green]Image saved to: ");
                              PathText path; Text (py "[/green]")]]) /\
  (exists image, In (EImageSave image path) t).
Proof.
  intros path.
  assert (Ha : truthy anthropic_api_key = true).
  { destruct (truthy anthropic_api_key) eqn:E; [reflexivity|].
    unfold create_image in H. rewrite E in H.
    destruct verbose; discriminate. }
  assert (Ho : truthy openai_api_key = true).
  { destruct (truthy openai_api_key) eqn:E; [reflexivity|].
    unfold create_image in H. rewrite Ha, E in H.
    destruct verbose; discriminate. }
  rewrite create_image_with_keys in H by assumption.
  assert (Hr : run_generation w description style images_dir
                 (key anthropic_api_key) (key openai_api_key) size
                 additional_instructions temperature verbose filename
               = (t, Ok tt)).
  { unfold try_except in H.
    destruct (run_generation w description style images_dir
                (key anthropic_api_key) (key openai_api_key) size
                additional_instructions temperature verbose filename)
      as [t0 [[]|e]]; [exact H|].
    destruct (is_Exception e); [|discriminate].
    destruct (create_image_handler_raises w verbose e) as (t' & e' & E).
    rewrite E in H. discriminate. }
  split; [exact Ha|]. split; [exact Ho|]. split.
  - apply run_generation_ok_inv in Hr. destruct Hr as (tg & r & Hg & ->).
    apply generate_ok_trace in Hg.
    destruct Hg as (p & dimensions & url & content & image & dir
                    & -> & _ & Hd & Hpath).
    assert (Hp : image_path r = path).
    { rewrite Hpath. simpl in Hd. injection Hd as <-. reflexivity. }
    rewrite Hp.
    exists ([EMessagesCreate (py "claude-3-sonnet-20240229") 500
               temperature p;
             EImagesGenerate (py "dall-e-3") (prompt r) dimensions
               (py "standard") 1;
             ERequestsGet url; EImageOpen content; EMkdir dir;
             EImageSave image path]
            ++ [EPrint [Text (nl ++ py "[green]Generation Complete![/green]")];
                EPrint [Text (py "Total processing time: "); Elapsed;
                        Text (py " seconds")]]
            ++ (if verbose
                then [EPrint [Text (py "Generated prompt: "); Text (prompt r)]]
                else [])).
    destruct verbose; reflexivity.
  - exact (run_generation_saves _ _ _ _ _ _ _ _ _ _ _ _ Hr).
Qed.

Lemma create_image_success_witness :
  exists image,
    In (EImageSave image
          (PathJoin (PathOf (py "./images")) (py "a-red-fox-in-snow.png")))
      (fst (create_image world_ok (py "a red fox in snow") PHOTOREALISTIC
              SQUARE None None (py "./images") (7%Z, 10%positive)
              (Some (py "sk-ant")) (Some (py "sk-oai")) false)).
Proof.
  refine (proj2 (proj2 (proj2 (create_image_success world_ok
            (py "a red fox in snow") PHOTOREALISTIC SQUARE None None
            (py "./images") (7%Z, 10%positive) (Some (py "sk-ant"))
            (Some (py "sk-oai")) false _ _)))).
  vm_compute. reflexivity.
Defined.

(** ** More on the timestamp *)

Lemma two_digits_value (n : N) :
  n < 100 ->
  exists a b, zfill 2 (str_of_N n) = [a; b] /\ int_of_digits [a; b] = n.
Proof.
  intros Hn.
  pose (P := fun n => match zfill 2 (str_of_N n) with
                      | [a; b] => int_of_digits [a; b] =? n
                      | _ => false
                      end).
  assert (H : P n = true).
  { apply (below_forallb 100 P); [vm_compute; reflexivity | exact Hn]. }
  unfold P in H. destruct (zfill 2 (str_of_N n)) as [|a [|b [|]]]; try discriminate.
  apply N.eqb_eq in H. now exists a, b.
Qed.

Lemma four_digits_value (n : N) :
  1000 <= n <= 9999 ->
  exists a b c d, str_of_N n = [a; b; c; d] /\ int_of_digits [a; b; c; d] = n.
Proof.
  intros Hn.
  pose (P := fun n => (n <? 1000) ||
                      match str_of_N n with
                      | [a; b; c; d] => int_of_digits [a; b; c; d] =? n
                      | _ => false
                      end).
  assert (H : P n = true).
  { apply (below_forallb 10000 P); [vm_compute; reflexivity | lia]. }
  unfold P in H. apply orb_true_iff in H. destruct H as [H | H].
  { apply N.ltb_lt in H. lia. }
  destruct (str_of_N n) as [|a [|b [|c [|d [|]]]]]; try discriminate.
  apply N.eqb_eq in H. now exists a, b, c, d.
Qed.

Lemma strftime_fields (d : datetime) :
  wf_datetime d ->
  let s := strftime d (py "%Y%m%d_%H%M%S") in
  int_of_digits (firstn 4 s) = year d /\
  int_of_digits (firstn 2 (skipn 4 s)) = month d /\
  int_of_digits (firstn 2 (skipn 6 s)) = day d /\
  int_of_digits (firstn 2 (skipn 9 s)) = hour d /\
  int_of_digits (firstn 2 (skipn 11 s)) = minute d /\
  int_of_digits (firstn 2 (skipn 13 s)) = second d.
Proof.
  intros (Hy & Hm & Hd & HH & HM & HS). cbv zeta. rewrite strftime_unfold.
  destruct (four_digits_value (year d) Hy) as (y1 & y2 & y3 & y4 & -> & Ey).
  destruct (two_digits_value (month d)) as (m1 & m2 & -> & Em); [lia|].
  destruct (two_digits_value (day d)) as (d1 & d2 & -> & Ed); [lia|].
  destruct (two_digits_value (hour d)) as (h1 & h2 & -> & Eh); [lia|].
  destruct (two_digits_value (minute d)) as (n1 & n2 & -> & En); [lia|].
  destruct (two_digits_value (second d)) as (s1 & s2 & -> & Es); [lia|].
  cbn [app firstn skipn]. auto 10.
Qed.

(** X17.  The fields of a valid clock reading can be read back from the
    timestamp, so two runs that fall back to the timestamp get the same name
    only when their clock readings agree to the second. *)
Theorem strftime_injective (d1 d2 : datetime) (H1 : wf_datetime d1)
    (H2 : wf_datetime d2)
    (E : strftime d1 (py "%Y%m%d_%H%M%S") = strftime d2 (py "%Y%m%d_%H%M%S")) :
  d1 = d2.
Proof.
  pose proof (strftime_fields d1 H1) as F1.
  pose proof (strftime_fields d2 H2) as F2.
  cbv zeta in F1, F2. rewrite E in F1.
  destruct F1 as (A1 & A2 & A3 & A4 & A5 & A6).
  destruct F2 as (B1 & B2 & B3 & B4 & B5 & B6).
  destruct d1, d2. simpl in *. congruence.
Qed.

Lemma strftime_injective_witness : sample_now = sample_now.
Proof.
  apply strftime_injective; [| |reflexivity]; unfold wf_datetime; simpl; lia.
Defined.

(** ** The progress display *)

Lemma collab_events_app (a b : list pevent) :
  collab_events (a ++ b) = collab_events a ++ collab_events b.
Proof.
  induction a as [|[] a IH]; simpl; rewrite ?IH; reflexivity.
Qed.

Lemma collab_events_map (t : trace) : collab_events (map Collab t) = t.
Proof. induction t as [|ev t IH]; simpl; now rewrite ?IH. Qed.

Lemma advanced_app (a b : list pevent) :
  advanced (a ++ b) = advanced a + advanced b.
Proof.
  induction a as [|[] a IH]; simpl; rewrite ?IH; lia.
Qed.

Lemma advanced_map (t : trace) : advanced (map Collab t) = 0.
Proof. induction t as [|ev t IH]; simpl; now rewrite ?IH. Qed.

Lemma async_def_fst {T A : Type} (body : T * result A) :
  fst (async_def body) = fst body.
Proof. destruct body as [t [a|[]]]; reflexivity. Qed.

Lemma async_def_Ok_iff {T A : Type} (body : T * result A) :
  (exists a, snd (async_def body) = Ok a) <-> (exists a, snd body = Ok a).
Proof.
  destruct body as [t [a|e]]; [reflexivity|].
  split; intros [a H]; destruct e; discriminate.
Qed.

(** X19.  The task is advanced by 30 once the prompt is there, by 60 once
    the image is saved and by 10 right after: the total is 100 exactly when
    [generate] returns, 30 when the image stage raises and 0 when the prompt
    stage raises. *)
Theorem generate_progress_advances (w : World) (self : FlexibleImageGenerator)
    (description : str) (style : ImageStyle) (size : ImageSize)
    (additional_instructions : option str) :
  let gp := generate_progress w self description style size
              additional_instructions in
  advanced (fst gp) =
    match snd (generate_image_prompt w self description style
                 additional_instructions) with
    | Raise _ => 0
    | Ok text =>
        match snd (generate_image w self text size) with
        | Raise _ => 30
        | Ok _ => 100
        end
    end /\
  (advanced (fst gp) = 100 <-> exists r, snd gp = Ok r).
Proof.
  cbv zeta. unfold generate_progress.
  rewrite async_def_fst, async_def_Ok_iff. unfold with_progress.
  unfold pbind, progress_update, collab.
  destruct (generate_image_prompt w self description style
              additional_instructions) as [tp [text|e]]; cbn [fst snd];
    [destruct (generate_image w self text size) as [tg [p|e]]; cbn [fst snd]|];
    repeat first [ rewrite advanced_app | rewrite advanced_map
                 | progress cbn [advanced app] ];
    (split; [reflexivity|]).
  - split; [intros _; eexists; reflexivity | reflexivity].
  - split; [discriminate | intros [r Hr]; discriminate].
  - split; [discriminate | intros [r Hr]; discriminate].
Qed.

(** X20.  When [generate] returns, the display and the collaborators have
    seen exactly this sequence: start, the task of 100 units, "Generating
    prompt", the call to the text service, 30 units, "Creating image", the
    five steps of the fetcher ending with the save, 60 units, "Saving
    image" (shown only after the image has been saved), 10 units, stop. *)
Theorem generate_progress_success (w : World) (self : FlexibleImageGenerator)
    (description : str) (style : ImageStyle) (size : ImageSize)
    (additional_instructions : option str) (t : list pevent)
    (r : GenerationResult)
    (H : generate_progress w self description style size
           additional_instructions = (t, Ok r)) :
  exists p dimensions url content image dir,
    images_dir self = Some dir /\
    t = [PStart;
         PAddTask (py "[cyan]Generating image...") 100;
         PDescription (py "[cyan]Generating prompt...");
         Collab (EMessagesCreate (py "claude-3-sonnet-20240229") 500
                   (temperature self) p);
         PAdvance 30;
         PDescription (py "[cyan]Creating image...");
         Collab (EImagesGenerate (py "dall-e-3") (prompt r) dimensions
                   (py "standard") 1);
         Collab (ERequestsGet url);
         Collab (EImageOpen content);
         Collab (EMkdir dir);
         Collab (EImageSave image (image_path r));
         PAdvance 60;
         PDescription (py "[cyan]Saving image...");
         PAdvance 10;
         PStop].
Proof.
  unfold generate_progress in H. apply async_def_Ok in H.
  unfold with_progress in H.
  unfold pbind, progress_update, collab in H.
  destruct (generate_image_prompt_no_image_call w self description style
              additional_instructions) as [p Hp].
  destruct (generate_image_prompt w self description style
              additional_instructions) as [tp [text|e]];
    cbn [fst snd] in H, Hp; [|discriminate].
  destruct (generate_image w self text size) as [tg [path|e]] eqn:Hg;
    cbn [fst snd] in H; [|discriminate].
  apply generate_image_ok_inv in Hg.
  destruct Hg as (dimensions & url & rest & content & image & dir
                  & _ & _ & Hdir & _ & ->).
  subst tp. cbn in H. injection H as <- <-.
  exists p, dimensions, url, content, image, dir. now split.
Qed.

Lemma generate_progress_success_witness :
  advanced
    (fst (generate_progress world_ok (sample_generator world_ok false)
            (py "a red fox") CARTOON SQUARE None)) = 100.
Proof.
  destruct (generate_progress_success world_ok
              (sample_generator world_ok false) (py "a red fox") CARTOON
              SQUARE None
              (fst (generate_progress world_ok (sample_generator world_ok false)
                      (py "a red fox") CARTOON SQUARE None))
              {| image_path := PathJoin (PathOf (py "./images")) (py "fox.png");
                 prompt := py "A red fox in fresh snow" |})
    as (p & dimensions & url & content & image & dir & _ & E).
  - vm_compute. reflexivity.
  - rewrite E. reflexivity.
Defined.

(** ** Words and separators *)

Lemma lower_plain (c : char) :
  c <> 0x130 ->
  exists c', lower_char c = [c'] /\ c' <> 0x130 /\ is_word c' = is_word c /\
             is_space c' = is_space c /\ (c' =? hyphen) = (c =? hyphen) /\
             lower_char c' = [c'].
Proof.
  intros Hc. destruct (lower_regular c Hc) as (c' & E & Hk).
  apply same_class_spec in Hk. destruct Hk as (Ew & Es & Eh & Ef & Hn & _).
  exists c'. auto 10.
Qed.

Lemma plain_runs (b : bool) (s : str) :
  plain s -> plain (re_sub_runs_from hyphen_or_space [hyphen] b s).
Proof.
  intros H. pose proof (runs_chars (fun c => c <> 0x130) b s H) as Hr.
  eapply Forall_impl; [|exact Hr]. simpl.
  intros c [-> | [_ Hc]]; [discriminate | exact Hc].
Qed.

Lemma lstrip_runs_flag (u : str) :
  lstrip hyphen
    (lower_each (re_sub_runs_from hyphen_or_space [hyphen] true u))
  = lstrip hyphen
      (lower_each (re_sub_runs_from hyphen_or_space [hyphen] false u)).
Proof.
  destruct u as [|c t]; [reflexivity|]. simpl.
  destruct (hyphen_or_space c); reflexivity.
Qed.

Lemma core_separator (c : char) (u : str) :
  hyphen_or_space c = true ->
  collapse_each (c :: u) = collapse_each u.
Proof.
  intros Hc. unfold collapse_each, re_sub_runs, strip.
  change (re_sub_runs_from hyphen_or_space [hyphen] false (c :: u))
    with (if hyphen_or_space c
          then [hyphen] ++ re_sub_runs_from hyphen_or_space [hyphen] true u
          else c :: re_sub_runs_from hyphen_or_space [hyphen] false u).
  rewrite Hc.
  set (Z := re_sub_runs_from hyphen_or_space [hyphen] true u).
  change (lstrip hyphen (lower_each ([hyphen] ++ Z)))
    with (lstrip hyphen (lower_each Z)).
  unfold Z. now rewrite lstrip_runs_flag.
Qed.

Lemma startswith_lower_each (x : str) :
  plain x -> startswith hyphen (lower_each x) = startswith hyphen x.
Proof.
  intros H. destruct H as [|c t Hc _]; [reflexivity|].
  destruct (lower_plain c Hc) as (c' & E & _ & _ & _ & Eh & _).
  rewrite lower_each_cons, E. exact Eh.
Qed.

Lemma core_word (c : char) (u : str) :
  c <> 0x130 -> hyphen_or_space c = false -> plain u ->
  collapse_each (c :: u) =
  lower_char c ++
  match collapse_each u with
  | [] => []
  | rest => if starts_with_separator u then hyphen :: rest else rest
  end.
Proof.
  intros Hc Hs Hu.
  destruct (lower_plain c Hc) as (c' & E & _ & _ & _ & Eh & _).
  destruct (hyphen_or_space_false c Hs) as [Hh _]. rewrite Hh in Eh.
  unfold collapse_each, re_sub_runs, strip.
  change (re_sub_runs_from hyphen_or_space [hyphen] false (c :: u))
    with (if hyphen_or_space c
          then [hyphen] ++ re_sub_runs_from hyphen_or_space [hyphen] true u
          else c :: re_sub_runs_from hyphen_or_space [hyphen] false u).
  rewrite Hs, lower_each_cons, E.
  set (Y := lower_each (re_sub_runs_from hyphen_or_space [hyphen] false u)).
  change (lstrip hyphen ([c'] ++ Y))
    with (if c' =? hyphen then lstrip hyphen Y else c' :: Y).
  rewrite Eh.
  change (rstrip hyphen (c' :: Y))
    with (match rstrip hyphen Y with
          | [] => if c' =? hyphen then [] else [c']
          | t' => c' :: t'
          end).
  rewrite Eh.
  assert (HY : rstrip hyphen Y =
               match rstrip hyphen (lstrip hyphen Y) with
               | [] => []
               | rest => if starts_with_separator u then hyphen :: rest
                         else rest
               end).
  { unfold Y. clear Y. destruct Hu as [|d t Hd Ht]; [reflexivity|].
    unfold starts_with_separator.
    change (re_sub_runs_from hyphen_or_space [hyphen] false (d :: t))
      with (if hyphen_or_space d
            then [hyphen] ++ re_sub_runs_from hyphen_or_space [hyphen] true t
            else d :: re_sub_runs_from hyphen_or_space [hyphen] false t).
    destruct (hyphen_or_space d) eqn:Hsd.
    - set (Z := lower_each (re_sub_runs_from hyphen_or_space [hyphen] true t)).
      change (lower_each ([hyphen] ++ re_sub_runs_from hyphen_or_space [hyphen]
                                   true t)) with (hyphen :: Z).
      change (lstrip hyphen (hyphen :: Z)) with (lstrip hyphen Z).
      assert (HZ : startswith hyphen Z = false).
      { unfold Z. rewrite startswith_lower_each by now apply plain_runs.
        now apply (runs_shape true t). }
      rewrite (lstrip_fixed hyphen Z HZ).
      change (rstrip hyphen (hyphen :: Z))
        with (match rstrip hyphen Z with
              | [] => if hyphen =? hyphen then [] else [hyphen]
              | t' => hyphen :: t'
              end).
      destruct (rstrip hyphen Z); reflexivity.
    - destruct (lower_plain d Hd) as (d' & Ed & _ & _ & _ & Edh & _).
      destruct (hyphen_or_space_false d Hsd) as [Hdh _]. rewrite Hdh in Edh.
      rewrite lower_each_cons, Ed.
      change (lstrip hyphen ([d'] ++ ?x))
        with (if d' =? hyphen then lstrip hyphen x else d' :: x).
      rewrite Edh.
      cbn [app]. destruct (rstrip hyphen (d' :: _)); reflexivity. }
  rewrite HY.
  destruct (rstrip hyphen (lstrip hyphen Y)); [reflexivity|].
  destruct (starts_with_separator u); reflexivity.
Qed.

Lemma core_nonempty_of_word (c : char) (u : str) :
  c <> 0x130 -> hyphen_or_space c = false -> plain u ->
  collapse_each (c :: u) <> [].
Proof.
  intros Hc Hs Hu. rewrite core_word by assumption.
  destruct (lower_plain c Hc) as (c' & E & _). rewrite E. discriminate.
Qed.

Lemma core_nil_separators (u : str) :
  plain u -> collapse_each u = [] ->
  Forall (fun c => hyphen_or_space c = true) u.
Proof.
  induction 1 as [|c t Hc Ht IH]; intros H; [constructor|].
  destruct (hyphen_or_space c) eqn:Hs.
  - constructor; [exact Hs|]. apply IH. now rewrite core_separator in H.
  - now apply core_nonempty_of_word in H.
Qed.

Lemma core_separators_app (x y : str) :
  Forall (fun c => hyphen_or_space c = true) x ->
  collapse_each (x ++ y) = collapse_each y.
Proof.
  induction 1 as [|c t Hc _ IH]; [reflexivity|].
  simpl. now rewrite core_separator.
Qed.

Lemma plain_separators (r : str) :
  Forall (fun c => hyphen_or_space c = true) r -> plain r.
Proof.
  apply Forall_impl. intros c H ->. discriminate.
Qed.

Lemma core_join (u1 r u2 : str) :
  plain u1 -> plain u2 -> r <> [] ->
  Forall (fun c => hyphen_or_space c = true) r ->
  collapse_each u1 <> [] -> collapse_each u2 <> [] ->
  collapse_each (u1 ++ r ++ u2)
  = collapse_each u1 ++ hyphen :: collapse_each u2.
Proof.
  intros H1 H2 Hr Hsep. induction u1 as [|c t IH]; intros N1 N2.
  - now contradiction N1.
  - assert (Hc : c <> 0x130) by now inversion H1.
    assert (Ht : plain t) by now inversion H1.
    specialize (IH Ht).
    assert (HX : plain (t ++ r ++ u2)).
    { apply Forall_app. split; [exact Ht|]. apply Forall_app.
      split; [now apply plain_separators | exact H2]. }
    change ((c :: t) ++ r ++ u2) with (c :: (t ++ r ++ u2)).
    destruct (hyphen_or_space c) eqn:Hs.
    + rewrite !core_separator by exact Hs.
      rewrite core_separator in N1 by exact Hs. now apply IH.
    + rewrite !core_word by assumption.
      destruct (lower_plain c Hc) as (c' & E & _). rewrite E.
      destruct (collapse_each t) as [|a ct] eqn:Et.
      * pose proof (core_nil_separators t Ht Et) as Hall.
        assert (Ecore : collapse_each (t ++ r ++ u2)
                        = collapse_each u2).
        { rewrite app_assoc. apply core_separators_app.
          apply Forall_app. now split. }
        rewrite Ecore.
        assert (Hsw : starts_with_separator (t ++ r ++ u2) = true).
        { destruct Hall as [|d t' Hd _]; [|exact Hd].
          destruct Hsep as [|d r' Hd _]; [congruence | exact Hd]. }
        rewrite Hsw.
        destruct (collapse_each u2); [congruence | reflexivity].
      * rewrite IH by (assumption || discriminate).
        assert (Hsw : starts_with_separator (t ++ r ++ u2)
                      = starts_with_separator t).
        { destruct t; [discriminate Et | reflexivity]. }
        rewrite Hsw. simpl.
        destruct (starts_with_separator t); reflexivity.
Qed.

Lemma sanitize_core (s : str) :
  sanitize_filename s
  = collapse_lower_strip (re_sub_delete not_word_space_hyphen s).
Proof. reflexivity. Qed.

Lemma collapse_no_sigma (u : str) :
  Forall (fun c => c <> capital_sigma) u ->
  collapse_lower_strip u = collapse_each u.
Proof.
  intros H. unfold collapse_lower_strip, collapse_each, lower, lower_each.
  rewrite lower_from_flat; [reflexivity|].
  pose proof (runs_chars (fun c => c <> capital_sigma) false u H) as Hr.
  eapply Forall_impl; [|exact Hr]. simpl.
  intros c [-> | [_ Hc]]; [discriminate | exact Hc].
Qed.

Lemma separators_no_sigma (r : str) :
  Forall (fun c => hyphen_or_space c = true) r ->
  Forall (fun c => c <> capital_sigma) r.
Proof. apply Forall_impl. intros c H ->. discriminate. Qed.

(** X21.  Two strings of Latin-1 characters, each with a word character,
    joined by any non-empty run of hyphens and whitespace, are sanitized to
    their two sanitized names joined by one hyphen. *)
Theorem sanitize_filename_join (s1 r s2 : str) (H1 : latin1 s1)
    (H2 : latin1 s2) (Hr : r <> [])
    (Hsep : Forall (fun c => hyphen_or_space c = true) r)
    (N1 : sanitize_filename s1 <> []) (N2 : sanitize_filename s2 <> []) :
  sanitize_filename (s1 ++ r ++ s2)
  = sanitize_filename s1 ++ [hyphen] ++ sanitize_filename s2.
Proof.
  rewrite !sanitize_core in *.
  unfold re_sub_delete at 1. rewrite !filter_app.
  fold (re_sub_delete not_word_space_hyphen s1).
  fold (re_sub_delete not_word_space_hyphen s2).
  fold (re_sub_delete not_word_space_hyphen r).
  pose proof (latin1_delete not_word_space_hyphen s1 H1) as L1.
  pose proof (latin1_delete not_word_space_hyphen s2 H2) as L2.
  rewrite (delete_fixed not_word_space_hyphen r).
  - rewrite (collapse_no_sigma (re_sub_delete not_word_space_hyphen s1))
      in * by now apply latin1_no_sigma.
    rewrite (collapse_no_sigma (re_sub_delete not_word_space_hyphen s2))
      in * by now apply latin1_no_sigma.
    rewrite collapse_no_sigma.
    + apply core_join; try assumption; now apply latin1_plain.
    + apply Forall_app. split; [now apply latin1_no_sigma|].
      apply Forall_app.
      split; [now apply separators_no_sigma | now apply latin1_no_sigma].
  - eapply Forall_impl; [|exact Hsep]. intros c Hc.
    unfold hyphen_or_space in Hc. unfold not_word_space_hyphen.
    apply negb_false_iff. apply orb_true_iff in Hc.
    destruct Hc as [-> | ->]; now rewrite ?orb_true_r.
Qed.

Lemma sanitize_filename_join_witness :
  sanitize_filename (py "Red Fox!" ++ py " - - " ++ py "(in) Snow")
  = sanitize_filename (py "Red Fox!") ++ [hyphen]
    ++ sanitize_filename (py "(in) Snow").
Proof.
  apply sanitize_filename_join.
  - apply Forall_forall. intros c Hc. simpl in Hc.
    repeat (destruct Hc as [<- | Hc]; [reflexivity|]). contradiction.
  - apply Forall_forall. intros c Hc. simpl in Hc.
    repeat (destruct Hc as [<- | Hc]; [reflexivity|]). contradiction.
  - discriminate.
  - apply Forall_forall. intros c Hc. simpl in Hc.
    repeat (destruct Hc as [<- | Hc]; [reflexivity|]). contradiction.
  - discriminate.
  - discriminate.
Defined.
